(** * clanker-sdk: the v4 deployment compiler and its execution pipeline

    A shallow embedding of
      - src/config/clankerTokenV4.ts   (schema refinements, airdrop rounding,
                                        fee encoder, extension list),
      - src/utils/errors.ts            (error classifier),
      - src/utils/write-clanker-contracts.ts (estimate / simulate / write),
      - the v4 deployment module       (deployToken, waitForTransaction),
      - the v4 [Clanker] class         (getVaultClaimableAmount),
    followed by the properties proved about them.

    Conventions.  A JavaScript [bigint] is a [Z]; [/] and [%] on bigints
    truncate toward zero, hence [Z.quot] and [Z.rem].  A JavaScript [number]
    that the code treats as a count (basis points, ticks, seconds, percent)
    is a [Z] as well: the model covers the integer-valued inputs.  Ether
    amounts, which are fractional, stay abstract (see [Section Converter]). *)

From stdpp Require Import base numbers option list strings pretty gmap.
From Stdlib Require Import ZArith Lia.
From Stdlib Require DecimalString DecimalZ DecimalPos.

Local Open Scope string_scope.
Local Open Scope list_scope.
Local Open Scope Z_scope.

#[local] Set Warnings "-register-all".

(** ** JavaScript primitives the code relies on *)

Module Js.

(** Truthiness of a (non-NaN) number: everything but zero. *)
Definition truthy_number (n : Z) : bool := negb (n =? 0).

(** [a % b === 0] on numbers.  With [b = 0] the remainder is NaN, and
    [NaN === 0] is false. *)
Definition rem_is_zero (a b : Z) : bool :=
  if b =? 0 then false else Z.rem a b =? 0.

(** [Array.prototype.reduce] with an initial value. *)
Definition reduce {A B : Type} (f : B -> A -> B) (init : B) (xs : list A) : B :=
  fold_left f xs init.

Definition some {A : Type} (p : A -> bool) (xs : list A) : bool := existsb p xs.
Definition every {A : Type} (p : A -> bool) (xs : list A) : bool := forallb p xs.

(** [hay.includes(needle)] on strings. *)
Fixpoint includes (needle hay : string) : bool :=
  if String.prefix needle hay then true
  else match hay with
       | EmptyString => false
       | String _ rest => includes needle rest
       end.

End Js.

(** ** Basis-point allocator (clankerTokenV4.ts, lines 333-350) *)

Module Allocator.

Section WithSupply.

(** [DEFAULT_SUPPLY] is imported from src/constants.ts, which is not part
    of the sources at hand; the arithmetic below is written over any
    value of it. *)
Variable DEFAULT_SUPPLY : Z.

(** [BigInt(cfg.airdrop?.amount || 0) * BigInt(1e18)], on the amount
    already defaulted to 0. *)
Definition airdropAmount (amount : Z) : Z := amount * 10 ^ 18.

Definition bpsAirdropped (airdropAmount : Z) : Z :=
  Z.quot (airdropAmount * 10000) DEFAULT_SUPPLY +
  (if Z.rem (airdropAmount * 10000) DEFAULT_SUPPLY =? 0 then 0 else 1).

Definition roundingVerificationAirdrop (bpsAirdropped : Z) : Z :=
  Z.quot (bpsAirdropped * DEFAULT_SUPPLY) 10000.

Definition roundedAirdropTooLow (airdropAmount roundingVerificationAirdrop : Z) : bool :=
  airdropAmount >? roundingVerificationAirdrop.

Definition roundedAirdropTooHigh (airdropAmount roundingVerificationAirdrop : Z) : bool :=
  Z.quot ((roundingVerificationAirdrop - airdropAmount) * 10000) DEFAULT_SUPPLY >? 1.

End WithSupply.

(** Modelled from the spec: the constant [DEFAULT_SUPPLY] of
    src/constants.ts, which the spec gives as 100,000,000,000 tokens of 18
    decimals. *)
Definition SPEC_DEFAULT_SUPPLY : Z := 100000000000 * 10 ^ 18.

(** The ceiling of a quotient, as the spec words it. *)
Definition ceil_div (x y : Z) : Z := - ((- x) / y).

End Allocator.

(** ** Schema refinements (clankerTokenV4.ts, lines 80-121 and 257-278) *)

Definition Address := string.

Module Schema.

Record Position := {
  tickLower : Z;
  tickUpper : Z;
  positionBps : Z;
}.

Inductive PairedToken :=
| WETH
| PairedAddress (a : Address).

(** The parsed [pool] object. *)
Record Pool := {
  pairedToken : PairedToken;
  tickIfToken0IsClanker : Z;
  tickSpacing : Z;
  positions : list Position;
}.

(** What a caller may pass for [pool]: every field but [positions] has a
    default. *)
Record PoolInput := {
  in_pairedToken : option PairedToken;
  in_tickIfToken0IsClanker : option Z;
  in_tickSpacing : option Z;
  in_positions : list Position;
}.

(** [positionBps: z.number().min(0).max(10_000)] *)
Definition position_schema (p : Position) : bool :=
  (0 <=? positionBps p) && (positionBps p <=? 10000).

(** The callback handed to [.refine] on the positions array (line 101).
    It returns the number the reduction ends on. *)
Definition positions_refinement (v : list Position) : Z :=
  Js.reduce (fun agg cur => agg + positionBps cur) 10000 v.

(** [z.array(...).min(1).refine(...)]: a refinement passes when its
    callback returns a truthy value. *)
Definition positions_schema (v : list Position) : bool :=
  Js.every position_schema v
  && (1 <=? Z.of_nat (length v))
  && Js.truthy_number (positions_refinement v).

Definition touches_starting_tick (v : Pool) : bool :=
  Js.some (fun p => tickLower p =? tickIfToken0IsClanker v) (positions v).

Definition ticks_are_multiples (v : Pool) : bool :=
  Js.every
    (fun p => Js.rem_is_zero (tickLower p) (tickSpacing v)
              && Js.rem_is_zero (tickUpper p) (tickSpacing v))
    (positions v).

Section WithConstants.

(** [addressSchema] of src/utils/zod-onchain.ts and
    [POOL_POSITIONS.Standard] of src/constants.ts are not among the
    sources at hand. *)
Variable addressSchema : Address -> bool.
Variable POOL_POSITIONS_Standard : list Position.

Definition pairedToken_schema (t : PairedToken) : bool :=
  match t with
  | WETH => true
  | PairedAddress a => addressSchema a
  end.

Definition pool_prefault : PoolInput := {|
  in_pairedToken := Some WETH;
  in_tickIfToken0IsClanker := Some (-230400);
  in_tickSpacing := None;
  in_positions := POOL_POSITIONS_Standard;
|}.

(** [z.object({...}).prefault({...}).refine(...).refine(...)]:
    [None] stands for the ZodError that [parse] throws. *)
Definition pool_schema (input : option PoolInput) : option Pool :=
  let i := default pool_prefault input in
  let v := {|
    pairedToken := default WETH (in_pairedToken i);
    tickIfToken0IsClanker := default (-230400) (in_tickIfToken0IsClanker i);
    tickSpacing := default 200 (in_tickSpacing i);
    positions := in_positions i;
  |} in
  if pairedToken_schema (pairedToken v)
     && positions_schema (positions v)
     && touches_starting_tick v
     && ticks_are_multiples v
  then Some v else None.

End WithConstants.

(** Which token a reward recipient takes fees in ([FeeIn], [FeeInToInt]). *)
Inductive FeeIn := Both | Paired | Clanker.

Definition FeeInToInt (t : FeeIn) : Z :=
  match t with Both => 0 | Paired => 1 | Clanker => 2 end.

Record Recipient := {
  admin : Address;
  recipient : Address;
  bps : Z;
  token : FeeIn;
}.

(** The sibling refinement on the reward recipients (line 274), which
    does compare the sum against 10,000. *)
Definition recipients_refinement (v : list Recipient) : bool :=
  Js.reduce (fun agg cur => agg + bps cur) 0 v =? 10000.

(** The sum of the shares of a position list. *)
Definition positions_sum (v : list Position) : Z :=
  foldr (fun p acc => positionBps p + acc) 0 v.

End Schema.

(** ** ABI-encoded data

    [encodeAbiParameters] is viem's; the ABI descriptions it is called with
    live under src/abi/, outside the sources at hand.  An encoded block is
    therefore kept as the call that produces it: which description, which
    arguments. *)

Module Abi.

Inductive Description :=
| ClankerLpLocker_Instantiation_v4_abi
| ClankerHook_StaticFee_Instantiation_v4_abi
| ClankerHook_DynamicFee_Instantiation_v4_abi
| Clanker_PoolInitializationData_v4_1_abi
| Clanker_MevSniperAuction_InitData_v4_1_abi
| ClankerVault_Instantiation_v4_abi
| ClankerAirdropV2_Instantiation_v4_abi
| ClankerUniv3EthDevBuy_Instantiation_v4_abi
| ClankerUniV4EthDevBuy_Instantiation_v4_abi.

Inductive Value :=
| Num (n : Z)                               (* a number *)
| Big (n : Z)                               (* a bigint *)
| Addr (a : Address)
| Bytes (h : Hex)
| Struct (fields : list (string * Value))   (* an object, by field name *)
| Arr (items : list Value)
with Hex :=
| Literal (s : string)                      (* a hex string as given *)
| encodeAbiParameters (abi : Description) (args : list Value).

Definition zeroAddress : Address := "0x0000000000000000000000000000000000000000".
Definition zeroHash : Hex :=
  Literal "0x0000000000000000000000000000000000000000000000000000000000000000".

End Abi.

(** ** The parsed configuration ([z.infer<typeof clankerTokenV4>]) *)

Module Config.
Import Schema Abi.

Record PoolExtension := {
  pe_address : Address;
  pe_initData : Hex;
}.

Inductive LockerChoice :=
| Locker
| LockerAddress (a : Address).

Record LockerCfg := {
  locker : LockerChoice;
  lockerData : Hex;
}.

Record Vault := {
  percentage : Z;
  vault_lockupDuration : Z;
  vault_vestingDuration : Z;
  vault_recipient : option Address;
}.

Record Airdrop := {
  airdrop_admin : option Address;
  merkleRoot : Hex;
  airdrop_lockupDuration : Z;
  airdrop_vestingDuration : Z;
  amount : Z;
}.

Record PoolKey := {
  currency0 : Address;
  currency1 : Address;
  fee : Z;
  pk_tickSpacing : Z;
  hooks : Address;
}.

Record StaticFee := {
  clankerFee : Z;
  pairedFee : Z;
}.

Record DynamicFee := {
  baseFee : Z;
  maxFee : Z;
  referenceTickFilterPeriod : Z;
  resetPeriod : Z;
  resetTickFilter : Z;
  feeControlNumerator : Z;
  decayFilterBps : Z;
}.

(** The [fees] union, discriminated on [type]. *)
Inductive Fees :=
| static (f : StaticFee)
| dynamic (f : DynamicFee).

Record SniperFees := {
  startingFee : Z;
  endingFee : Z;
  secondsToDecay : Z;
}.

Record Rewards := {
  recipients : list Recipient;
}.

Section WithNumbers.

(** The type of the fractional numbers ([ethAmount], [amountOutMin]) and
    the types behind [ClankerMetadataSchema] and [ClankerContextSchema]. *)
Variables Number Metadata Context : Type.

(** The [devBuy] union, discriminated on [poolType]. *)
Inductive DevBuy :=
| v4 (ethAmount : Number) (poolKey : PoolKey) (amountOutMin : Number)
| v3 (ethAmount : Number) (v3PoolFee : Z) (amountOutMin : Number).

Definition ethAmount (d : DevBuy) : Number :=
  match d with v4 e _ _ => e | v3 e _ _ => e end.

Record Cfg := {
  name : string;
  symbol : string;
  image : string;
  chainId : Z;
  tokenAdmin : Address;
  metadata : option Metadata;
  context : Context;
  poolExtension : PoolExtension;
  pool : Pool;
  locker_cfg : LockerCfg;
  vault : option Vault;
  airdrop : option Airdrop;
  devBuy : option DevBuy;
  fees : Fees;
  sniperFees : SniperFees;
  rewards : option Rewards;
  vanity : bool;
}.

End WithNumbers.

Arguments v4 {Number}.
Arguments v3 {Number}.
Arguments ethAmount {Number}.
Arguments name {Number Metadata Context}.
Arguments symbol {Number Metadata Context}.
Arguments image {Number Metadata Context}.
Arguments chainId {Number Metadata Context}.
Arguments tokenAdmin {Number Metadata Context}.
Arguments metadata {Number Metadata Context}.
Arguments context {Number Metadata Context}.
Arguments poolExtension {Number Metadata Context}.
Arguments pool {Number Metadata Context}.
Arguments locker_cfg {Number Metadata Context}.
Arguments vault {Number Metadata Context}.
Arguments airdrop {Number Metadata Context}.
Arguments devBuy {Number Metadata Context}.
Arguments fees {Number Metadata Context}.
Arguments sniperFees {Number Metadata Context}.
Arguments rewards {Number Metadata Context}.
Arguments vanity {Number Metadata Context}.

End Config.

(** ** The transaction handed to the execution pipeline
    ([ClankerTransactionConfig], with [expectedAddress] of
    [ClankerDeployConfig]) *)

Module Tx.

Inductive ContractAbi := Clanker_v4_abi | ClankerVault_v4_abi | OtherAbi (n : string).

Record Config (Args : Type) := {
  abi : ContractAbi;
  address : Address;
  functionName : string;
  args : Args;
  gas : option Z;
  gasPrice : option Z;
  value : option Z;
  chainId : option Z;
  expectedAddress : option Address;
}.

Arguments abi {Args}.
Arguments address {Args}.
Arguments functionName {Args}.
Arguments args {Args}.
Arguments gas {Args}.
Arguments gasPrice {Args}.
Arguments value {Args}.
Arguments chainId {Args}.
Arguments expectedAddress {Args}.

(** [{ ...tx, gas: g }] *)
Definition with_gas {Args} (tx : Config Args) (g : Z) : Config Args := {|
  abi := abi tx; address := address tx; functionName := functionName tx;
  args := args tx; gas := Some g; gasPrice := gasPrice tx; value := value tx;
  chainId := chainId tx; expectedAddress := expectedAddress tx;
|}.

End Tx.

(** ** The deployment arguments ([deployToken] of the v4 factory) *)

Module Payload.
Import Abi.

Record TokenConfig := {
  tokenAdmin : Address;
  name : string;
  symbol : string;
  salt : Hex;
  image : string;
  metadata : string;
  context : string;
  originatingChainId : Z;
}.

Record LockerConfig := {
  locker : Address;
  lockerData : Hex;
  rewardAdmins : list Address;
  rewardRecipients : list Address;
  rewardBps : list Z;
  tickLower : list Z;
  tickUpper : list Z;
  positionBps : list Z;
}.

Record PoolConfig := {
  pairedToken : option Address;
  tickIfToken0IsClanker : Z;
  tickSpacing : Z;
  hook : Address;
  poolData : Hex;
}.

Record MevModuleConfig := {
  mevModule : Address;
  mevModuleData : Hex;
}.

Record ExtensionConfig := {
  extension : Address;
  msgValue : Z;
  extensionBps : Z;
  extensionData : Hex;
}.

Record DeploymentConfig := {
  tokenConfig : TokenConfig;
  lockerConfig : LockerConfig;
  poolConfig : PoolConfig;
  mevModuleConfig : MevModuleConfig;
  extensionConfigs : list ExtensionConfig;
}.

End Payload.

(** ** Deployment targets ([ClankerDeployment<RelatedV4>] of
    src/utils/clankers.ts, as the converter reads it) *)

Module Target.

Record RelatedV4 := {
  locker : Address;
  vault : Address;
  airdrop : Address;
  devbuy : Address;
  devbuyV3 : option Address;
  mevModule : Address;
  mevModuleV2 : option Address;
  feeStaticHook : Address;
  feeStaticHookV2 : option Address;
  feeDynamicHook : Address;
  feeDynamicHookV2 : option Address;
}.

Record ClankerDeployment := {
  address : Address;
  related : option RelatedV4;
}.

End Target.

(** ** The converter (clankerTokenV4.ts, lines 284-590) *)

Module Converter.
Import Abi.

(** What the converter throws. *)
Inductive Error :=
| NoConfiguration (chainId : Z)
    (* `No clanker v4 configuration for chain ${cfg.chainId}` *)
| VanityRejected
    (* the address-mining request was rejected *)
| PrecisionTooLow (expected allocated difference : Z)
    (* `Precision error for airdrop. Expected ... but only ... allocated.` *)
| PrecisionTooHigh (difference : Z)
    (* `Precision error for airdrop. Difference ... is too large.` *)
| DevBuyV3NotDeployed
    (* 'V3 devBuy extension is not deployed on this chain. ...' *)
| RangeError.
    (* BigInt(x) on a number that is not an integer *)

Definition Result (A : Type) : Type := Error + A.

Definition bind {A B} (m : Result A) (k : A -> Result B) : Result B :=
  match m with
  | inl e => inl e
  | inr a => k a
  end.

Definition guard (throws : bool) (e : Error) : Result unit :=
  if throws then inl e else inr tt.

Definition or_throw {A} (o : option A) (e : Error) : Result A :=
  match o with
  | Some a => inr a
  | None => inl e
  end.

Notation "'let!' x ':=' m 'in' k" := (bind m (fun x => k))
  (at level 10, x name, m at level 100, k at level 200).

Record FeeConfig := {
  hook : Address;
  poolData : Hex;
}.

Section Converter.

Variables Number Metadata Context : Type.

(** [BigInt(x * 1e18)]: the product is taken in double precision, and
    [BigInt] throws a RangeError ([None]) unless it is an integer. *)
Variable to_wei : Number -> option Z.

(** viem's [stringify] on the metadata and on the social context. *)
Variable stringify_metadata : Metadata -> string.
Variable stringify_context : Context -> string.

(** src/constants.ts and src/utils/clankers.ts. *)
Variable DEFAULT_SUPPLY : Z.
Variable WETH_ADDRESSES : Z -> option Address.
Variable clankerConfigFor : Z -> option Target.ClankerDeployment.

(** The address-mining request of src/services/vanityAddress.ts, on the
    constructor arguments, the admin, the suffix and the target:
    [None] when it is rejected, else the salt and the address. *)
Variable findVanityAddressV4 :
  string * string * Z * Address * string * string * string * Z ->
  Address -> string -> Target.ClankerDeployment -> option (Hex * Address).

Abbreviation Cfg := (Config.Cfg Number Metadata Context).

Definition pool_initialization_data (tokenConfig : Cfg) (feeData : Hex) : Hex :=
  encodeAbiParameters Clanker_PoolInitializationData_v4_1_abi
    [Struct [("extension", Addr (Config.pe_address (Config.poolExtension tokenConfig)));
             ("extensionData", Bytes (Config.pe_initData (Config.poolExtension tokenConfig)));
             ("feeData", Bytes feeData)]].

(** [encodeFeeConfig], lines 460-530.  The closing
    [throw new Error('Invalid config type')] has no input: [fees] is a
    closed union. *)
Definition encodeFeeConfig (tokenConfig : Cfg) (related : Target.RelatedV4) : FeeConfig :=
  match Config.fees tokenConfig with
  | Config.static config =>
      let feeData :=
        encodeAbiParameters ClankerHook_StaticFee_Instantiation_v4_abi
          [Num (Config.clankerFee config * 100);
           Num (Config.pairedFee config * 100)] in
      match Target.feeStaticHookV2 related with
      | Some hookV2 =>
          {| hook := hookV2; poolData := pool_initialization_data tokenConfig feeData |}
      | None =>
          {| hook := Target.feeStaticHook related; poolData := feeData |}
      end
  | Config.dynamic config =>
      let feeData :=
        encodeAbiParameters ClankerHook_DynamicFee_Instantiation_v4_abi
          [Num (Config.baseFee config * 100);
           Num (Config.maxFee config * 100);
           Big (Config.referenceTickFilterPeriod config);
           Big (Config.resetPeriod config);
           Num (Config.resetTickFilter config);
           Big (Config.feeControlNumerator config);
           Num (Config.decayFilterBps config)] in
      match Target.feeDynamicHookV2 related with
      | Some hookV2 =>
          {| hook := hookV2; poolData := pool_initialization_data tokenConfig feeData |}
      | None =>
          {| hook := Target.feeDynamicHook related; poolData := feeData |}
      end
  end.

Definition poolKey_value (k : Config.PoolKey) : Value :=
  Struct [("currency0", Addr (Config.currency0 k));
          ("currency1", Addr (Config.currency1 k));
          ("fee", Num (Config.fee k));
          ("tickSpacing", Num (Config.pk_tickSpacing k));
          ("hooks", Addr (Config.hooks k))].

(** [encodeDevBuyExtension], lines 540-590. *)
Definition encodeDevBuyExtension (tokenConfig : Cfg) (related : Target.RelatedV4)
  : Result (list Payload.ExtensionConfig) :=
  match Config.devBuy tokenConfig with
  | None => inr []
  | Some (Config.v3 ethAmount v3PoolFee amountOutMin) =>
      let! devbuyV3 := or_throw (Target.devbuyV3 related) DevBuyV3NotDeployed in
      let! msgValue := or_throw (to_wei ethAmount) RangeError in
      let! outMin := or_throw (to_wei amountOutMin) RangeError in
      inr [{| Payload.extension := devbuyV3;
              Payload.msgValue := msgValue;
              Payload.extensionBps := 0;
              Payload.extensionData :=
                encodeAbiParameters ClankerUniv3EthDevBuy_Instantiation_v4_abi
                  [Num v3PoolFee; Big outMin;
                   Addr (Config.tokenAdmin tokenConfig)] |}]
  | Some (Config.v4 ethAmount poolKey amountOutMin) =>
      let! msgValue := or_throw (to_wei ethAmount) RangeError in
      let! outMin := or_throw (to_wei amountOutMin) RangeError in
      inr [{| Payload.extension := Target.devbuy related;
              Payload.msgValue := msgValue;
              Payload.extensionBps := 0;
              Payload.extensionData :=
                encodeAbiParameters ClankerUniV4EthDevBuy_Instantiation_v4_abi
                  [poolKey_value poolKey; Big outMin;
                   Addr (Config.tokenAdmin tokenConfig)] |}]
  end.

(** The recipient list used when [rewards] is not set (lines 291-302). *)
Definition default_rewards (cfg : Cfg) : Config.Rewards := {|
  Config.recipients :=
    [{| Schema.admin := Config.tokenAdmin cfg;
        Schema.recipient := Config.tokenAdmin cfg;
        Schema.bps := 10000;
        Schema.token := Schema.Both |}];
|}.

(** The vault entry of [extensionConfigs] (lines 414-423). *)
Definition vault_extension (cfg : Cfg) (related : Target.RelatedV4) (v : Config.Vault)
  : Payload.ExtensionConfig := {|
  Payload.extension := Target.vault related;
  Payload.msgValue := 0;
  Payload.extensionBps := Config.percentage v * 100;
  Payload.extensionData :=
    encodeAbiParameters ClankerVault_Instantiation_v4_abi
      [Addr (default (Config.tokenAdmin cfg) (Config.vault_recipient v));
       Big (Config.vault_lockupDuration v);
       Big (Config.vault_vestingDuration v)];
|}.

(** The airdrop entry of [extensionConfigs] (lines 429-439). *)
Definition airdrop_extension (cfg : Cfg) (related : Target.RelatedV4)
    (bpsAirdropped : Z) (a : Config.Airdrop) : Payload.ExtensionConfig := {|
  Payload.extension := Target.airdrop related;
  Payload.msgValue := 0;
  Payload.extensionBps := bpsAirdropped;
  Payload.extensionData :=
    encodeAbiParameters ClankerAirdropV2_Instantiation_v4_abi
      [Addr (default (Config.tokenAdmin cfg) (Config.airdrop_admin a));
       Bytes (Config.merkleRoot a);
       Big (Config.airdrop_lockupDuration a);
       Big (Config.airdrop_vestingDuration a)];
|}.

(** [...(x ? [entry] : [])] *)
Definition spread_if {A B} (x : option A) (entry : A -> B) : list B :=
  match x with
  | Some a => [entry a]
  | None => []
  end.

(** [clankerTokenV4Converter], lines 288-451, from the value [cfg] that
    [clankerTokenV4.parse(config)] returns. *)
Definition clankerTokenV4Converter (cfg : Cfg)
  : Result (Tx.Config Payload.DeploymentConfig) :=
  let rewards := default (default_rewards cfg) (Config.rewards cfg) in
  let metadata :=
    match Config.metadata cfg with
    | Some m => stringify_metadata m
    | None => ""
    end in
  let socialContext := stringify_context (Config.context cfg) in
  let! clankerConfig :=
    or_throw (clankerConfigFor (Config.chainId cfg))
             (NoConfiguration (Config.chainId cfg)) in
  let! related :=
    or_throw (Target.related clankerConfig)
             (NoConfiguration (Config.chainId cfg)) in
  let! mined :=
    (if Config.vanity cfg
     then
       let! found :=
         or_throw
           (findVanityAddressV4
              (Config.name cfg, Config.symbol cfg, DEFAULT_SUPPLY,
               Config.tokenAdmin cfg, Config.image cfg, metadata,
               socialContext, Config.chainId cfg)
              (Config.tokenAdmin cfg) "0x4b07" clankerConfig)
           VanityRejected in
       inr (fst found, Some (snd found))
     else inr (zeroHash, None)) in
  let airdropAmount :=
    Allocator.airdropAmount
      (match Config.airdrop cfg with Some a => Config.amount a | None => 0 end) in
  let bpsAirdropped := Allocator.bpsAirdropped DEFAULT_SUPPLY airdropAmount in
  let roundingVerificationAirdrop :=
    Allocator.roundingVerificationAirdrop DEFAULT_SUPPLY bpsAirdropped in
  let! _ :=
    guard (Allocator.roundedAirdropTooLow airdropAmount roundingVerificationAirdrop)
          (PrecisionTooLow airdropAmount roundingVerificationAirdrop
             (airdropAmount - roundingVerificationAirdrop)) in
  let! _ :=
    guard (Allocator.roundedAirdropTooHigh DEFAULT_SUPPLY airdropAmount
             roundingVerificationAirdrop)
          (PrecisionTooHigh (roundingVerificationAirdrop - airdropAmount)) in
  let feeConfig := encodeFeeConfig cfg related in
  let! devBuyExtension := encodeDevBuyExtension cfg related in
  let! value :=
    match Config.devBuy cfg with
    | Some d => or_throw (to_wei (Config.ethAmount d)) RangeError
    | None => inr 0
    end in
  inr {|
    Tx.address := Target.address clankerConfig;
    Tx.abi := Tx.Clanker_v4_abi;
    Tx.functionName := "deployToken";
    Tx.args := {|
      Payload.tokenConfig := {|
        Payload.tokenAdmin := Config.tokenAdmin cfg;
        Payload.name := Config.name cfg;
        Payload.symbol := Config.symbol cfg;
        Payload.salt := fst mined;
        Payload.image := Config.image cfg;
        Payload.metadata := metadata;
        Payload.context := socialContext;
        Payload.originatingChainId := Config.chainId cfg;
      |};
      Payload.lockerConfig := {|
        Payload.locker :=
          match Config.locker (Config.locker_cfg cfg) with
          | Config.Locker => Target.locker related
          | Config.LockerAddress a => a
          end;
        Payload.lockerData :=
          encodeAbiParameters ClankerLpLocker_Instantiation_v4_abi
            [Struct
               [("feePreference",
                 Arr (map (fun r => Num (Schema.FeeInToInt (Schema.token r)))
                          (Config.recipients rewards)))]];
        Payload.rewardAdmins := map Schema.admin (Config.recipients rewards);
        Payload.rewardRecipients := map Schema.recipient (Config.recipients rewards);
        Payload.rewardBps := map Schema.bps (Config.recipients rewards);
        Payload.tickLower := map Schema.tickLower (Schema.positions (Config.pool cfg));
        Payload.tickUpper := map Schema.tickUpper (Schema.positions (Config.pool cfg));
        Payload.positionBps := map Schema.positionBps (Schema.positions (Config.pool cfg));
      |};
      Payload.poolConfig := {|
        Payload.pairedToken :=
          match Schema.pairedToken (Config.pool cfg) with
          | Schema.WETH => WETH_ADDRESSES (Config.chainId cfg)
          | Schema.PairedAddress a => Some a
          end;
        Payload.tickIfToken0IsClanker := Schema.tickIfToken0IsClanker (Config.pool cfg);
        Payload.tickSpacing := Schema.tickSpacing (Config.pool cfg);
        Payload.hook := hook feeConfig;
        Payload.poolData := poolData feeConfig;
      |};
      Payload.mevModuleConfig := {|
        Payload.mevModule :=
          default (Target.mevModule related) (Target.mevModuleV2 related);
        Payload.mevModuleData :=
          match Target.mevModuleV2 related with
          | Some _ =>
              encodeAbiParameters Clanker_MevSniperAuction_InitData_v4_1_abi
                [Struct
                   [("startingFee", Num (Config.startingFee (Config.sniperFees cfg)));
                    ("endingFee", Num (Config.endingFee (Config.sniperFees cfg)));
                    ("secondsToDecay", Big (Config.secondsToDecay (Config.sniperFees cfg)))]]
          | None => Literal "0x"
          end;
      |};
      Payload.extensionConfigs :=
        spread_if (Config.vault cfg) (vault_extension cfg related)
        ++ spread_if (Config.airdrop cfg) (airdrop_extension cfg related bpsAirdropped)
        ++ devBuyExtension;
    |};
    Tx.gas := None;
    Tx.gasPrice := None;
    Tx.value := Some value;
    Tx.expectedAddress := snd mined;
    Tx.chainId := Some (Config.chainId cfg);
  |}.

(** The requested amount in wei, the share and the verified quantity the
    converter computes for [cfg]. *)
Definition requested (cfg : Cfg) : Z :=
  Allocator.airdropAmount
    (match Config.airdrop cfg with Some a => Config.amount a | None => 0 end).
Definition share (cfg : Cfg) : Z :=
  Allocator.bpsAirdropped DEFAULT_SUPPLY (requested cfg).
Definition verified (cfg : Cfg) : Z :=
  Allocator.roundingVerificationAirdrop DEFAULT_SUPPLY (share cfg).

(** The steps before the rounding checks go through: a target with its
    related modules is configured for the chain, and the address-mining
    request, when made, is answered. *)
Definition reaches_rounding (cfg : Cfg) : Prop :=
  exists clankerConfig related,
    clankerConfigFor (Config.chainId cfg) = Some clankerConfig
    /\ Target.related clankerConfig = Some related
    /\ (Config.vanity cfg = true ->
        exists found,
          findVanityAddressV4
            (Config.name cfg, Config.symbol cfg, DEFAULT_SUPPLY,
             Config.tokenAdmin cfg, Config.image cfg,
             match Config.metadata cfg with
             | Some m => stringify_metadata m
             | None => ""
             end,
             stringify_context (Config.context cfg), Config.chainId cfg)
            (Config.tokenAdmin cfg) "0x4b07" clankerConfig = Some found).

End Converter.

(** The entries that are present, in the order given. *)
Definition present {A} (entries : list (option A)) : list A := omap id entries.

(** One for a setting that is set, zero for one that is not. *)
Definition count {A} (setting : option A) : nat :=
  match setting with
  | Some _ => 1
  | None => 0
  end.

Arguments requested {Number Metadata Context}.
Arguments share {Number Metadata Context}.
Arguments verified {Number Metadata Context}.
Arguments reaches_rounding {Number Metadata Context}.
Arguments encodeFeeConfig {Number Metadata Context}.
Arguments pool_initialization_data {Number Metadata Context}.
Arguments encodeDevBuyExtension {Number Metadata Context}.
Arguments vault_extension {Number Metadata Context}.
Arguments airdrop_extension {Number Metadata Context}.
Arguments clankerTokenV4Converter {Number Metadata Context}.

End Converter.

(** ** Thrown values and the error classifier (src/utils/errors.ts) *)

Module Errors.

(** What [instanceof] tells about an [Error] object.  A reverted call
    carries [data?.errorName] and [signature], each possibly undefined. *)
Inductive Class :=
| PlainError
| BaseError
| ContractFunctionRevertedError (errorName : option string) (signature : option string)
| InsufficientFundsError.

Inductive Primitive :=
| Undefined
| Null
| Boolean (b : bool)
| NumberV (n : Z)
| BigIntV (n : Z)
| StringV (s : string).

(** Anything a [catch] clause can receive: a primitive, an object that is
    not an [Error] (with its properties), or an [Error] with its [name],
    [message] and [cause]. *)
Inductive Thrown :=
| Prim (p : Primitive)
| Obj (props : gmap string Primitive)
| Err (cls : Class) (name message : string) (cause : option Thrown).

(** Induction along the cause chain. *)
Fixpoint Thrown_cause_ind (P : Thrown -> Prop)
    (HPrim : forall p, P (Prim p))
    (HObj : forall props, P (Obj props))
    (HRoot : forall cls name message, P (Err cls name message None))
    (HCaused : forall cls name message cause,
        P cause -> P (Err cls name message (Some cause)))
    (e : Thrown) : P e :=
  match e with
  | Prim p => HPrim p
  | Obj props => HObj props
  | Err cls name message None => HRoot cls name message
  | Err cls name message (Some cause) =>
      HCaused cls name message cause
              (Thrown_cause_ind P HPrim HObj HRoot HCaused cause)
  end.

(** [new Error(message)] and [new TypeError(message)] *)
Definition new_Error (message : string) : Thrown := Err PlainError "Error" message None.
Definition new_TypeError (message : string) : Thrown := Err PlainError "TypeError" message None.

Definition instanceof_Error (e : Thrown) : bool :=
  match e with Err _ _ _ _ => true | _ => false end.

Definition instanceof_BaseError (e : Thrown) : bool :=
  match e with
  | Err PlainError _ _ _ => false
  | Err _ _ _ _ => true
  | _ => false
  end.

Definition instanceof_ContractFunctionRevertedError (e : Thrown) : bool :=
  match e with Err (ContractFunctionRevertedError _ _) _ _ _ => true | _ => false end.

Definition instanceof_InsufficientFundsError (e : Thrown) : bool :=
  match e with Err InsufficientFundsError _ _ _ => true | _ => false end.

(** viem's [BaseError.walk(fn)]: the first error of the cause chain that
    [fn] accepts, else null. *)
Fixpoint walk (fn : Thrown -> bool) (err : Thrown) : option Thrown :=
  if fn err then Some err
  else match err with
       | Err _ _ _ (Some cause) => walk fn cause
       | _ => None
       end.

(** The template literal [`${e}`]; objects print as [Object.prototype]
    and [Error.prototype] print them. *)
Definition template (e : Thrown) : string :=
  match e with
  | Prim Undefined => "undefined"
  | Prim Null => "null"
  | Prim (Boolean b) => if b then "true" else "false"
  | Prim (NumberV n) => pretty n
  | Prim (BigIntV n) => pretty n
  | Prim (StringV s) => s
  | Obj _ => "[object Object]"
  | Err _ name message _ =>
      if String.eqb name "" then message
      else if String.eqb message "" then name
      else name +:+ ": " +:+ message
  end.

Inductive ClankerErrorType := caller | state | unknown.

Record ClankerErrorData := {
  type : ClankerErrorType;
  label : string;
  rawName : string;
}.

(** [class ClankerError]: the wrapped error and the classification. *)
Record ClankerError := {
  error : Thrown;
  data : ClankerErrorData;
}.

(** [ClankerError.unknown(e, name?)]: [name || 'unknown'] *)
Definition ClankerError_unknown (e : Thrown) (name : option string) : ClankerError := {|
  error := e;
  data := {|
    type := unknown;
    label := "Something went wrong";
    rawName := match name with
               | Some n => if String.eqb n "" then "unknown" else n
               | None => "unknown"
               end;
  |};
|}.

Definition SignatureToError : gmap string ClankerErrorData :=
  <["0x7e5ba1ad" := {| type := state; label := "Hook not enabled.";
                       rawName := "HookNotEnabled" |}]>
  (<["0x8b063d73" := {| type := state; label := "Too little received (likely dev buy).";
                        rawName := "V4TooLittleReceived" |}]> ∅).

(** The keys are error names of the contract ABIs ([ClankerErrorName]). *)
Definition ErrorMapping : gmap string ClankerErrorData :=
  <["NoFeesToClaim" := {| type := state; label := "No fees to claim";
                          rawName := "NoFeesToClaim" |}]>
  (<["InvalidVaultConfiguration" := {| type := caller; label := "Invalid vault configuration";
                                       rawName := "InvalidVault" |}]>
  (<["BaseFeeTooLow" := {| type := caller; label := "Base fee is set too low";
                           rawName := "BaseFeeTooLow" |}]> ∅)).

Definition understandErrorCode (e : string) : ClankerError := {|
  error := new_Error e;
  data := default {| type := caller; label := "Contract error.";
                     rawName := "Unknown hex: " +:+ e |}
                  (SignatureToError !! e);
|}.

(** [x || fallback] on an optional string. *)
Definition or_string (x : option string) (fallback : string) : string :=
  match x with
  | Some s => if String.eqb s "" then fallback else s
  | None => fallback
  end.

Definition understandError (e : Thrown) : ClankerError :=
  if negb (instanceof_Error e) then ClankerError_unknown (new_Error (template e)) None
  else if negb (instanceof_BaseError e) then ClankerError_unknown e None
  else
    match walk instanceof_ContractFunctionRevertedError e with
    | Some (Err (ContractFunctionRevertedError data_errorName signature) _ _ _) =>
        let errorName := default "" data_errorName in
        match ErrorMapping !! errorName with
        | Some mapping => {| error := e; data := mapping |}
        | None =>
            match SignatureToError !! or_string signature "0x" with
            | Some signatureToError => {| error := e; data := signatureToError |}
            | None => ClankerError_unknown e (Some errorName)
            end
        end
    | _ =>
        match walk instanceof_InsufficientFundsError e with
        | Some (Err InsufficientFundsError n m c) =>
            {| error := Err InsufficientFundsError n m c;
               data := {| type := caller; label := "Insufficient funds.";
                          rawName := "InsufficientFundsError" |} |}
        | _ => ClankerError_unknown e None
        end
    end.

(** The revert the classifier finds in a failure: its decoded name and
    its selector, each possibly undefined. *)
Definition revert_of (e : Thrown) : option (option string * option string) :=
  if instanceof_BaseError e
  then match walk instanceof_ContractFunctionRevertedError e with
       | Some (Err (ContractFunctionRevertedError errorName signature) _ _ _) =>
           Some (errorName, signature)
       | _ => None
       end
  else None.

End Errors.

(** ** The execution pipeline (src/utils/write-clanker-contracts.ts and the
    v4 deployment module)

    The chain client and the wallet are collaborators: what they answer is
    a parameter, and every request made to them is logged, in order. *)

Module Pipeline.
Import Errors.

Inductive Outcome (A : Type) :=
| Returned (a : A)
| Threw (e : Thrown).

Arguments Returned {A}.
Arguments Threw {A}.

Record Account := { account_address : Address }.
Record Chain := { id : Z }.
Record WalletClient := { account : option Account; wallet_chain : option Chain }.
Record PublicClient := { chain : option Chain }.

(** viem's [base] chain. *)
Definition base : Chain := {| id := 8453 |}.

(** A log entry decoded against [Clanker_v4_abi]; [TokenCreated] carries
    the deployed token's address among its arguments. *)
Record TokenCreatedArgs := { tokenAddress : Address }.

Inductive Event :=
| TokenCreated (args : TokenCreatedArgs)
| OtherEvent (eventName : string).

(** [`${x}`] on an optional number. *)
Definition show (x : option Z) : string :=
  match x with
  | Some n => pretty n
  | None => "undefined"
  end.

(** [a !== b] on optional numbers. *)
Definition differs (a b : option Z) : bool :=
  match a, b with
  | Some x, Some y => negb (x =? y)
  | None, None => false
  | _, _ => true
  end.

Section Pipeline.

(** The argument tuple of the call, what a simulation returns, and the
    raw log entries of a receipt. *)
Variables Args SimulateResult SimulateRequest Log : Type.

Abbreviation Tx := (Tx.Config Args).

Record SimulateContractReturn := {
  sim_result : SimulateResult;
  sim_request : SimulateRequest;
}.

Record Receipt := { logs : list Log }.

(** The requests a run makes to its collaborators. *)
Inductive Call :=
| EstimateContractGas (client : PublicClient) (tx : Tx) (account : Account)
| SimulateContract (client : PublicClient) (tx : Tx) (account : option Account)
| WriteContract (wallet : WalletClient) (tx : Tx)
| WaitForTransactionReceipt (client : PublicClient) (hash : option string)
| ReadContract (client : PublicClient) (address : Address)
               (functionName : string) (token : Address).

(** The collaborators: each answer may depend on everything requested
    so far. *)
Variable estimateContractGas :
  list Call -> PublicClient -> Tx -> Account -> Outcome Z.
Variable simulateContract :
  list Call -> PublicClient -> Tx -> option Account -> Outcome SimulateContractReturn.
Variable writeContract :
  list Call -> WalletClient -> Tx -> Outcome string.
Variable waitForTransactionReceipt :
  list Call -> PublicClient -> option string -> Outcome Receipt.

(** An asynchronous computation: from the requests made so far to an
    outcome and the requests made by then. *)
Definition M (A : Type) : Type := list Call -> Outcome A * list Call.

Definition ret {A} (a : A) : M A := fun h => (Returned a, h).

Definition throw {A} (e : Thrown) : M A := fun h => (Threw e, h).

Definition bind {A B} (m : M A) (k : A -> M B) : M B :=
  fun h =>
    match m h with
    | (Returned a, h') => k a h'
    | (Threw e, h') => (Threw e, h')
    end.

(** [try { body } catch (e) { handler }] *)
Definition try_catch {A} (body : M A) (handler : Thrown -> M A) : M A :=
  fun h =>
    match body h with
    | (Returned a, h') => (Returned a, h')
    | (Threw e, h') => handler e h'
    end.

(** One awaited request. *)
Definition request {A} (c : Call) (answer : list Call -> Outcome A) : M A :=
  fun h => (answer h, h ++ [c]).

Notation "'let*' x ':=' m 'in' k" := (bind m (fun x => k))
  (at level 10, x name, m at level 100, k at level 200).

(** [ClankerResult<{ gas }>], [ClankerResult<SimulateContractReturnType>],
    [ClankerResult<{ txHash }>], [ClankerResult<{ address }>]: objects
    whose fields may each be undefined. *)
Record GasResult := {
  gas : option Z;
  gas_error : option ClankerError;
}.

Record SimulateOutcome := {
  result : option SimulateResult;
  request_ : option SimulateRequest;
  simulate_error : option ClankerError;
}.

Record WriteResult := {
  txHash : option string;
  write_error : option ClankerError;
}.

Record AddressResult := {
  address : option Address;
  address_error : option ClankerError;
}.

Definition estimateGasClankerContract
    (client : PublicClient) (account : Account) (tx : Tx) : M GasResult :=
  try_catch
    (let* gas := request (EstimateContractGas client tx account)
                         (fun h => estimateContractGas h client tx account) in
     ret {| gas := Some gas; gas_error := None |})
    (fun e => ret {| gas := None; gas_error := Some (understandError e) |}).

Definition simulateClankerContract
    (client : PublicClient) (account : option Account) (tx : Tx) : M SimulateOutcome :=
  try_catch
    (let* r := request (SimulateContract client tx account)
                       (fun h => simulateContract h client tx account) in
     ret {| result := Some (sim_result r); request_ := Some (sim_request r);
            simulate_error := None |})
    (fun e => ret {| result := None; request_ := None;
                     simulate_error := Some (understandError e) |}).

(** [options?.simulate]: [None] when [options] or the flag is left out. *)
Definition writeClankerContract
    (client : PublicClient) (wallet : WalletClient) (tx : Tx)
    (simulate : option bool) : M WriteResult :=
  let* checked :=
    (if default false simulate
     then
       let* s := simulateClankerContract client (account wallet) tx in
       ret (simulate_error s)
     else ret None) in
  match checked with
  | Some error => ret {| txHash := None; write_error := Some error |}
  | None =>
      try_catch
        (let* txHash := request (WriteContract wallet tx)
                                (fun h => writeContract h wallet tx) in
         ret {| txHash := Some txHash; write_error := None |})
        (fun e => ret {| txHash := None; write_error := Some (understandError e) |})
  end.

(** viem's decoding of one log entry against [Clanker_v4_abi]; [None]
    when the entry matches no event of it. *)
Variable decodeEventLog : Log -> option Event.

(** viem's [parseEventLogs] with [eventName: 'TokenCreated']: the
    entries that decode to that event, in receipt order. *)
Definition parseEventLogs (entries : list Log) : list TokenCreatedArgs :=
  omap (fun entry =>
          match decodeEventLog entry with
          | Some (TokenCreated args) => Some args
          | _ => None
          end) entries.

Record DeployResult := {
  deploy_txHash : option string;
  waitForTransaction : option (M AddressResult);
  deploy_error : option ClankerError;
}.

(** The closure returned as [waitForTransaction] (lines 84-102).
    Reading [.args] of [logs[0]] when there is no such entry throws a
    TypeError. *)
Definition waitForTransaction_of (publicClient : PublicClient) (txHash : option string)
  : M AddressResult :=
  let* receipt := request (WaitForTransactionReceipt publicClient txHash)
                          (fun h => waitForTransactionReceipt h publicClient txHash) in
  match parseEventLogs (logs receipt) with
  | log0 :: _ => ret {| address := Some (tokenAddress log0); address_error := None |}
  | [] => throw (new_TypeError "Cannot read properties of undefined (reading 'args')")
  end.

Definition chain_id (c : option Chain) : option Z := id <$> c.

Definition simulateDeployToken
    (tx : Tx) (account : Account) (publicClient : PublicClient) : M SimulateOutcome :=
  if differs (Tx.chainId tx) (chain_id (chain publicClient))
  then throw (new_Error ("Token chainId doesn't match public client chainId: "
                         +:+ show (Tx.chainId tx) +:+ " != "
                         +:+ show (chain_id (chain publicClient))))
  else simulateClankerContract publicClient (Some account) tx.

(** [deployToken], lines 44-104. *)
Definition deployToken
    (tx : Tx) (wallet : WalletClient) (publicClient : PublicClient) : M DeployResult :=
  match account wallet with
  | None => throw (new_Error "Wallet account required for deployToken")
  | Some account =>
      if differs (Tx.chainId tx) (chain_id (chain publicClient))
      then throw (new_Error ("Token chainId doesn't match public client chainId: "
                             +:+ show (Tx.chainId tx) +:+ " != "
                             +:+ show (chain_id (chain publicClient))))
      else if differs (Tx.chainId tx) (chain_id (wallet_chain wallet))
      then throw (new_Error ("Token chainId doesn't match wallet chainId: "
                             +:+ show (Tx.chainId tx) +:+ " != "
                             +:+ show (chain_id (wallet_chain wallet))))
      else
        let* estimate := estimateGasClankerContract publicClient account tx in
        match gas_error estimate with
        | Some gasError =>
            ret {| deploy_txHash := None; waitForTransaction := None;
                   deploy_error := Some gasError |}
        | None =>
            match gas estimate with
            | None =>
                (* [undefined * 12n] *)
                throw (new_TypeError "Cannot mix BigInt and other types, use explicit conversions")
            | Some gas =>
                let* written :=
                  writeClankerContract publicClient wallet
                    (Tx.with_gas tx (Z.quot (gas * 12) 10)) (Some true) in
                match write_error written with
                | Some txError =>
                    ret {| deploy_txHash := None; waitForTransaction := None;
                           deploy_error := Some txError |}
                | None =>
                    ret {| deploy_txHash := txHash written;
                           waitForTransaction :=
                             Some (waitForTransaction_of publicClient (txHash written));
                           deploy_error := None |}
                end
            end
        end
  end.

(** What the submission step alone amounts to on a run. *)
Definition submitted (wallet : WalletClient) (tx : Tx) (h : list Call)
  : Outcome WriteResult * list Call :=
  (Returned
     match writeContract h wallet tx with
     | Returned hash => {| txHash := Some hash; write_error := None |}
     | Threw e => {| txHash := None; write_error := Some (understandError e) |}
     end,
   h ++ [WriteContract wallet tx]).

(** *** Reading the claimable vault amount ([getVaultClaimableAmount]) *)

Variable clankerConfigFor : Z -> option Target.ClankerDeployment.
Variable readContract :
  list Call -> PublicClient -> Address -> string -> Address -> Outcome Z.

(** [key in err], with the value found: [None] when the property is
    absent. *)
Definition property (err : Thrown) (key : string) : option Primitive :=
  match err with
  | Prim _ => None
  | Obj props => props !! key
  | Err _ name message _ =>
      if String.eqb key "name" then Some (StringV name)
      else if String.eqb key "message" then Some (StringV message)
      else None
  end.

(** [err && typeof err === 'object'] *)
Definition is_object (err : Thrown) : bool :=
  match err with
  | Prim _ => false
  | _ => true
  end.

(** The test of the [catch] clause (lines 656-664). *)
Definition returned_no_data (err : Thrown) : bool :=
  is_object err
  && match property err "name" with
     | Some (StringV n) =>
         String.eqb n "ContractFunctionExecutionError"
         || String.eqb n "ContractFunctionZeroDataError"
     | _ => false
     end
  && match property err "message" with
     | Some (StringV m) => Js.includes "returned no data" m
     | _ => false
     end.

Definition getVaultClaimableAmount
    (publicClient : option PublicClient) (token : Address) : M Z :=
  match publicClient with
  | None => throw (new_Error "Public client required")
  | Some client =>
      let chain := default base (chain client) in
      match clankerConfigFor (id chain) with
      | None => throw (new_Error ("Clanker is not ready on " +:+ pretty (id chain)))
      | Some config =>
          try_catch
            (match Target.related config with
             | None =>
                 throw (new_TypeError "Cannot read properties of undefined (reading 'vault')")
             | Some related =>
                 request (ReadContract client (Target.vault related)
                                       "amountAvailableToClaim" token)
                         (fun h => readContract h client (Target.vault related)
                                                "amountAvailableToClaim" token)
             end)
            (fun err => if returned_no_data err then ret 0 else throw err)
      end
  end.

End Pipeline.

Arguments EstimateContractGas {Args}.
Arguments SimulateContract {Args}.
Arguments WriteContract {Args}.
Arguments WaitForTransactionReceipt {Args}.
Arguments ReadContract {Args}.
Arguments sim_result {SimulateResult SimulateRequest}.
Arguments sim_request {SimulateResult SimulateRequest}.
Arguments logs {Log}.
Arguments result {SimulateResult SimulateRequest}.
Arguments request_ {SimulateResult SimulateRequest}.
Arguments simulate_error {SimulateResult SimulateRequest}.
Arguments deploy_txHash {Args}.
Arguments waitForTransaction {Args}.
Arguments deploy_error {Args}.
Arguments ret {Args A}.
Arguments throw {Args A}.
Arguments bind {Args A B}.
Arguments try_catch {Args A}.
Arguments request {Args A}.
Arguments estimateGasClankerContract {Args}.
Arguments simulateClankerContract {Args SimulateResult SimulateRequest}.
Arguments writeClankerContract {Args SimulateResult SimulateRequest}.
Arguments parseEventLogs {Log}.
Arguments waitForTransaction_of {Args Log}.
Arguments simulateDeployToken {Args SimulateResult SimulateRequest}.
Arguments deployToken {Args SimulateResult SimulateRequest Log}.
Arguments getVaultClaimableAmount {Args}.
Arguments submitted {Args}.

(** Whether a request to the collaborators submits a transaction. *)
Definition is_submission {Args} (c : Call Args) : bool :=
  match c with
  | WriteContract _ _ => true
  | _ => false
  end.

(** A result tuple holds either its success field or its error. *)
Definition exactly_one {A B} (success : option A) (error : option B) : Prop :=
  (is_Some success /\ error = None) \/ (success = None /\ is_Some error).

End Pipeline.

(** ** The remaining refinements of the v4 schema (clankerTokenV4.ts,
    lines 134-278) *)

Module SchemaRest.
Import Schema.

Section WithConstants.

(** [addressSchema] and [hexSchema] of src/utils/zod-onchain.ts, and
    [DEFAULT_SUPPLY] of src/constants.ts. *)
Variable addressSchema : Address -> bool.
Variable hexSchema : Abi.Hex -> bool.
Variable DEFAULT_SUPPLY : Z.

(** An optional address field. *)
Definition optional_address (a : option Address) : bool :=
  match a with
  | Some x => addressSchema x
  | None => true
  end.

(** One reward recipient (lines 262-271). *)
Definition recipient_schema (r : Recipient) : bool :=
  addressSchema (admin r) && addressSchema (recipient r)
  && (0 <=? bps r) && (bps r <=? 10000).

(** [z.array(...).min(1).refine(...)] on the recipients (lines 260-276). *)
Definition recipients_schema (v : list Recipient) : bool :=
  Js.every recipient_schema v
  && (1 <=? Z.of_nat (length v))
  && recipients_refinement v.

(** What a caller may pass for [vault] (lines 134-145). *)
Record VaultInput := {
  in_percentage : Z;
  in_lockupDuration : Z;
  in_vestingDuration : option Z;
  in_recipient : option Address;
}.

Definition vault_schema (input : option VaultInput) : option (option Config.Vault) :=
  match input with
  | None => Some None
  | Some i =>
      if (0 <=? in_percentage i) && (in_percentage i <=? 90)
         && (7 * 24 * 60 * 60 <=? in_lockupDuration i)
         && optional_address (in_recipient i)
      then Some (Some {|
        Config.percentage := in_percentage i;
        Config.vault_lockupDuration := in_lockupDuration i;
        Config.vault_vestingDuration := default 0 (in_vestingDuration i);
        Config.vault_recipient := in_recipient i;
      |})
      else None
  end.

(** The bounds on the airdrop amount (lines 160-161):
    [Number((DEFAULT_SUPPLY * 25n) / 10_000n / BigInt(1e18))] and the
    same with [9_000n]. *)
Definition airdrop_amount_min : Z :=
  Z.quot (Z.quot (DEFAULT_SUPPLY * 25) 10000) (10 ^ 18).
Definition airdrop_amount_max : Z :=
  Z.quot (Z.quot (DEFAULT_SUPPLY * 9000) 10000) (10 ^ 18).

(** What a caller may pass for [airdrop] (lines 147-163). *)
Record AirdropInput := {
  in_admin : option Address;
  in_merkleRoot : Abi.Hex;
  in_airdrop_lockupDuration : Z;
  in_airdrop_vestingDuration : option Z;
  in_amount : Z;
}.

Definition airdrop_schema (input : option AirdropInput) : option (option Config.Airdrop) :=
  match input with
  | None => Some None
  | Some i =>
      if optional_address (in_admin i)
         && hexSchema (in_merkleRoot i)
         && (24 * 60 * 60 <=? in_airdrop_lockupDuration i)
         && (airdrop_amount_min <=? in_amount i)
         && (in_amount i <=? airdrop_amount_max)
      then Some (Some {|
        Config.airdrop_admin := in_admin i;
        Config.merkleRoot := in_merkleRoot i;
        Config.airdrop_lockupDuration := in_airdrop_lockupDuration i;
        Config.airdrop_vestingDuration := default 0 (in_airdrop_vestingDuration i);
        Config.amount := in_amount i;
      |})
      else None
  end.

End WithConstants.

(** The refinement on [v3PoolFee] (line 195). *)
Definition v3PoolFee_refinement (v : Z) : bool :=
  existsb (Z.eqb v) [100; 500; 3000; 10000].

(** The [fees] union with its default (lines 204-237). *)
Definition fees_schema (input : option Config.Fees) : option Config.Fees :=
  match input with
  | None => Some (Config.static {| Config.clankerFee := 100; Config.pairedFee := 100 |})
  | Some (Config.static f) =>
      if (0 <=? Config.clankerFee f) && (Config.clankerFee f <=? 2000)
         && (0 <=? Config.pairedFee f) && (Config.pairedFee f <=? 2000)
      then Some (Config.static f) else None
  | Some (Config.dynamic f) =>
      if (25 <=? Config.baseFee f) && (Config.baseFee f <=? 2000)
         && (0 <=? Config.maxFee f) && (Config.maxFee f <=? 3000)
      then Some (Config.dynamic f) else None
  end.

(** The [sniperFees] object, its prefault and its refinement (lines
    239-255). *)
Definition sniperFees_prefault : Config.SniperFees := {|
  Config.startingFee := 666777;
  Config.endingFee := 41673;
  Config.secondsToDecay := 15;
|}.

Definition sniper_fee_range (x : Z) : bool := (30000 <=? x) && (x <=? 800000).

Definition sniperFees_schema (input : option Config.SniperFees) : option Config.SniperFees :=
  let v := default sniperFees_prefault input in
  if sniper_fee_range (Config.startingFee v)
     && sniper_fee_range (Config.endingFee v)
     && (1 <=? Config.secondsToDecay v) && (Config.secondsToDecay v <=? 120)
     && (Config.endingFee v <? Config.startingFee v)
  then Some v else None.

End SchemaRest.

(** ** What decides whether the converter returns *)

Module ConverterRest.

Section Converter.

Variables Number Metadata Context : Type.
Variable to_wei : Number -> option Z.

(** The purchase can be encoded on the target: the amounts convert, and
    the v3 route has its module. *)
Definition devbuy_encodable (related : Target.RelatedV4)
    (cfg : Config.Cfg Number Metadata Context) : Prop :=
  match Config.devBuy cfg with
  | None => True
  | Some (Config.v4 ethAmount _ amountOutMin) =>
      is_Some (to_wei ethAmount) /\ is_Some (to_wei amountOutMin)
  | Some (Config.v3 ethAmount _ amountOutMin) =>
      is_Some (Target.devbuyV3 related)
      /\ is_Some (to_wei ethAmount) /\ is_Some (to_wei amountOutMin)
  end.

(** [cfg] with other values for the two settings marked [v4.1+ only]. *)
Definition with_v4_1_settings (cfg : Config.Cfg Number Metadata Context)
    (extension : Config.PoolExtension) (sniper : Config.SniperFees)
  : Config.Cfg Number Metadata Context := {|
  Config.name := Config.name cfg;
  Config.symbol := Config.symbol cfg;
  Config.image := Config.image cfg;
  Config.chainId := Config.chainId cfg;
  Config.tokenAdmin := Config.tokenAdmin cfg;
  Config.metadata := Config.metadata cfg;
  Config.context := Config.context cfg;
  Config.poolExtension := extension;
  Config.pool := Config.pool cfg;
  Config.locker_cfg := Config.locker_cfg cfg;
  Config.vault := Config.vault cfg;
  Config.airdrop := Config.airdrop cfg;
  Config.devBuy := Config.devBuy cfg;
  Config.fees := Config.fees cfg;
  Config.sniperFees := sniper;
  Config.rewards := Config.rewards cfg;
  Config.vanity := Config.vanity cfg;
|}.

Variable stringify_metadata : Metadata -> string.
Variable stringify_context : Context -> string.
Variable DEFAULT_SUPPLY : Z.
Variable findVanityAddressV4 :
  string * string * Z * Address * string * string * string * Z ->
  Address -> string -> Target.ClankerDeployment -> option (Abi.Hex * Address).

(** The request the converter sends to the address-mining service. *)
Definition mining_request (cfg : Config.Cfg Number Metadata Context) (clankerConfig : Target.ClankerDeployment)
  : option (Abi.Hex * Address) :=
  findVanityAddressV4
    (Config.name cfg, Config.symbol cfg, DEFAULT_SUPPLY,
     Config.tokenAdmin cfg, Config.image cfg,
     match Config.metadata cfg with
     | Some m => stringify_metadata m
     | None => ""
     end,
     stringify_context (Config.context cfg), Config.chainId cfg)
    (Config.tokenAdmin cfg) "0x4b07" clankerConfig.

(** A target without second-generation modules. *)
Definition first_generation (related : Target.RelatedV4) : Prop :=
  Target.mevModuleV2 related = None
  /\ Target.feeStaticHookV2 related = None
  /\ Target.feeDynamicHookV2 related = None.

End Converter.

Arguments devbuy_encodable {Number Metadata Context}.
Arguments with_v4_1_settings {Number Metadata Context}.
Arguments mining_request {Number Metadata Context}.

(** Sums over the extension list. *)
Definition total_msgValue (l : list Payload.ExtensionConfig) : Z :=
  foldr (fun e acc => Payload.msgValue e + acc) 0 l.
Definition total_extensionBps (l : list Payload.ExtensionConfig) : Z :=
  foldr (fun e acc => Payload.extensionBps e + acc) 0 l.
Definition sum_list (l : list Z) : Z := foldr Z.add 0 l.

End ConverterRest.

(** ** The cause chain of a failure *)

Module ErrorsRest.
Import Errors.

(** The errors that [walk] visits: the error itself, its cause, the
    cause of that one, and so on. *)
Fixpoint causes (e : Thrown) : list Thrown :=
  e :: match e with
       | Err _ _ _ (Some cause) => causes cause
       | _ => []
       end.

(** The classification of a failure for lack of funds (lines 90-97 of
    the error module). *)
Definition insufficient_funds : ClankerErrorData :=
  {| type := caller; label := "Insufficient funds."; rawName := "InsufficientFundsError" |}.

End ErrorsRest.

(** ** What [deployToken] hands back on a failure of the chain *)

Module PipelineRest.
Import Errors Pipeline.

(** [{ error: gasError }] and [{ error: txError }]: the classified
    failure, with no hash and no closure. *)
Definition failed {Args : Type} (e : Thrown) : DeployResult Args :=
  {| deploy_txHash := None; waitForTransaction := None;
     deploy_error := Some (understandError e) |}.

End PipelineRest.

(** ** The v4 client class (its methods on the vault and on the locker)
    and the airdrop claim *)

Module ClankerV4.
Import Abi Errors Pipeline.

(** The argument tuples of the calls the class builds. *)
Inductive CallArgs :=
| VaultClaim (token : Address)
| UpdateRewardRecipient (token : Address) (rewardIndex : Z) (newRecipient : Address)
| UpdateRewardAdmin (token : Address) (rewardIndex : Z) (newAdmin : Address)
| AirdropClaim (token recipient : Address) (amount : Z) (proof : list Hex).

(** [class Clanker]: both clients are optional. *)
Record Clanker := {
  wallet : option WalletClient;
  publicClient : option PublicClient;
}.

(** An object literal with [address], [abi], [functionName] and [args]
    only. *)
Definition call (abi : Tx.ContractAbi) (address : Address) (functionName : string)
    (args : CallArgs) : Tx.Config CallArgs := {|
  Tx.abi := abi;
  Tx.address := address;
  Tx.functionName := functionName;
  Tx.args := args;
  Tx.gas := None;
  Tx.gasPrice := None;
  Tx.value := None;
  Tx.chainId := None;
  Tx.expectedAddress := None;
|}.

Definition ClankerLocker_v4_abi : Tx.ContractAbi := Tx.OtherAbi "ClankerLocker_v4_abi".
Definition ClankerAirdrop_v4_abi : Tx.ContractAbi := Tx.OtherAbi "ClankerAirdrop_v4_abi".

(** [a || b] on optional objects. *)
Definition or_else {A} (a b : option A) : option A :=
  match a with
  | Some _ => a
  | None => b
  end.

(** [!vaultAddress] on an optional string. *)
Definition missing (x : option string) : bool :=
  match x with
  | Some s => String.eqb s ""
  | None => true
  end.

Notation "'let*' x ':=' m 'in' k" := (bind m (fun x => k))
  (at level 10, x name, m at level 100, k at level 200).

Section Class.

Variables SimulateResult SimulateRequest : Type.
Variable simulateContract :
  list (Call CallArgs) -> PublicClient -> Tx.Config CallArgs -> option Account ->
  Outcome (SimulateContractReturn SimulateResult SimulateRequest).
Variable writeContract :
  list (Call CallArgs) -> WalletClient -> Tx.Config CallArgs -> Outcome string.
Variable clankerConfigFor : Z -> option Target.ClankerDeployment.

Abbreviation M := (Pipeline.M CallArgs).

(** [clankerConfigFor(chain.id, 'clanker_v4')], the test [!config] and
    the read of a field of [config.related]. *)
Definition related_of {A} (chainId : Z) (field : string) (k : Target.RelatedV4 -> M A) : M A :=
  match clankerConfigFor chainId with
  | None => throw (new_Error ("Clanker is not ready on " +:+ pretty chainId))
  | Some config =>
      match Target.related config with
      | None =>
          throw (new_TypeError ("Cannot read properties of undefined (reading '"
                                +:+ field +:+ "')"))
      | Some related => k related
      end
  end.

(** [getVaultClaimTransaction] (lines 607-621); [options] is the chain
    of the options, if any. *)
Definition getVaultClaimTransaction (this : Clanker) (token : Address)
    (options : option Chain) : M (Tx.Config CallArgs) :=
  let chain := default base (or_else (publicClient this ≫= Pipeline.chain) options) in
  related_of (id chain) "vault" (fun related =>
    ret (call Tx.ClankerVault_v4_abi (Target.vault related) "claim" (VaultClaim token))).

(** [claimVaultedTokens] (lines 629-634). *)
Definition claimVaultedTokens (this : Clanker) (token : Address) : M WriteResult :=
  match wallet this with
  | None => throw (new_Error "Wallet client required")
  | Some w =>
      match publicClient this with
      | None => throw (new_Error "Public client required")
      | Some client =>
          let* input := getVaultClaimTransaction this token None in
          writeClankerContract simulateContract writeContract client w input None
      end
  end.

(** [getUpdateRewardRecipientTransaction] and
    [getUpdateRewardAdminTransaction] (lines 395-450). *)
Definition getUpdateRewardRecipientTransaction (this : Clanker)
    (token : Address) (rewardIndex : Z) (newRecipient : Address)
    (options : option Chain) : M (Tx.Config CallArgs) :=
  let chain := default base (or_else (publicClient this ≫= Pipeline.chain) options) in
  related_of (id chain) "locker" (fun related =>
    ret (call ClankerLocker_v4_abi (Target.locker related) "updateRewardRecipient"
              (UpdateRewardRecipient token rewardIndex newRecipient))).

Definition getUpdateRewardAdminTransaction (this : Clanker)
    (token : Address) (rewardIndex : Z) (newAdmin : Address)
    (options : option Chain) : M (Tx.Config CallArgs) :=
  let chain := default base (or_else (publicClient this ≫= Pipeline.chain) options) in
  related_of (id chain) "locker" (fun related =>
    ret (call ClankerLocker_v4_abi (Target.locker related) "updateRewardAdmin"
              (UpdateRewardAdmin token rewardIndex newAdmin))).

(** The common body of [updateRewardRecipientSimulate] and
    [updateRewardAdminSimulate] (lines 462-530): the two differ by the
    function name and the argument tuple only. *)
Definition updateSimulate (this : Clanker) (functionName : string) (args : CallArgs)
    (account : option Account) : M (SimulateOutcome SimulateResult SimulateRequest) :=
  match or_else account (wallet this ≫= Pipeline.account) with
  | None => throw (new_Error "Account or wallet client required for simulation")
  | Some acc =>
      match publicClient this with
      | None => throw (new_Error "Public client required")
      | Some client =>
          let chain := default base (Pipeline.chain client) in
          related_of (id chain) "locker" (fun related =>
            simulateClankerContract simulateContract client (Some acc)
              (call ClankerLocker_v4_abi (Target.locker related) functionName args))
      end
  end.

Definition updateRewardRecipientSimulate (this : Clanker)
    (token : Address) (rewardIndex : Z) (newRecipient : Address)
    (account : option Account) :=
  updateSimulate this "updateRewardRecipient"
                 (UpdateRewardRecipient token rewardIndex newRecipient) account.

Definition updateRewardAdminSimulate (this : Clanker)
    (token : Address) (rewardIndex : Z) (newAdmin : Address)
    (account : option Account) :=
  updateSimulate this "updateRewardAdmin"
                 (UpdateRewardAdmin token rewardIndex newAdmin) account.

(** The common body of [updateRewardRecipient] and [updateRewardAdmin]
    (lines 540-598). *)
Definition update (this : Clanker) (functionName : string) (args : CallArgs)
  : M WriteResult :=
  match wallet this with
  | None => throw (new_Error "Wallet client required")
  | Some w =>
      match publicClient this with
      | None => throw (new_Error "Public client required")
      | Some client =>
          let chain := default base (Pipeline.chain client) in
          related_of (id chain) "locker" (fun related =>
            writeClankerContract simulateContract writeContract client w
              (call ClankerLocker_v4_abi (Target.locker related) functionName args)
              None)
      end
  end.

Definition updateRewardRecipient (this : Clanker)
    (token : Address) (rewardIndex : Z) (newRecipient : Address) : M WriteResult :=
  update this "updateRewardRecipient"
         (UpdateRewardRecipient token rewardIndex newRecipient).

Definition updateRewardAdmin (this : Clanker)
    (token : Address) (rewardIndex : Z) (newAdmin : Address) : M WriteResult :=
  update this "updateRewardAdmin" (UpdateRewardAdmin token rewardIndex newAdmin).

(** [getClaimAirdropTransaction] (airdrop utilities, lines 154-177). *)
Definition getClaimAirdropTransaction (chainId : Z) (token recipient : Address)
    (amount : Z) (proof : list Hex) : M (Tx.Config CallArgs) :=
  related_of chainId "airdrop" (fun related => ret {|
    Tx.abi := ClankerAirdrop_v4_abi;
    Tx.address := Target.airdrop related;
    Tx.functionName := "claim";
    Tx.args := AirdropClaim token recipient amount proof;
    Tx.gas := None;
    Tx.gasPrice := None;
    Tx.value := None;
    Tx.chainId := Some chainId;
    Tx.expectedAddress := None;
  |}).

(** [claimAirdrop] (airdrop utilities, lines 189-204). *)
Definition claimAirdrop (clanker : Clanker) (token recipient : Address)
    (amount : Z) (proof : list Hex) : M WriteResult :=
  match publicClient clanker with
  | None => throw (new_Error "Public client required on clanker")
  | Some client =>
      match wallet clanker with
      | None => throw (new_Error "Wallet client required on clanker")
      | Some w =>
          match wallet_chain w with
          | None =>
              throw (new_TypeError "Cannot read properties of undefined (reading 'id')")
          | Some chain =>
              let* tx := getClaimAirdropTransaction (id chain) token recipient amount proof in
              writeClankerContract simulateContract writeContract client w tx None
          end
      end
  end.

End Class.

Arguments claimVaultedTokens {SimulateResult SimulateRequest}.
Arguments updateSimulate {SimulateResult SimulateRequest}.
Arguments updateRewardRecipientSimulate {SimulateResult SimulateRequest}.
Arguments updateRewardAdminSimulate {SimulateResult SimulateRequest}.
Arguments update {SimulateResult SimulateRequest}.
Arguments updateRewardRecipient {SimulateResult SimulateRequest}.
Arguments updateRewardAdmin {SimulateResult SimulateRequest}.
Arguments claimAirdrop {SimulateResult SimulateRequest}.

(** The static [getVaultClaimTransactionObject] (lines 678-696). *)
Definition getVaultClaimTransactionObject (token : Address) (chainId : option Z)
    (vaultAddress : option Address) : Outcome (Tx.Config CallArgs) :=
  if missing vaultAddress
  then Threw (new_Error
                "vaultAddress is required when using static getVaultClaimTransactionObject")
  else Returned {|
    Tx.abi := Tx.ClankerVault_v4_abi;
    Tx.address := default "" vaultAddress;
    Tx.functionName := "claim";
    Tx.args := VaultClaim token;
    Tx.gas := None;
    Tx.gasPrice := None;
    Tx.value := None;
    Tx.chainId := chainId;
    Tx.expectedAddress := None;
  |}.

(** The same call, with another [chainId] field. *)
Definition with_chainId {Args} (tx : Tx.Config Args) (chainId : option Z) : Tx.Config Args := {|
  Tx.abi := Tx.abi tx; Tx.address := Tx.address tx;
  Tx.functionName := Tx.functionName tx; Tx.args := Tx.args tx;
  Tx.gas := Tx.gas tx; Tx.gasPrice := Tx.gasPrice tx; Tx.value := Tx.value tx;
  Tx.chainId := chainId; Tx.expectedAddress := Tx.expectedAddress tx;
|}.

(** A run that asked the chain for one submission and nothing else, and
    hands back what the chain answered, classified. *)
Definition submits_unchecked (writeContract :
      list (Call CallArgs) -> WalletClient -> Tx.Config CallArgs -> Outcome string)
    (w : WalletClient) (tx : Tx.Config CallArgs) (h : list (Call CallArgs))
    (run : Outcome WriteResult * list (Call CallArgs)) : Prop :=
  run = (Returned
           match writeContract h w tx with
           | Returned hash => {| txHash := Some hash; write_error := None |}
           | Threw e => {| txHash := None; write_error := Some (understandError e) |}
           end,
         h ++ [WriteContract w tx]).

End ClankerV4.

(** ** The deployment methods of the v4 client class *)

Module ClankerV4Deploy.
Import Abi Errors Pipeline ClankerV4.

Section Deploy.

(** What the converter is given and what it relies on. *)
Variables Token Number Metadata Context : Type.
Variable to_wei : Number -> option Z.
Variable stringify_metadata : Metadata -> string.
Variable stringify_context : Context -> string.
Variable DEFAULT_SUPPLY : Z.
Variable WETH_ADDRESSES : Z -> option Address.
Variable clankerConfigFor : Z -> option Target.ClankerDeployment.
Variable findVanityAddressV4 :
  string * string * Z * Address * string * string * string * Z ->
  Address -> string -> Target.ClankerDeployment -> option (Hex * Address).

(** [clankerTokenV4.parse(config)]: [None] when the schema rejects the
    token, and the error thrown then; and the [Error] object made for
    each failure of the converter. *)
Variable parse : Token -> option (Config.Cfg Number Metadata Context).
Variable zodError : Token -> Thrown.
Variable thrown : Converter.Error -> Thrown.

Variables SimulateResult SimulateRequest Log : Type.
Abbreviation Args := Payload.DeploymentConfig.
Variable estimateContractGas :
  list (Call Args) -> PublicClient -> Tx.Config Args -> Account -> Outcome Z.
Variable simulateContract :
  list (Call Args) -> PublicClient -> Tx.Config Args -> option Account ->
  Outcome (SimulateContractReturn SimulateResult SimulateRequest).
Variable writeContract :
  list (Call Args) -> WalletClient -> Tx.Config Args -> Outcome string.
Variable waitForTransactionReceipt :
  list (Call Args) -> PublicClient -> option string -> Outcome (Receipt Log).
Variable decodeEventLog : Log -> option Event.

Abbreviation M := (Pipeline.M Args).

(** [getDeployTransaction] (lines 350-352): the converter, from the
    token as given. *)
Definition getDeployTransaction (token : Token) : M (Tx.Config Args) :=
  match parse token with
  | None => throw (zodError token)
  | Some cfg =>
      match Converter.clankerTokenV4Converter to_wei stringify_metadata stringify_context
              DEFAULT_SUPPLY WETH_ADDRESSES clankerConfigFor findVanityAddressV4 cfg with
      | inl e => throw (thrown e)
      | inr tx => ret tx
      end
  end.

(** [deploySimulate] (lines 361-369). *)
Definition deploySimulate (this : Clanker) (token : Token) (account : option Account)
  : M (SimulateOutcome SimulateResult SimulateRequest) :=
  match or_else account (wallet this ≫= Pipeline.account) with
  | None => throw (new_Error "Account or wallet client required for simulation")
  | Some acc =>
      match publicClient this with
      | None => throw (new_Error "Public client required for deployment")
      | Some client =>
          let* input := getDeployTransaction token in
          simulateDeployToken simulateContract input acc client
      end
  end.

(** [deploy] (lines 377-384). *)
Definition deploy (this : Clanker) (token : Token) : M (DeployResult Args) :=
  match wallet this with
  | None => throw (new_Error "Wallet client required for deployment")
  | Some w =>
      match publicClient this with
      | None => throw (new_Error "Public client required for deployment")
      | Some client =>
          let* input := getDeployTransaction token in
          deployToken estimateContractGas simulateContract writeContract
                      waitForTransactionReceipt decodeEventLog input w client
      end
  end.

End Deploy.

Arguments getDeployTransaction {Token Number Metadata Context}.
Arguments deploySimulate {Token Number Metadata Context} to_wei stringify_metadata stringify_context
  DEFAULT_SUPPLY WETH_ADDRESSES clankerConfigFor findVanityAddressV4 parse zodError thrown
  {SimulateResult SimulateRequest}.
Arguments deploy {Token Number Metadata Context} to_wei stringify_metadata stringify_context
  DEFAULT_SUPPLY WETH_ADDRESSES clankerConfigFor findVanityAddressV4 parse zodError thrown
  {SimulateResult SimulateRequest Log}.

End ClankerV4Deploy.

(** ** The airdrop utilities ([createAirdrop], [getAirdropProofs])

    Amounts are whole numbers within the safe range, on which the
    addition of numbers is exact; a failure ([parse] rejecting an entry,
    [BigInt] of a string that is no integer, a negative exponent, the
    tree library refusing its input) is [None]. *)

Module AirdropUtils.
Import Abi.

Record AirdropRecipient := {
  account : Address;
  amount : Z;
}.

(** [MerkleEntry]: the account and the amount as a decimal string. *)
Definition MerkleEntry : Type := Address * string.

(** One entry of what [getAirdropProofs] returns. *)
Record Claim := {
  proof : list Hex;
  entry_account : Address;
  entry_amount : Z;
}.

Section Airdrop.

Variable addressSchema : Address -> bool.

(** [BigInt.prototype.toString] and [BigInt(string)]. *)
Variable toString : Z -> string.
Variable BigInt : string -> option Z.

(** viem's [isAddressEqual]: it throws on an invalid address. *)
Variable isAddressEqual : Address -> Address -> option bool.

(** The tree library: [StandardMerkleTree.of(values, ['address',
    'uint256'])], [tree.validate()], [tree.root], [tree.entries()] (the
    values in the order given, each with its index) and
    [tree.getProof(i)]. *)
Variable MerkleTree : Type.
Variable StandardMerkleTree_of : list MerkleEntry -> option MerkleTree.
Variable validate : MerkleTree -> bool.
Variable root : MerkleTree -> Hex.
Variable entries : MerkleTree -> list MerkleEntry.
Variable getProof : MerkleTree -> nat -> list Hex.

(** [createAirdrop] (lines 33-57); [tokenDecimals] is 18 when the
    options are left out. *)
Definition createAirdrop (recipients : list AirdropRecipient) (tokenDecimals : Z)
  : option (MerkleTree * (Hex * Z)) :=
  if negb (Js.every (fun r => addressSchema (account r)) recipients) then None
  else if (tokenDecimals <? 0) && negb (Nat.eqb (length recipients) 0) then None
  else
    let values :=
      map (fun r => (account r, toString (amount r * 10 ^ tokenDecimals))) recipients in
    let amount := Js.reduce (fun agg r => amount r + agg) 0 recipients in
    match StandardMerkleTree_of values with
    | None => None
    | Some tree =>
        if validate tree then Some (tree, (root tree, amount)) else None
    end.

(** The loop of [getAirdropProofs] (lines 93-98), from index [i] on. *)
Fixpoint indices_from (i : nat) (es : list MerkleEntry) (account : Address)
  : option (list (nat * MerkleEntry)) :=
  match es with
  | [] => Some []
  | entry :: rest =>
      match isAddressEqual (fst entry) account with
      | None => None
      | Some same =>
          match indices_from (S i) rest account with
          | None => None
          | Some found => Some (if same then (i, entry) :: found else found)
          end
      end
  end.

(** [getAirdropProofs] (lines 89-110). *)
Definition getAirdropProofs (tree : MerkleTree) (account : Address) : option (list Claim) :=
  match indices_from 0 (entries tree) account with
  | None => None
  | Some indices =>
      mapM (fun ie : nat * MerkleEntry =>
              match BigInt (snd (snd ie)) with
              | None => None
              | Some n =>
                  Some {| proof := getProof tree (fst ie);
                          entry_account := fst (snd ie);
                          entry_amount := n |}
              end) indices
  end.

(** The amounts a tree holds, entry by entry. *)
Definition registered (tree : MerkleTree) : option (list Z) :=
  mapM (fun entry : MerkleEntry => BigInt (snd entry)) (entries tree).

End Airdrop.

Arguments createAirdrop addressSchema toString {MerkleTree}.
Arguments getAirdropProofs BigInt isAddressEqual {MerkleTree}.
Arguments registered BigInt {MerkleTree}.

(** The recipients with their index in the list, from [i] on. *)
Fixpoint indexed_from {A} (i : nat) (l : list A) : list (nat * A) :=
  match l with
  | [] => []
  | x :: rest => (i, x) :: indexed_from (S i) rest
  end.

End AirdropUtils.

(** ** Helpers of the v3.1 converter (clankerTokenV3.ts, lines 138-139 and
    184-328)

    Durations are whole days and the clock is read in milliseconds. *)

Module V3.

(** [Math.floor(Date.now() / 1000)], from the reading of the clock. *)
Definition seconds (now : Z) : Z := now / 1000.

(** [getRelativeUnixTimestamp], lines 184-199, with the reading of the
    clock it makes. *)
Definition getRelativeUnixTimestamp (now : Z) (unixTimestamp : Z) : Z :=
  if Js.truthy_number unixTimestamp && (unixTimestamp >? 0)
  then
    let currentTimestamp := seconds now in
    let targetTimestamp := unixTimestamp in
    if targetTimestamp >? currentTimestamp
    then targetTimestamp - currentTimestamp
    else 31 * 24 * 60 * 60
  else 0.

(** [vestingDuration] of the converter (lines 138-139): the clock is
    read once for the unlock date and once more inside
    [getRelativeUnixTimestamp]. *)
Definition vestingDuration (now later : Z) (durationInDays : Z) : Z :=
  let vestingUnlockDate := seconds now + durationInDays * 24 * 60 * 60 in
  if Js.truthy_number durationInDays
  then getRelativeUnixTimestamp later vestingUnlockDate
  else 0.

(** [TokenPair] without its [null], which is [None] below. *)
Inductive TokenPair :=
| WETH | DEGEN | ANON | HIGHER | CLANKER | BTC | NATIVE | A0x | WMON | AbstractEth.

Definition ABSTRACT_ETH : Address := "0x3439153EB7AF838Ad19d56E1571FBD09333C2809".
Definition WMON_ADDRESS : Address := "0x760AfE86e5de5fa0Ee542fc7B7B713e1c5425701".

Section Constants.

(** The addresses of src/constants.ts. *)
Variable WETH_ADDRESSES : Z -> option Address.
Variables DEGEN_ADDRESS NATIVE_ADDRESS CLANKER_ADDRESS ANON_ADDRESS : Address.
Variables HIGHER_ADDRESS CB_BTC_ADDRESS A0X_ADDRESS : Address.

(** [address === WETH_ADDRESSES[base.id]] *)
Definition is_base_weth (address : Address) : bool :=
  match WETH_ADDRESSES 8453 with
  | Some weth => String.eqb address weth
  | None => false
  end.

(** [getTokenPairByAddress], lines 214-243. *)
Definition getTokenPairByAddress (address : Address) : option TokenPair :=
  if is_base_weth address then Some WETH
  else if String.eqb address DEGEN_ADDRESS then Some DEGEN
  else if String.eqb address NATIVE_ADDRESS then Some NATIVE
  else if String.eqb address CLANKER_ADDRESS then Some CLANKER
  else if String.eqb address ANON_ADDRESS then Some ANON
  else if String.eqb address HIGHER_ADDRESS then Some HIGHER
  else if String.eqb address CB_BTC_ADDRESS then Some BTC
  else if String.eqb address A0X_ADDRESS then Some A0x
  else if String.eqb address ABSTRACT_ETH then Some AbstractEth
  else Some WETH.

(** The [pairAddress] field of what [getDesiredPriceAndPairAddress]
    returns (lines 245-328); [None] is [undefined]. *)
Definition pairAddress (pair : option TokenPair) : option Address :=
  match pair with
  | Some WETH => WETH_ADDRESSES 8453
  | Some DEGEN => Some DEGEN_ADDRESS
  | Some CLANKER => Some CLANKER_ADDRESS
  | Some ANON => Some ANON_ADDRESS
  | Some HIGHER => Some HIGHER_ADDRESS
  | Some BTC => Some CB_BTC_ADDRESS
  | Some NATIVE => Some NATIVE_ADDRESS
  | Some A0x => Some A0X_ADDRESS
  | Some WMON => Some WMON_ADDRESS
  | Some AbstractEth => Some ABSTRACT_ETH
  | None => WETH_ADDRESSES 8453
  end.

(** The quote tokens the converter tells apart. *)
Definition known_quote_tokens : list Address :=
  match WETH_ADDRESSES 8453 with
  | Some weth => [weth]
  | None => []
  end
  ++ [DEGEN_ADDRESS; NATIVE_ADDRESS; CLANKER_ADDRESS; ANON_ADDRESS; HIGHER_ADDRESS;
      CB_BTC_ADDRESS; A0X_ADDRESS; ABSTRACT_ETH].

End Constants.

End V3.

(** ** The extension classes (VaultExtension.ts and the purchase
    extensions)

    [validateExtensionData] takes any value; numbers are whole. *)

Module Extensions.
Import Abi Errors.

(** What [data: unknown] can be: a primitive, or an object with its
    properties. *)
Inductive Data :=
| Value (p : Primitive)
| Object (props : gmap string Primitive).

(** The inline descriptions handed to [encodeAbiParameters]. *)
Inductive SolidityType := address | uint256 | uint24 | uint128.

Record Encoded := {
  types : list SolidityType;
  values : list Abi.Value;
}.

(** [maxAllocationPercentage] of the vault extension class. *)
Definition Vault_maxAllocationPercentage : Z := 90.

(** [VaultExtension.validateExtensionData] (VaultExtension.ts, lines
    29-40). *)
Definition Vault_validateExtensionData (data : Data) : bool :=
  match data with
  | Value _ => false
  | Object props =>
      match props !! "admin", props !! "lockupDuration", props !! "vestingDuration" with
      | Some (StringV _), Some (NumberV lockupDuration), Some (NumberV vestingDuration) =>
          (0 <=? lockupDuration) && (0 <=? vestingDuration)
      | _, _, _ => false
      end
  end.

(** [VaultExtension.encodeExtensionData] (lines 18-27); [None] when it
    throws 'Invalid vault extension data'. *)
Definition Vault_encodeExtensionData (data : Data) : option Encoded :=
  if negb (Vault_validateExtensionData data) then None
  else
    match data with
    | Object props =>
        match props !! "admin", props !! "lockupDuration", props !! "vestingDuration" with
        | Some (StringV admin), Some (NumberV lockupDuration),
          Some (NumberV vestingDuration) =>
            Some {| types := [address; uint256; uint256];
                    values := [Addr admin; Big lockupDuration; Big vestingDuration] |}
        | _, _, _ => None
        end
    | Value _ => None
    end.

(** [DevBuyV3Extension.validateExtensionData] (lines 298-308 of the
    purchase extensions). *)
Definition DevBuyV3_validateExtensionData (data : Data) : bool :=
  match data with
  | Value _ => false
  | Object props =>
      match props !! "uniV3Fee", props !! "pairedTokenAmountOutMinimum",
            props !! "recipient" with
      | Some (NumberV uniV3Fee), Some (BigIntV _), Some (StringV _) =>
          existsb (Z.eqb uniV3Fee) [100; 500; 2500; 3000; 10000]
      | _, _, _ => false
      end
  end.

(** [DevBuyV3Extension.encodeExtensionData] (lines 283-296); [None]
    when it throws 'Invalid devBuyV3 extension data'. *)
Definition DevBuyV3_encodeExtensionData (data : Data) : option Encoded :=
  if negb (DevBuyV3_validateExtensionData data) then None
  else
    match data with
    | Object props =>
        match props !! "uniV3Fee", props !! "pairedTokenAmountOutMinimum",
              props !! "recipient" with
        | Some (NumberV uniV3Fee), Some (BigIntV amountOutMinimum), Some (StringV recipient) =>
            Some {| types := [uint24; uint128; address];
                    values := [Num uniV3Fee; Big amountOutMinimum; Addr recipient] |}
        | _, _, _ => None
        end
    | Value _ => None
    end.

(** The objects a caller builds for the two classes. *)
Definition VaultExtensionData (admin : Address) (lockupDuration vestingDuration : Z) : Data :=
  Object (<["admin" := StringV admin]>
          (<["lockupDuration" := NumberV lockupDuration]>
           (<["vestingDuration" := NumberV vestingDuration]> ∅))).

Definition DevBuyExtensionDataV3 (uniV3Fee amountOutMinimum : Z) (recipient : Address) : Data :=
  Object (<["uniV3Fee" := NumberV uniV3Fee]>
          (<["pairedTokenAmountOutMinimum" := BigIntV amountOutMinimum]>
           (<["recipient" := StringV recipient]> ∅))).

(** The arguments of an encoding made by the converter. *)
Definition encoded_values (h : Hex) : list Abi.Value :=
  match h with
  | encodeAbiParameters _ args => args
  | Literal _ => []
  end.

End Extensions.

(** ** Concrete inputs used to exercise the statements below *)

Module Demo.
Import Schema.

(** A single position over the default range holding 9,999 bps. *)
Definition short_positions : list Position :=
  [{| tickLower := -230400; tickUpper := -120000; positionBps := 9999 |}].

Definition short_pool_input : PoolInput := {|
  in_pairedToken := None;
  in_tickIfToken0IsClanker := None;
  in_tickSpacing := None;
  in_positions := short_positions;
|}.

(** A target on chain 8453 with every module deployed but the
    second-generation hooks and the v3 purchase module. *)
Definition related : Target.RelatedV4 := {|
  Target.locker := "0x00000000000000000000000000000000000000a1";
  Target.vault := "0x00000000000000000000000000000000000000a2";
  Target.airdrop := "0x00000000000000000000000000000000000000a3";
  Target.devbuy := "0x00000000000000000000000000000000000000a4";
  Target.devbuyV3 := None;
  Target.mevModule := "0x00000000000000000000000000000000000000a5";
  Target.mevModuleV2 := None;
  Target.feeStaticHook := "0x00000000000000000000000000000000000000a6";
  Target.feeStaticHookV2 := None;
  Target.feeDynamicHook := "0x00000000000000000000000000000000000000a7";
  Target.feeDynamicHookV2 := None;
|}.

Definition deployment : Target.ClankerDeployment := {|
  Target.address := "0x00000000000000000000000000000000000000a0";
  Target.related := Some related;
|}.

Definition clankerConfigFor (chainId : Z) : option Target.ClankerDeployment :=
  if chainId =? 8453 then Some deployment else None.

Definition WETH_ADDRESSES (chainId : Z) : option Address :=
  if chainId =? 8453 then Some "0x4200000000000000000000000000000000000006" else None.

(** Ether amounts given in thousandths. *)
Definition to_wei (thousandths : Z) : option Z := Some (thousandths * 10 ^ 15).

(** An address-mining service that answers nothing. *)
Definition findVanityAddressV4
    (_ : string * string * Z * Address * string * string * string * Z)
    (_ : Address) (_ : string) (_ : Target.ClankerDeployment)
  : option (Abi.Hex * Address) := None.

Definition admin_address : Address := "0x00000000000000000000000000000000000000ad".

Definition vault_setting : Config.Vault := {|
  Config.percentage := 10;
  Config.vault_lockupDuration := 2592000;
  Config.vault_vestingDuration := 0;
  Config.vault_recipient := None;
|}.

(** 333,333,334 whole tokens: 33.3333334 bps of the supply. *)
Definition airdrop_setting : Config.Airdrop := {|
  Config.airdrop_admin := None;
  Config.merkleRoot :=
    Abi.Literal "0x1111111111111111111111111111111111111111111111111111111111111111";
  Config.airdrop_lockupDuration := 86400;
  Config.airdrop_vestingDuration := 0;
  Config.amount := 333333334;
|}.

Definition null_pool_key : Config.PoolKey := {|
  Config.currency0 := Abi.zeroAddress;
  Config.currency1 := Abi.zeroAddress;
  Config.fee := 0;
  Config.pk_tickSpacing := 0;
  Config.hooks := Abi.zeroAddress;
|}.

Definition cfg : Config.Cfg Z string string := {|
  Config.name := "My Token";
  Config.symbol := "MTK";
  Config.image := "";
  Config.chainId := 8453;
  Config.tokenAdmin := admin_address;
  Config.metadata := None;
  Config.context := "{interface:SDK}";
  Config.poolExtension :=
    {| Config.pe_address := Abi.zeroAddress; Config.pe_initData := Abi.Literal "0x" |};
  Config.pool :=
    {| pairedToken := WETH; tickIfToken0IsClanker := -230400; tickSpacing := 200;
       positions := [{| tickLower := -230400; tickUpper := -120000;
                        positionBps := 10000 |}] |};
  Config.locker_cfg :=
    {| Config.locker := Config.Locker; Config.lockerData := Abi.Literal "0x" |};
  Config.vault := Some vault_setting;
  Config.airdrop := Some airdrop_setting;
  Config.devBuy := Some (Config.v4 100 null_pool_key 0);
  Config.fees := Config.static {| Config.clankerFee := 100; Config.pairedFee := 200 |};
  Config.sniperFees :=
    {| Config.startingFee := 666777; Config.endingFee := 41673;
       Config.secondsToDecay := 15 |};
  Config.rewards := None;
  Config.vanity := false;
|}.

Definition convert :=
  Converter.clankerTokenV4Converter to_wei (fun m : string => m) (fun c : string => c)
    Allocator.SPEC_DEFAULT_SUPPLY WETH_ADDRESSES clankerConfigFor findVanityAddressV4.

(** A failed call that wraps a revert decoded as [NoFeesToClaim]. *)
Definition no_fees_failure : Errors.Thrown :=
  Errors.Err Errors.BaseError "ContractFunctionExecutionError"
    "The contract function claimRewards reverted."
    (Some (Errors.Err (Errors.ContractFunctionRevertedError (Some "NoFeesToClaim") None)
                      "ContractFunctionRevertedError" "NoFeesToClaim()" None)).

(** A read that came back empty. *)
Definition no_data_failure : Errors.Thrown :=
  Errors.Err Errors.BaseError "ContractFunctionExecutionError"
    "The contract function amountAvailableToClaim returned no data (0x)." None.

(** Collaborators: gas is estimated, the simulation reverts, receipts
    carry three log entries, reads come back empty. *)
Definition client : Pipeline.PublicClient := {| Pipeline.chain := Some Pipeline.base |}.
Definition caller : Pipeline.Account := {| Pipeline.account_address := admin_address |}.
Definition wallet : Pipeline.WalletClient :=
  {| Pipeline.account := Some caller; Pipeline.wallet_chain := Some Pipeline.base |}.

Definition tx : Tx.Config unit := {|
  Tx.abi := Tx.Clanker_v4_abi;
  Tx.address := "0x00000000000000000000000000000000000000a0";
  Tx.functionName := "deployToken";
  Tx.args := tt;
  Tx.gas := None;
  Tx.gasPrice := None;
  Tx.value := Some 0;
  Tx.chainId := Some 8453;
  Tx.expectedAddress := None;
|}.

Definition estimateContractGas
    (_ : list (Pipeline.Call unit)) (_ : Pipeline.PublicClient) (_ : Tx.Config unit)
    (_ : Pipeline.Account) : Pipeline.Outcome Z := Pipeline.Returned 100000.

Definition simulateContract
    (_ : list (Pipeline.Call unit)) (_ : Pipeline.PublicClient) (_ : Tx.Config unit)
    (_ : option Pipeline.Account)
  : Pipeline.Outcome (Pipeline.SimulateContractReturn unit unit) :=
  Pipeline.Threw no_fees_failure.

Definition writeContract
    (_ : list (Pipeline.Call unit)) (_ : Pipeline.WalletClient) (_ : Tx.Config unit)
  : Pipeline.Outcome string := Pipeline.Returned "0xabc".

Definition first_token : Address := "0x0000000000000000000000000000000000000b07".
Definition second_token : Address := "0x0000000000000000000000000000000000001b07".

Definition decodeEventLog (entry : nat) : option Pipeline.Event :=
  match entry with
  | 0%nat => Some (Pipeline.OtherEvent "Transfer")
  | 1%nat => Some (Pipeline.TokenCreated {| Pipeline.tokenAddress := first_token |})
  | 2%nat => Some (Pipeline.TokenCreated {| Pipeline.tokenAddress := second_token |})
  | _ => None
  end.

Definition receipt : Pipeline.Receipt nat := {| Pipeline.logs := [0; 1; 2]%nat |}.

Definition waitForTransactionReceipt
    (_ : list (Pipeline.Call unit)) (_ : Pipeline.PublicClient) (_ : option string)
  : Pipeline.Outcome (Pipeline.Receipt nat) := Pipeline.Returned receipt.

Definition readContract
    (_ : list (Pipeline.Call unit)) (_ : Pipeline.PublicClient) (_ : Address)
    (_ : string) (_ : Address) : Pipeline.Outcome Z :=
  Pipeline.Threw no_data_failure.

End Demo.

(** ** Further concrete inputs *)

Module DemoRest.
Import Abi Errors Pipeline.

(** Schema inputs that yield the settings of [Demo.cfg]. *)
Definition addressSchema (a : Address) : bool := Nat.eqb (String.length a) 42.
Definition hexSchema (_ : Hex) : bool := true.

Definition sniper_setting : Config.SniperFees :=
  {| Config.startingFee := 500000; Config.endingFee := 50000;
     Config.secondsToDecay := 30 |}.

Definition vault_input : SchemaRest.VaultInput := {|
  SchemaRest.in_percentage := 10;
  SchemaRest.in_lockupDuration := 2592000;
  SchemaRest.in_vestingDuration := None;
  SchemaRest.in_recipient := None;
|}.

Definition airdrop_input : SchemaRest.AirdropInput := {|
  SchemaRest.in_admin := None;
  SchemaRest.in_merkleRoot :=
    Literal "0x1111111111111111111111111111111111111111111111111111111111111111";
  SchemaRest.in_airdrop_lockupDuration := 86400;
  SchemaRest.in_airdrop_vestingDuration := None;
  SchemaRest.in_amount := 333333334;
|}.

Definition fees_input : option Config.Fees :=
  Some (Config.static {| Config.clankerFee := 100; Config.pairedFee := 200 |}).

(** [Demo.cfg] with a purchase routed through a v3 pool. *)
Definition cfg_v3 : Config.Cfg Z string string := {|
  Config.name := Config.name Demo.cfg;
  Config.symbol := Config.symbol Demo.cfg;
  Config.image := Config.image Demo.cfg;
  Config.chainId := Config.chainId Demo.cfg;
  Config.tokenAdmin := Config.tokenAdmin Demo.cfg;
  Config.metadata := Config.metadata Demo.cfg;
  Config.context := Config.context Demo.cfg;
  Config.poolExtension := Config.poolExtension Demo.cfg;
  Config.pool := Config.pool Demo.cfg;
  Config.locker_cfg := Config.locker_cfg Demo.cfg;
  Config.vault := Config.vault Demo.cfg;
  Config.airdrop := Config.airdrop Demo.cfg;
  Config.devBuy := Some (Config.v3 100 3000 0);
  Config.fees := Config.fees Demo.cfg;
  Config.sniperFees := Config.sniperFees Demo.cfg;
  Config.rewards := Config.rewards Demo.cfg;
  Config.vanity := Config.vanity Demo.cfg;
|}.

Definition other_extension : Config.PoolExtension :=
  {| Config.pe_address := "0x00000000000000000000000000000000000000e1";
     Config.pe_initData := Literal "0x01" |}.

(** A submission that failed for lack of funds. *)
Definition funds_error : Thrown :=
  Err InsufficientFundsError "InsufficientFundsError"
      "insufficient funds for gas * price + value" None.

Definition funds_failure : Thrown :=
  Err BaseError "TransactionExecutionError" "The total cost exceeds the balance."
      (Some funds_error).

(** A simulation that goes through. *)
Definition simulated : SimulateContractReturn unit unit :=
  {| sim_result := tt; sim_request := tt |}.

Definition simulateContract_ok
    (_ : list (Call unit)) (_ : PublicClient) (_ : Tx.Config unit)
    (_ : option Account) : Outcome (SimulateContractReturn unit unit) :=
  Returned simulated.

(** A class whose wallet is on chain 130 and whose public client is on
    Base, with modules configured for both. *)
Definition unichain : Chain := {| id := 130 |}.

Definition related_unichain : Target.RelatedV4 := {|
  Target.locker := "0x00000000000000000000000000000000000000b1";
  Target.vault := "0x00000000000000000000000000000000000000b2";
  Target.airdrop := "0x00000000000000000000000000000000000000b3";
  Target.devbuy := "0x00000000000000000000000000000000000000b4";
  Target.devbuyV3 := None;
  Target.mevModule := "0x00000000000000000000000000000000000000b5";
  Target.mevModuleV2 := None;
  Target.feeStaticHook := "0x00000000000000000000000000000000000000b6";
  Target.feeStaticHookV2 := None;
  Target.feeDynamicHook := "0x00000000000000000000000000000000000000b7";
  Target.feeDynamicHookV2 := None;
|}.

Definition deployment_unichain : Target.ClankerDeployment := {|
  Target.address := "0x00000000000000000000000000000000000000b0";
  Target.related := Some related_unichain;
|}.

Definition clankerConfigFor (chainId : Z) : option Target.ClankerDeployment :=
  if chainId =? 8453 then Some Demo.deployment
  else if chainId =? 130 then Some deployment_unichain
  else None.

Definition wallet_unichain : WalletClient :=
  {| account := Some Demo.caller; wallet_chain := Some unichain |}.

Definition clanker : ClankerV4.Clanker :=
  {| ClankerV4.wallet := Some wallet_unichain;
     ClankerV4.publicClient := Some Demo.client |}.

Definition class_simulateContract
    (_ : list (Call ClankerV4.CallArgs)) (_ : PublicClient)
    (_ : Tx.Config ClankerV4.CallArgs) (_ : option Account)
  : Outcome (SimulateContractReturn unit unit) := Returned simulated.

Definition class_writeContract
    (_ : list (Call ClankerV4.CallArgs)) (_ : WalletClient)
    (_ : Tx.Config ClankerV4.CallArgs) : Outcome string := Returned "0xdef".

Definition recipient_update : ClankerV4.CallArgs :=
  ClankerV4.UpdateRewardRecipient Demo.first_token 0 Demo.admin_address.

(** A class on Base deploying [Demo.cfg]; the token is given as parsed. *)
Definition clanker_base : ClankerV4.Clanker :=
  {| ClankerV4.wallet := Some Demo.wallet;
     ClankerV4.publicClient := Some Demo.client |}.

Definition deploy_estimateContractGas
    (_ : list (Call Payload.DeploymentConfig)) (_ : PublicClient)
    (_ : Tx.Config Payload.DeploymentConfig) (_ : Account) : Outcome Z :=
  Returned 100000.

Definition deploy_simulateContract
    (_ : list (Call Payload.DeploymentConfig)) (_ : PublicClient)
    (_ : Tx.Config Payload.DeploymentConfig) (_ : option Account)
  : Outcome (SimulateContractReturn unit unit) := Returned simulated.

Definition deploy_writeContract
    (_ : list (Call Payload.DeploymentConfig)) (_ : WalletClient)
    (_ : Tx.Config Payload.DeploymentConfig) : Outcome string := Returned "0xabc".

Definition deploy_waitForTransactionReceipt
    (_ : list (Call Payload.DeploymentConfig)) (_ : PublicClient) (_ : option string)
  : Outcome (Receipt nat) := Returned Demo.receipt.

Definition class_deploy :=
  ClankerV4Deploy.deploy Demo.to_wei (fun m : string => m) (fun c : string => c)
    Allocator.SPEC_DEFAULT_SUPPLY Demo.WETH_ADDRESSES Demo.clankerConfigFor
    Demo.findVanityAddressV4
    (fun token : Config.Cfg Z string string => Some token)
    (fun _ => new_Error "ZodError") (fun _ => new_Error "converter")
    deploy_estimateContractGas deploy_simulateContract deploy_writeContract
    deploy_waitForTransactionReceipt Demo.decodeEventLog.

(** An airdrop of 333,333,334 tokens over three entries, two of them of
    the admin; numbers are printed and read in decimal, and a tree is the
    list of its values. *)
Definition toString (z : Z) : string :=
  DecimalString.NilZero.string_of_int (Z.to_int z).

Definition BigInt (s : string) : option Z :=
  option_map Z.of_int (DecimalString.NilZero.int_of_string s).

Definition isAddressEqual (a b : Address) : option bool := Some (String.eqb a b).

Definition StandardMerkleTree_of (values : list AirdropUtils.MerkleEntry)
  : option (list AirdropUtils.MerkleEntry) :=
  match values with
  | [] => None
  | _ => Some values
  end.

Definition root (_ : list AirdropUtils.MerkleEntry) : Hex :=
  Literal "0x1111111111111111111111111111111111111111111111111111111111111111".

Definition getProof (_ : list AirdropUtils.MerkleEntry) (i : nat) : list Hex :=
  [Literal (pretty i)].

Definition recipients : list AirdropUtils.AirdropRecipient :=
  [{| AirdropUtils.account := Demo.admin_address; AirdropUtils.amount := 333333000 |};
   {| AirdropUtils.account := Demo.first_token; AirdropUtils.amount := 300 |};
   {| AirdropUtils.account := Demo.admin_address; AirdropUtils.amount := 34 |}].

Definition createAirdrop :=
  AirdropUtils.createAirdrop addressSchema toString StandardMerkleTree_of
    (fun _ => true) root.

Definition getAirdropProofs :=
  AirdropUtils.getAirdropProofs BigInt isAddressEqual
    (fun tree : list AirdropUtils.MerkleEntry => tree) getProof.

(** Two readings of the clock, a second and a half apart. *)
Definition now : Z := 1700000000000.
Definition later : Z := 1700000001500.

End DemoRest.

(** * Properties *)

(** ** JavaScript primitives *)

Module JsFacts.

Lemma prefix_append (needle hay : string) :
  String.prefix needle hay = true <-> exists rest, hay = needle +:+ rest.
Proof.
  revert hay.
  induction needle as [|a needle IH]; intros hay; simpl.
  - destruct hay; split; eauto.
  - destruct hay as [|b hay]; simpl.
    + split; [discriminate | intros [rest H]; discriminate].
    + destruct (Ascii.ascii_dec a b) as [->|Hne].
      * rewrite IH. split; intros [rest H]; exists rest.
        -- rewrite H. reflexivity.
        -- injection H as ->. reflexivity.
      * split; [discriminate | intros [rest H]; injection H as <- _; contradiction].
Qed.

(** [includes] finds the needle wherever it occurs. *)
Lemma includes_spec (needle hay : string) :
  Js.includes needle hay = true <->
  exists before after, hay = before +:+ needle +:+ after.
Proof.
  induction hay as [|c hay IH]; cbn [Js.includes].
  - destruct (String.prefix needle "") eqn:P.
    + split; [|reflexivity]. intros _.
      apply prefix_append in P as [rest P]. exists "", rest. exact P.
    + split; [discriminate|]. intros (before & after & H).
      destruct before; [|discriminate].
      assert (String.prefix needle "" = true) by (apply prefix_append; eauto).
      congruence.
  - destruct (String.prefix needle (String c hay)) eqn:P.
    + split; [|reflexivity]. intros _.
      apply prefix_append in P as [rest P]. exists "", rest. exact P.
    + rewrite IH. split.
      * intros (before & after & ->). exists (String c before), after. reflexivity.
      * intros (before & after & H). destruct before as [|b before].
        -- assert (String.prefix needle (String c hay) = true)
             by (apply prefix_append; eauto).
           congruence.
        -- injection H as _ ->. eauto.
Qed.

Example includes_no_data :
  Js.includes "returned no data"
    "The contract function amountAvailableToClaim returned no data (0x)." = true
  /\ Js.includes "returned no data" "execution reverted" = false.
Proof. split; reflexivity. Qed.

End JsFacts.

(** ** Schema refinements *)

Module SchemaFacts.
Import Schema Demo.

Lemma reduce_positions_from (v : list Position) (init : Z) :
  Js.reduce (fun agg cur => agg + positionBps cur) init v = init + positions_sum v.
Proof.
  unfold Js.reduce. revert init.
  induction v as [|p v IH]; intros init; simpl.
  - lia.
  - rewrite IH. lia.
Qed.

(** The callback of line 101 returns 10,000 plus the sum of the shares. *)
Lemma positions_refinement_value (v : list Position) :
  positions_refinement v = 10000 + positions_sum v.
Proof. apply reduce_positions_from. Qed.

Lemma positions_sum_nonneg (v : list Position) :
  Js.every position_schema v = true -> 0 <= positions_sum v.
Proof.
  unfold Js.every.
  induction v as [|p v IH]; simpl; intros H.
  - lia.
  - apply andb_prop in H as [Hp Hv].
    unfold position_schema in Hp. apply andb_prop in Hp as [Hlo _].
    apply Z.leb_le in Hlo. specialize (IH Hv). lia.
Qed.

(** On shares that pass their own range check the refinement is truthy
    whatever they sum to: the array schema only checks the elements and
    the length. *)
Lemma positions_schema_unfolded (v : list Position) :
  positions_schema v = Js.every position_schema v && (1 <=? Z.of_nat (length v)).
Proof.
  unfold positions_schema.
  destruct (Js.every position_schema v) eqn:He; simpl; [|reflexivity].
  destruct (1 <=? Z.of_nat (length v)); simpl; [|reflexivity].
  rewrite positions_refinement_value.
  pose proof (positions_sum_nonneg v He).
  unfold Js.truthy_number. apply negb_true_iff, Z.eqb_neq. lia.
Qed.

(** The sibling refinement on reward recipients is a real comparison. *)
Lemma recipients_refinement_spec (v : list Recipient) :
  recipients_refinement v = true <-> foldr (fun r acc => bps r + acc) 0 v = 10000.
Proof.
  unfold recipients_refinement, Js.reduce.
  assert (G : forall init, fold_left (fun agg cur => agg + bps cur) v init
                           = init + foldr (fun r acc => bps r + acc) 0 v).
  { induction v as [|r v IH]; intros init; simpl; [lia|]. rewrite IH. lia. }
  rewrite G, Z.eqb_eq. lia.
Qed.

(** What an accepted pool does satisfy: shares within range, at least one
    position, one position starting at the starting tick, every tick a
    multiple of the spacing. *)
Lemma pool_schema_accepted
    (addressSchema : Address -> bool) (standard : list Position)
    (input : option PoolInput) (v : Pool) :
  pool_schema addressSchema standard input = Some v ->
  Js.every position_schema (positions v) = true
  /\ (1 <= length (positions v))%nat
  /\ touches_starting_tick v = true
  /\ ticks_are_multiples v = true.
Proof.
  unfold pool_schema.
  destruct (_ && _ && _ && _) eqn:E; [|discriminate].
  intros [= <-].
  rewrite !andb_true_iff in E. destruct E as [[[_ Hpos] Htouch] Hmult].
  rewrite positions_schema_unfolded, andb_true_iff in Hpos.
  destruct Hpos as [Hevery Hlen]. apply Z.leb_le in Hlen.
  repeat split; [exact Hevery | simpl in *; lia | exact Htouch | exact Hmult].
Qed.

(** C1 (evaluation at the failing input).  A pool whose only position
    holds 9,999 bps passes [pool_schema]: the parsed pool carries positions
    that sum to 9,999, not 10,000.  The same holds for a list summing to
    10,001. *)
Theorem pool_schema_accepts_short_sum
    (addressSchema : Address -> bool) (standard : list Position) :
  pool_schema addressSchema standard (Some short_pool_input)
  = Some {| pairedToken := WETH; tickIfToken0IsClanker := -230400;
            tickSpacing := 200; positions := short_positions |}
  /\ positions_sum short_positions = 9999
  /\ positions_schema
       [{| tickLower := -230400; tickUpper := -120000; positionBps := 10000 |};
        {| tickLower := -120000; tickUpper := -100000; positionBps := 1 |}] = true.
Proof. repeat split; reflexivity. Qed.

End SchemaFacts.

(** ** Basis-point allocator *)

Module AllocatorFacts.
Import Allocator.

(** [ceil_div] is the ceiling: the least multiplier that reaches [x]. *)
Lemma ceil_div_spec (x y : Z) :
  0 < y -> (ceil_div x y - 1) * y < x <= ceil_div x y * y.
Proof.
  intros Hy. unfold ceil_div.
  pose proof (Z.div_mod (- x) y ltac:(lia)) as E.
  pose proof (Z.mod_pos_bound (- x) y Hy) as B.
  nia.
Qed.

Section WithSupply.

Variable supply : Z.
Hypothesis supply_pos : 0 < supply.

(** The share times the supply covers the request, for every amount. *)
Lemma bps_covers (a : Z) : a * 10000 <= bpsAirdropped supply a * supply.
Proof.
  unfold bpsAirdropped.
  pose proof (Z.quot_rem' (a * 10000) supply) as E.
  pose proof (Z.rem_bound_abs (a * 10000) supply ltac:(lia)) as B.
  destruct (Z.rem (a * 10000) supply =? 0) eqn:R.
  - apply Z.eqb_eq in R. nia.
  - lia.
Qed.

(** ... and, on a non-negative request, by less than one supply. *)
Lemma bps_tight (a : Z) :
  0 <= a -> bpsAirdropped supply a * supply < a * 10000 + supply.
Proof.
  intros Ha. unfold bpsAirdropped.
  pose proof (Z.quot_rem' (a * 10000) supply) as E.
  pose proof (Z.rem_bound_pos (a * 10000) supply ltac:(lia) supply_pos) as B.
  destruct (Z.rem (a * 10000) supply =? 0) eqn:R.
  - apply Z.eqb_eq in R. nia.
  - apply Z.eqb_neq in R. nia.
Qed.

Lemma bps_is_ceiling (a : Z) :
  0 <= a -> bpsAirdropped supply a = ceil_div (a * 10000) supply.
Proof.
  intros Ha.
  pose proof (bps_covers a) as C.
  pose proof (bps_tight a Ha) as T.
  pose proof (ceil_div_spec (a * 10000) supply supply_pos) as S.
  nia.
Qed.

(** In terms of flooring division, which agrees with bigint division on
    non-negative operands. *)
Lemma bps_floor_form (a : Z) :
  0 <= a ->
  bpsAirdropped supply a
  = (a * 10000) / supply + (if (a * 10000) mod supply =? 0 then 0 else 1).
Proof.
  intros Ha. unfold bpsAirdropped.
  rewrite Z.quot_div_nonneg, Z.rem_mod_nonneg by lia. reflexivity.
Qed.

(** The verified quantity never falls short of the request. *)
Lemma verification_covers (a : Z) :
  a <= roundingVerificationAirdrop supply (bpsAirdropped supply a).
Proof.
  unfold roundingVerificationAirdrop.
  pose proof (bps_covers a) as C.
  set (n := bpsAirdropped supply a * supply) in *.
  pose proof (Z.quot_rem' n 10000) as E.
  pose proof (Z.rem_bound_abs n 10000 ltac:(lia)) as B.
  lia.
Qed.

(** On a non-negative request the excess stays under one basis point of
    the supply. *)
Lemma verification_excess (a : Z) :
  0 <= a ->
  (roundingVerificationAirdrop supply (bpsAirdropped supply a) - a) * 10000 < supply.
Proof.
  intros Ha. unfold roundingVerificationAirdrop.
  pose proof (bps_covers a) as C.
  pose proof (bps_tight a Ha) as T.
  set (n := bpsAirdropped supply a * supply) in *.
  pose proof (Z.quot_rem' n 10000) as E.
  pose proof (Z.rem_bound_pos n 10000 ltac:(lia) ltac:(lia)) as B.
  lia.
Qed.

Lemma too_low_never (a : Z) :
  roundedAirdropTooLow a (roundingVerificationAirdrop supply (bpsAirdropped supply a))
  = false.
Proof.
  unfold roundedAirdropTooLow.
  pose proof (verification_covers a).
  destruct (Z.gtb_spec a (roundingVerificationAirdrop supply (bpsAirdropped supply a)));
    [lia | reflexivity].
Qed.

(** The over-allocation test trips exactly from two basis points of the
    supply on. *)
Lemma too_high_threshold (a v : Z) :
  roundedAirdropTooHigh supply a v = true <-> 2 * supply <= (v - a) * 10000.
Proof.
  unfold roundedAirdropTooHigh.
  set (d := (v - a) * 10000).
  pose proof (Z.quot_rem' d supply) as E.
  pose proof (Z.rem_bound_abs d supply ltac:(lia)) as B.
  destruct (Z.gtb_spec (Z.quot d supply) 1) as [G|G]; split; intros H;
    try discriminate; try reflexivity.
  - assert (Hd : 0 <= d) by nia.
    pose proof (Z.rem_bound_pos d supply Hd supply_pos). nia.
  - exfalso.
    pose proof (Z.rem_bound_pos d supply ltac:(lia) supply_pos). nia.
Qed.

(** So on a non-negative request the over-allocation test does not trip
    either. *)
Lemma too_high_never (a : Z) :
  0 <= a ->
  roundedAirdropTooHigh supply a
    (roundingVerificationAirdrop supply (bpsAirdropped supply a)) = false.
Proof.
  intros Ha.
  destruct (roundedAirdropTooHigh supply a _) eqn:E; [|reflexivity].
  apply too_high_threshold in E.
  pose proof (verification_excess a Ha). lia.
Qed.

End WithSupply.

(** The two requests worked out in the design notes, on a supply of
    100,000,000,000 tokens: 30,000,000 tokens are 3 bps exactly;
    33,333,334 tokens round up to 4 bps, which lock 40,000,000 tokens, an
    excess that truncates to 0 bps. *)
Example exact_request :
  let a := airdropAmount 30000000 in
  bpsAirdropped SPEC_DEFAULT_SUPPLY a = 3
  /\ roundingVerificationAirdrop SPEC_DEFAULT_SUPPLY 3 = a.
Proof. split; reflexivity. Qed.

Example rounded_request :
  let a := airdropAmount 33333334 in
  let v := roundingVerificationAirdrop SPEC_DEFAULT_SUPPLY 4 in
  bpsAirdropped SPEC_DEFAULT_SUPPLY a = 4
  /\ v = airdropAmount 40000000
  /\ v - a = airdropAmount 6666666
  /\ Z.quot ((v - a) * 10000) SPEC_DEFAULT_SUPPLY = 0
  /\ roundedAirdropTooLow a v = false
  /\ roundedAirdropTooHigh SPEC_DEFAULT_SUPPLY a v = false.
Proof. repeat split; reflexivity. Qed.

(** The over-allocation test on quantities chosen by hand: an excess of
    1.5 bps of the supply passes, an excess of 2 bps trips it. *)
Example truncated_comparison :
  roundedAirdropTooHigh SPEC_DEFAULT_SUPPLY 0 (15 * 10 ^ 24) = false
  /\ roundedAirdropTooHigh SPEC_DEFAULT_SUPPLY 0 (20 * 10 ^ 24) = true.
Proof. split; reflexivity. Qed.

End AllocatorFacts.

(** ** The converter *)

Module ConverterFacts.
Import Abi Converter.

(** Inversion of the converter's sequencing. *)
Lemma bind_inr {A B} (m : Result A) (k : A -> Result B) (b : B) :
  bind m k = inr b -> exists a, m = inr a /\ k a = inr b.
Proof. destruct m as [e|a]; simpl; [discriminate|eauto]. Qed.

Lemma bind_inl {A B} (m : Result A) (k : A -> Result B) (e : Error) :
  bind m k = inl e -> m = inl e \/ exists a, m = inr a /\ k a = inl e.
Proof. destruct m as [e'|a]; simpl; [intros [= ->]; auto | eauto]. Qed.

Lemma or_throw_inr {A} (o : option A) (e : Error) (a : A) :
  or_throw o e = inr a -> o = Some a.
Proof. destruct o; simpl; congruence. Qed.

Lemma or_throw_inl {A} (o : option A) (e e' : Error) :
  or_throw o e = (inl e' : Result A) -> o = None /\ e' = e.
Proof. destruct o; simpl; [discriminate|]. intros [= ->]. auto. Qed.

Lemma guard_inr (throws : bool) (e : Error) (u : unit) :
  guard throws e = inr u -> throws = false.
Proof. destruct throws; simpl; congruence. Qed.

Lemma guard_inl (throws : bool) (e e' : Error) :
  guard throws e = inl e' -> throws = true /\ e' = e.
Proof. destruct throws; simpl; [|discriminate]. intros [= ->]. auto. Qed.

Section Facts.

Variables Number Metadata Context : Type.
Variable to_wei : Number -> option Z.
Variable stringify_metadata : Metadata -> string.
Variable stringify_context : Context -> string.
Variable DEFAULT_SUPPLY : Z.
Variable WETH_ADDRESSES : Z -> option Address.
Variable clankerConfigFor : Z -> option Target.ClankerDeployment.
Variable findVanityAddressV4 :
  string * string * Z * Address * string * string * string * Z ->
  Address -> string -> Target.ClankerDeployment -> option (Hex * Address).

Abbreviation Cfg := (Config.Cfg Number Metadata Context).
Abbreviation convert :=
  (clankerTokenV4Converter to_wei stringify_metadata stringify_context
     DEFAULT_SUPPLY WETH_ADDRESSES clankerConfigFor findVanityAddressV4).
Abbreviation share := (Converter.share DEFAULT_SUPPLY).
Abbreviation verified := (Converter.verified DEFAULT_SUPPLY).
Abbreviation reaches_rounding :=
  (Converter.reaches_rounding stringify_metadata stringify_context
     DEFAULT_SUPPLY clankerConfigFor findVanityAddressV4).

(** [encodeDevBuyExtension] throws only for a missing v3 module or a
    number that [BigInt] refuses. *)
Lemma encodeDevBuyExtension_inl (cfg : Cfg) (related : Target.RelatedV4) (e : Error) :
  encodeDevBuyExtension to_wei cfg related = inl e ->
  e = DevBuyV3NotDeployed \/ e = RangeError.
Proof.
  unfold encodeDevBuyExtension.
  destruct (Config.devBuy cfg) as [[ethAmount poolKey outMin|ethAmount poolFee outMin]|];
    [| |discriminate]; intros H.
  - apply bind_inl in H as [H|(? & _ & H)]; [apply or_throw_inl in H as [_ ->]; auto|].
    apply bind_inl in H as [H|(? & _ & H)]; [apply or_throw_inl in H as [_ ->]; auto|].
    discriminate.
  - apply bind_inl in H as [H|(? & _ & H)]; [apply or_throw_inl in H as [_ ->]; auto|].
    apply bind_inl in H as [H|(? & _ & H)]; [apply or_throw_inl in H as [_ ->]; auto|].
    apply bind_inl in H as [H|(? & _ & H)]; [apply or_throw_inl in H as [_ ->]; auto|].
    discriminate.
Qed.

(** It returns no entry without a purchase and one entry with one, bound
    for the v4 or the v3 purchase module and holding no share of the
    supply. *)
Lemma encodeDevBuyExtension_inr (cfg : Cfg) (related : Target.RelatedV4)
    (entries : list Payload.ExtensionConfig) :
  encodeDevBuyExtension to_wei cfg related = inr entries ->
  match Config.devBuy cfg with
  | None => entries = []
  | Some d =>
      exists entry,
        entries = [entry]
        /\ Payload.extensionBps entry = 0
        /\ to_wei (Config.ethAmount d) = Some (Payload.msgValue entry)
        /\ match d with
           | Config.v4 _ _ _ => Payload.extension entry = Target.devbuy related
           | Config.v3 _ _ _ => Target.devbuyV3 related = Some (Payload.extension entry)
           end
  end.
Proof.
  unfold encodeDevBuyExtension.
  destruct (Config.devBuy cfg) as [[ethAmount poolKey outMin|ethAmount poolFee outMin]|];
    intros H.
  - apply bind_inr in H as (v & Hv & H). apply or_throw_inr in Hv.
    apply bind_inr in H as (o & Ho & H).
    injection H as <-. eexists. simpl. eauto.
  - apply bind_inr in H as (a & Ha & H). apply or_throw_inr in Ha.
    apply bind_inr in H as (v & Hv & H). apply or_throw_inr in Hv.
    apply bind_inr in H as (o & Ho & H).
    injection H as <-. eexists. simpl. eauto.
  - congruence.
Qed.

(** Why the converter threw: one of its six exits, each with the test
    that leads to it. *)
Lemma convert_inl_inv (cfg : Cfg) (e : Error) :
  convert cfg = inl e ->
  e = NoConfiguration (Config.chainId cfg)
  \/ e = VanityRejected
  \/ (Allocator.roundedAirdropTooLow (requested cfg) (verified cfg) = true
      /\ e = PrecisionTooLow (requested cfg) (verified cfg)
                             (requested cfg - verified cfg))
  \/ (Allocator.roundedAirdropTooLow (requested cfg) (verified cfg) = false
      /\ Allocator.roundedAirdropTooHigh DEFAULT_SUPPLY (requested cfg) (verified cfg) = true
      /\ e = PrecisionTooHigh (verified cfg - requested cfg))
  \/ e = DevBuyV3NotDeployed
  \/ e = RangeError.
Proof.
  unfold clankerTokenV4Converter.
  fold (requested cfg). fold (share cfg). fold (verified cfg).
  intros H.
  apply bind_inl in H as [H|(cc & Hcc & H)].
  { apply or_throw_inl in H as [_ ->]. auto. }
  apply bind_inl in H as [H|(rel & Hrel & H)].
  { apply or_throw_inl in H as [_ ->]. auto. }
  apply bind_inl in H as [H|(mined & Hmined & H)].
  { destruct (Config.vanity cfg); [|discriminate].
    apply bind_inl in H as [H|(? & _ & H)]; [|discriminate].
    apply or_throw_inl in H as [_ ->]. auto. }
  apply bind_inl in H as [H|([] & Hlow & H)].
  { apply guard_inl in H as [Hlow ->]. auto. }
  apply guard_inr in Hlow.
  apply bind_inl in H as [H|([] & Hhigh & H)].
  { apply guard_inl in H as [Hhigh ->]. auto 10. }
  apply bind_inl in H as [H|(dev & Hdev & H)].
  { apply encodeDevBuyExtension_inl in H as [->| ->]; auto 10. }
  apply bind_inl in H as [H|(value & Hvalue & H)]; [|discriminate].
  destruct (Config.devBuy cfg); [|discriminate].
  apply or_throw_inl in H as [_ ->]. auto 10.
Qed.

(** What a returned transaction tells about the run that built it. *)
Lemma convert_inr_inv (cfg : Cfg) (tx : Tx.Config Payload.DeploymentConfig) :
  convert cfg = inr tx ->
  exists clankerConfig related devBuyExtension,
    clankerConfigFor (Config.chainId cfg) = Some clankerConfig
    /\ Target.related clankerConfig = Some related
    /\ Allocator.roundedAirdropTooLow (requested cfg) (verified cfg) = false
    /\ Allocator.roundedAirdropTooHigh DEFAULT_SUPPLY (requested cfg) (verified cfg) = false
    /\ encodeDevBuyExtension to_wei cfg related = inr devBuyExtension
    /\ Payload.extensionConfigs (Tx.args tx)
       = spread_if (Config.vault cfg) (vault_extension cfg related)
         ++ spread_if (Config.airdrop cfg) (airdrop_extension cfg related (share cfg))
         ++ devBuyExtension
    /\ Payload.poolData (Payload.poolConfig (Tx.args tx))
       = poolData (encodeFeeConfig cfg related).
Proof.
  unfold clankerTokenV4Converter.
  fold (requested cfg). fold (share cfg). fold (verified cfg).
  intros H.
  apply bind_inr in H as (cc & Hcc & H). apply or_throw_inr in Hcc.
  apply bind_inr in H as (rel & Hrel & H). apply or_throw_inr in Hrel.
  apply bind_inr in H as (mined & _ & H).
  apply bind_inr in H as ([] & Hlow & H). apply guard_inr in Hlow.
  apply bind_inr in H as ([] & Hhigh & H). apply guard_inr in Hhigh.
  apply bind_inr in H as (dev & Hdev & H).
  apply bind_inr in H as (value & _ & H).
  injection H as <-. simpl.
  exists cc, rel, dev. auto 10.
Qed.

(** Past the earlier steps, a tripped over-allocation test is what the
    converter throws. *)
Lemma convert_too_high (cfg : Cfg) :
  reaches_rounding cfg ->
  Allocator.roundedAirdropTooLow (requested cfg) (verified cfg) = false ->
  Allocator.roundedAirdropTooHigh DEFAULT_SUPPLY (requested cfg) (verified cfg) = true ->
  convert cfg = inl (PrecisionTooHigh (verified cfg - requested cfg)).
Proof.
  intros (cc & rel & Hcc & Hrel & Hvanity) Hlow Hhigh.
  unfold clankerTokenV4Converter.
  fold (requested cfg). fold (share cfg). fold (verified cfg).
  rewrite Hcc. simpl. rewrite Hrel. simpl.
  rewrite Hlow, Hhigh.
  destruct (Config.vanity cfg).
  - destruct (Hvanity eq_refl) as [found ->]. reflexivity.
  - reflexivity.
Qed.

(** Whatever the configuration, the under-allocation error is never what
    the converter throws. *)
Lemma convert_never_too_low (cfg : Cfg) (expected allocated difference : Z) :
  0 < DEFAULT_SUPPLY ->
  convert cfg <> inl (PrecisionTooLow expected allocated difference).
Proof.
  intros Hs H.
  apply convert_inl_inv in H
    as [H|[H|[[H _]|[(_ & _ & H)|[H|H]]]]]; try discriminate.
  unfold Converter.verified, Converter.share in H.
  rewrite (AllocatorFacts.too_low_never DEFAULT_SUPPLY Hs) in H. discriminate.
Qed.

(** C2.  For an airdrop request of [A] whole tokens, scaled to
    [a = A * 10^18] wei, and a positive total supply [S]: the share [b]
    is the ceiling of [a * 10000 / S], that is the integer quotient plus
    one basis point when the remainder is not zero; the verified
    quantity [v = b * S / 10000] is at least [a]; and so the converter
    never throws the under-allocation precision error, on any input. *)
Theorem airdrop_share_is_ceiling_and_covers_request
    (cfg : Cfg) (request : Config.Airdrop) :
  0 < DEFAULT_SUPPLY ->
  Config.airdrop cfg = Some request ->
  0 <= Config.amount request ->
  let a := requested cfg in
  let b := share cfg in
  let v := verified cfg in
  a = Config.amount request * 10 ^ 18
  /\ b = Allocator.ceil_div (a * 10000) DEFAULT_SUPPLY
  /\ b = (a * 10000) / DEFAULT_SUPPLY
         + (if (a * 10000) mod DEFAULT_SUPPLY =? 0 then 0 else 1)
  /\ v = (b * DEFAULT_SUPPLY) / 10000
  /\ a <= v
  /\ Allocator.roundedAirdropTooLow a v = false
  /\ forall (any : Cfg) expected allocated difference,
       convert any <> inl (PrecisionTooLow expected allocated difference).
Proof.
  intros Hs Hreq Hamount a b v.
  assert (Ea : a = Config.amount request * 10 ^ 18).
  { subst a. unfold requested, Allocator.airdropAmount. rewrite Hreq. reflexivity. }
  assert (Ha : 0 <= a) by (rewrite Ea; lia).
  assert (Hcover : a * 10000 <= b * DEFAULT_SUPPLY)
    by apply (AllocatorFacts.bps_covers DEFAULT_SUPPLY Hs).
  assert (Hlow : Allocator.roundedAirdropTooLow a v = false)
    by apply (AllocatorFacts.too_low_never DEFAULT_SUPPLY Hs).
  repeat split.
  - exact Ea.
  - apply (AllocatorFacts.bps_is_ceiling DEFAULT_SUPPLY Hs a Ha).
  - apply (AllocatorFacts.bps_floor_form DEFAULT_SUPPLY Hs a Ha).
  - subst v. unfold verified, Allocator.roundingVerificationAirdrop.
    fold b. apply Z.quot_div_nonneg; [|lia].
    clearbody a b. lia.
  - apply (AllocatorFacts.verification_covers DEFAULT_SUPPLY Hs).
  - exact Hlow.
  - intros any x y z. apply convert_never_too_low, Hs.
Qed.

(** C3.  Past the steps that precede the rounding checks, the converter
    throws the over-allocation precision error exactly when
    [((v - a) * 10000) / S > 1] under truncating division.  Because the
    quotient is truncated, an excess strictly between one and two basis
    points of the supply does not trip the test. *)
Theorem over_allocation_test_truncates (cfg : Cfg) :
  0 < DEFAULT_SUPPLY ->
  reaches_rounding cfg ->
  let a := requested cfg in
  let v := verified cfg in
  ((exists difference, convert cfg = inl (PrecisionTooHigh difference))
   <-> Z.quot ((v - a) * 10000) DEFAULT_SUPPLY > 1)
  /\ (Z.quot ((v - a) * 10000) DEFAULT_SUPPLY > 1 ->
      convert cfg = inl (PrecisionTooHigh (v - a)))
  /\ (forall a' v' : Z,
        DEFAULT_SUPPLY < (v' - a') * 10000 < 2 * DEFAULT_SUPPLY ->
        Allocator.roundedAirdropTooHigh DEFAULT_SUPPLY a' v' = false).
Proof.
  intros Hs Hreach a v.
  assert (Hlow : Allocator.roundedAirdropTooLow a v = false)
    by apply (AllocatorFacts.too_low_never DEFAULT_SUPPLY Hs).
  assert (Hthrow : Z.quot ((v - a) * 10000) DEFAULT_SUPPLY > 1 ->
                   convert cfg = inl (PrecisionTooHigh (v - a))).
  { intros H. apply convert_too_high; [exact Hreach | exact Hlow |].
    unfold Allocator.roundedAirdropTooHigh. fold a v.
    apply Z.gtb_gt. lia. }
  split; [split|split].
  - intros [d H].
    apply convert_inl_inv in H
      as [H|[H|[[_ H]|[(_ & H & _)|[H|H]]]]]; try discriminate.
    unfold Allocator.roundedAirdropTooHigh in H. fold a v in H.
    apply Z.gtb_gt in H. lia.
  - intros H. eexists. apply Hthrow, H.
  - exact Hthrow.
  - intros a' v' Hbetween.
    destruct (Allocator.roundedAirdropTooHigh DEFAULT_SUPPLY a' v') eqn:E;
      [|reflexivity].
    apply (AllocatorFacts.too_high_threshold DEFAULT_SUPPLY Hs) in E. lia.
Qed.

(** C4.  Whenever the converter returns a transaction, its
    [extensionConfigs] is the list [vault entry; airdrop entry; devBuy
    entry] with the entries of the settings that are not set left out:
    nothing stands in for an absent one and the order never changes. *)
Theorem extension_configs_in_fixed_order
    (cfg : Cfg) (tx : Tx.Config Payload.DeploymentConfig) :
  convert cfg = inr tx ->
  exists related devBuyEntry,
    (exists clankerConfig,
        clankerConfigFor (Config.chainId cfg) = Some clankerConfig
        /\ Target.related clankerConfig = Some related)
    /\ Payload.extensionConfigs (Tx.args tx)
       = present [vault_extension cfg related <$> Config.vault cfg;
                  airdrop_extension cfg related (share cfg) <$> Config.airdrop cfg;
                  devBuyEntry]
    /\ (devBuyEntry = None <-> Config.devBuy cfg = None)
    /\ (forall entry, devBuyEntry = Some entry ->
          Payload.extensionBps entry = 0
          /\ (Payload.extension entry = Target.devbuy related
              \/ Target.devbuyV3 related = Some (Payload.extension entry)))
    /\ length (Payload.extensionConfigs (Tx.args tx))
       = (count (Config.vault cfg) + count (Config.airdrop cfg)
          + count (Config.devBuy cfg))%nat.
Proof.
  intros H.
  apply convert_inr_inv in H
    as (cc & rel & dev & Hcc & Hrel & _ & _ & Hdev & Hext & _).
  apply encodeDevBuyExtension_inr in Hdev.
  exists rel.
  destruct (Config.devBuy cfg) as [d|].
  - destruct Hdev as (entry & -> & Hbps & _ & Haddr).
    exists (Some entry). rewrite Hext.
    split; [eauto|]. split; [|split; [|split]].
    + destruct (Config.vault cfg), (Config.airdrop cfg); reflexivity.
    + split; discriminate.
    + intros ? [= <-]. split; [exact Hbps|]. destruct d; auto.
    + destruct (Config.vault cfg), (Config.airdrop cfg); reflexivity.
  - subst dev. exists None. rewrite Hext.
    split; [eauto|]. split; [|split; [|split]].
    + destruct (Config.vault cfg), (Config.airdrop cfg); reflexivity.
    + split; reflexivity.
    + discriminate.
    + destruct (Config.vault cfg), (Config.airdrop cfg); reflexivity.
Qed.

(** C5.  The fee encoder multiplies every fee given in basis points by
    100 before it ABI-encodes it into the fee-parameter block, which is
    the pool data itself or, on a target with a second-generation hook,
    the [feeData] field of the pool-initialization block.  A static
    variant with [clankerFee = 100] and [pairedFee = 200] encodes 10,000
    and 20,000. *)
Theorem fee_encoder_rescales_by_100 (cfg : Cfg) (related : Target.RelatedV4) :
  exists scaled feeData,
    match Config.fees cfg with
    | Config.static f =>
        scaled = [Config.clankerFee f * 100; Config.pairedFee f * 100]
        /\ feeData = encodeAbiParameters ClankerHook_StaticFee_Instantiation_v4_abi
                       (map Num scaled)
        /\ poolData (encodeFeeConfig cfg related)
           = match Target.feeStaticHookV2 related with
             | Some _ => pool_initialization_data cfg feeData
             | None => feeData
             end
        /\ (Config.clankerFee f = 100 -> Config.pairedFee f = 200 ->
            scaled = [10000; 20000])
    | Config.dynamic f =>
        scaled = [Config.baseFee f * 100; Config.maxFee f * 100]
        /\ feeData = encodeAbiParameters ClankerHook_DynamicFee_Instantiation_v4_abi
                       (map Num scaled
                        ++ [Big (Config.referenceTickFilterPeriod f);
                            Big (Config.resetPeriod f);
                            Num (Config.resetTickFilter f);
                            Big (Config.feeControlNumerator f);
                            Num (Config.decayFilterBps f)])
        /\ poolData (encodeFeeConfig cfg related)
           = match Target.feeDynamicHookV2 related with
             | Some _ => pool_initialization_data cfg feeData
             | None => feeData
             end
    end.
Proof.
  unfold encodeFeeConfig.
  destruct (Config.fees cfg) as [f|f].
  - do 2 eexists. split; [reflexivity|]. split; [reflexivity|]. split.
    + destruct (Target.feeStaticHookV2 related); reflexivity.
    + intros -> ->. reflexivity.
  - do 2 eexists. split; [reflexivity|]. split; [reflexivity|].
    destruct (Target.feeDynamicHookV2 related); reflexivity.
Qed.

End Facts.

(** The static variant of the design notes, on a target without the
    second-generation hook: 100 and 200 bps are encoded as 10,000 and
    20,000. *)
Example static_fee_100_200 :
  encodeFeeConfig Demo.cfg Demo.related
  = {| hook := Target.feeStaticHook Demo.related;
       poolData := encodeAbiParameters ClankerHook_StaticFee_Instantiation_v4_abi
                     [Num 10000; Num 20000] |}.
Proof. reflexivity. Qed.

End ConverterFacts.

(** ** The error classifier *)

Module ErrorsFacts.
Import Errors.

(** What [walk] returns is accepted by the test it was given. *)
Lemma walk_accepts (fn : Thrown -> bool) (e found : Thrown) :
  walk fn e = Some found -> fn found = true.
Proof.
  induction e as [p|props|cls n m|cls n m cause IH] using Thrown_cause_ind; simpl.
  - destruct (fn (Prim p)) eqn:F; [intros [= <-]; exact F | discriminate].
  - destruct (fn (Obj props)) eqn:F; [intros [= <-]; exact F | discriminate].
  - destruct (fn (Err cls n m None)) eqn:F; [intros [= <-]; exact F | discriminate].
  - destruct (fn (Err cls n m (Some cause))) eqn:F; [intros [= <-]; exact F | exact IH].
Qed.

Lemma BaseError_is_Error (e : Thrown) :
  instanceof_BaseError e = true -> instanceof_Error e = true.
Proof. destruct e as [| |[] ? ? ?]; simpl; congruence. Qed.

(** The three tiers, as one equation. *)
Lemma understandError_revert (e : Thrown) (errorName signature : option string) :
  revert_of e = Some (errorName, signature) ->
  understandError e
  = match ErrorMapping !! default "" errorName with
    | Some mapping => {| error := e; data := mapping |}
    | None =>
        match SignatureToError !! or_string signature "0x" with
        | Some signatureToError => {| error := e; data := signatureToError |}
        | None => ClankerError_unknown e (Some (default "" errorName))
        end
    end.
Proof.
  unfold revert_of, understandError.
  destruct (instanceof_BaseError e) eqn:B; [|discriminate].
  rewrite (BaseError_is_Error e B). simpl.
  destruct (walk instanceof_ContractFunctionRevertedError e)
    as [[| |[| |d s|] n m c]|]; try discriminate.
  intros [= -> ->]. reflexivity.
Qed.

Lemma ErrorMapping_NoFeesToClaim :
  ErrorMapping !! "NoFeesToClaim"
  = Some {| type := state; label := "No fees to claim"; rawName := "NoFeesToClaim" |}.
Proof. reflexivity. Qed.

Lemma SignatureToError_HookNotEnabled :
  SignatureToError !! "0x7e5ba1ad"
  = Some {| type := state; label := "Hook not enabled."; rawName := "HookNotEnabled" |}.
Proof. reflexivity. Qed.


(** Without a decoded name there is no name to keep: the raw name of an
    unrecognized revert is then "unknown". *)
Lemma unnamed_revert_raw_name (e : Thrown) (signature : option string) :
  revert_of e = Some (None, signature) ->
  SignatureToError !! or_string signature "0x" = None ->
  data (understandError e)
  = {| type := unknown; label := "Something went wrong"; rawName := "unknown" |}.
Proof.
  intros H S. rewrite (understandError_revert e None signature H).
  simpl. rewrite S. reflexivity.
Qed.

(** The other exits of the classifier, on concrete failures. *)
Example undecoded_revert_by_selector :
  data (understandError
          (Err BaseError "ContractFunctionExecutionError" "execution reverted"
               (Some (Err (ContractFunctionRevertedError None (Some "0x7e5ba1ad"))
                          "ContractFunctionRevertedError" "execution reverted" None))))
  = {| type := state; label := "Hook not enabled."; rawName := "HookNotEnabled" |}.
Proof. reflexivity. Qed.

Example unrecognized_revert_keeps_name :
  data (understandError
          (Err BaseError "ContractFunctionExecutionError" "execution reverted"
               (Some (Err (ContractFunctionRevertedError (Some "Unauthorized") None)
                          "ContractFunctionRevertedError" "Unauthorized()" None))))
  = {| type := unknown; label := "Something went wrong"; rawName := "Unauthorized" |}.
Proof. reflexivity. Qed.

Example insufficient_funds_is_callers :
  data (understandError
          (Err BaseError "TransactionExecutionError" "insufficient funds"
               (Some (Err InsufficientFundsError "InsufficientFundsError"
                          "insufficient funds for gas * price + value" None))))
  = {| type := caller; label := "Insufficient funds."; rawName := "InsufficientFundsError" |}.
Proof. reflexivity. Qed.

Example not_an_error_is_unknown :
  understandError (Prim (StringV "boom"))
  = {| error := new_Error "boom";
       data := {| type := unknown; label := "Something went wrong";
                  rawName := "unknown" |} |}.
Proof. reflexivity. Qed.

End ErrorsFacts.

(** ** The execution pipeline *)

Module PipelineFacts.
Import Errors Pipeline.

Section Facts.

Variables Args SimulateResult SimulateRequest Log : Type.
Variable estimateContractGas :
  list (Call Args) -> PublicClient -> Tx.Config Args -> Account -> Outcome Z.
Variable simulateContract :
  list (Call Args) -> PublicClient -> Tx.Config Args -> option Account ->
  Outcome (SimulateContractReturn SimulateResult SimulateRequest).
Variable writeContract :
  list (Call Args) -> WalletClient -> Tx.Config Args -> Outcome string.
Variable waitForTransactionReceipt :
  list (Call Args) -> PublicClient -> option string -> Outcome (Receipt Log).
Variable decodeEventLog : Log -> option Event.
Variable clankerConfigFor : Z -> option Target.ClankerDeployment.
Variable readContract :
  list (Call Args) -> PublicClient -> Address -> string -> Address -> Outcome Z.

Abbreviation Tx := (Tx.Config Args).
Abbreviation estimate := (estimateGasClankerContract estimateContractGas).
Abbreviation simulate := (simulateClankerContract simulateContract).
Abbreviation write := (writeClankerContract simulateContract writeContract).
Abbreviation deploy :=
  (deployToken estimateContractGas simulateContract writeContract
               waitForTransactionReceipt decodeEventLog).
Abbreviation wait := (waitForTransaction_of waitForTransactionReceipt decodeEventLog).
Abbreviation claimable := (getVaultClaimableAmount clankerConfigFor readContract).
Abbreviation submitted := (Pipeline.submitted writeContract).

(** What each of the three operations does on a run, by the answer of
    the collaborator. *)
Lemma estimate_run (client : PublicClient) (account : Account) (tx : Tx)
    (h : list (Call Args)) :
  estimate client account tx h
  = (Returned
       match estimateContractGas h client tx account with
       | Returned g => {| gas := Some g; gas_error := None |}
       | Threw e => {| gas := None; gas_error := Some (understandError e) |}
       end,
     h ++ [EstimateContractGas client tx account]).
Proof.
  unfold estimateGasClankerContract, try_catch, bind, request, ret.
  destruct (estimateContractGas h client tx account); reflexivity.
Qed.

Lemma simulate_run (client : PublicClient) (account : option Account) (tx : Tx)
    (h : list (Call Args)) :
  simulate client account tx h
  = (Returned
       match simulateContract h client tx account with
       | Returned r =>
           {| result := Some (sim_result r); request_ := Some (sim_request r);
              simulate_error := None |}
       | Threw e =>
           {| result := None; request_ := None;
              simulate_error := Some (understandError e) |}
       end,
     h ++ [SimulateContract client tx account]).
Proof.
  unfold simulateClankerContract, try_catch, bind, request, ret.
  destruct (simulateContract h client tx account); reflexivity.
Qed.

Lemma write_run (client : PublicClient) (wallet : WalletClient) (tx : Tx)
    (flag : option bool) (h : list (Call Args)) :
  write client wallet tx flag h
  = if default false flag
    then match simulateContract h client tx (account wallet) with
         | Returned _ =>
             submitted wallet tx (h ++ [SimulateContract client tx (account wallet)])
         | Threw e =>
             (Returned {| txHash := None; write_error := Some (understandError e) |},
              h ++ [SimulateContract client tx (account wallet)])
         end
    else submitted wallet tx h.
Proof.
  unfold writeClankerContract, submitted.
  destruct (default false flag).
  - unfold bind at 1. unfold bind at 1. rewrite simulate_run.
    destruct (simulateContract h client tx (account wallet)); simpl.
    + unfold try_catch, bind, request, ret.
      destruct (writeContract _ wallet tx); reflexivity.
    + reflexivity.
  - unfold bind at 1. simpl.
    unfold try_catch, bind, request, ret.
    destruct (writeContract h wallet tx); reflexivity.
Qed.

(** C7.  Gas estimation, simulation and submission always return: the
    result holds its success fields and no error, or no success field
    and a classified error; a failure of the chain call becomes the
    [error] field, classified by [understandError], and is not thrown. *)
Theorem operations_return_result_tuples :
  (forall client account tx h,
      exists r,
        fst (estimate client account tx h) = Returned r
        /\ exactly_one (gas r) (gas_error r)
        /\ forall e,
            estimateContractGas h client tx account = Threw e ->
            r = {| gas := None; gas_error := Some (understandError e) |})
  /\ (forall client account tx h,
      exists r,
        fst (simulate client account tx h) = Returned r
        /\ exactly_one (result r) (simulate_error r)
        /\ exactly_one (request_ r) (simulate_error r)
        /\ forall e,
            simulateContract h client tx account = Threw e ->
            r = {| result := None; request_ := None;
                   simulate_error := Some (understandError e) |})
  /\ (forall client wallet tx flag h,
      exists r,
        fst (write client wallet tx flag h) = Returned r
        /\ exactly_one (txHash r) (write_error r)
        /\ (forall e,
              default false flag = true ->
              simulateContract h client tx (account wallet) = Threw e ->
              r = {| txHash := None; write_error := Some (understandError e) |})
        /\ (forall e,
              writeContract
                (if default false flag
                 then h ++ [SimulateContract client tx (account wallet)] else h)
                wallet tx = Threw e ->
              txHash r = None /\ is_Some (write_error r))).
Proof.
  split; [|split].
  - intros client account tx h. rewrite estimate_run. simpl.
    eexists. split; [reflexivity|].
    destruct (estimateContractGas h client tx account) as [g|e]; simpl; split.
    + left. eauto.
    + discriminate.
    + right. eauto.
    + intros ? [= <-]. reflexivity.
  - intros client account tx h. rewrite simulate_run. simpl.
    eexists. split; [reflexivity|].
    destruct (simulateContract h client tx account) as [r|e]; simpl.
    + split; [left; eauto|]. split; [left; eauto|]. discriminate.
    + split; [right; eauto|]. split; [right; eauto|].
      intros ? [= <-]. reflexivity.
  - intros client wallet tx flag h. rewrite write_run. unfold submitted.
    destruct (default false flag).
    + destruct (simulateContract h client tx (account wallet)) as [r|e]; simpl.
      * eexists. split; [reflexivity|].
        destruct (writeContract _ wallet tx) as [hash|e]; simpl.
        -- split; [left; eauto|]. split; discriminate.
        -- split; [right; eauto|]. split; [discriminate|]. eauto.
      * eexists. split; [reflexivity|]. simpl.
        split; [right; eauto|]. split; [|eauto].
        intros ? _ [= <-]. reflexivity.
    + simpl. eexists. split; [reflexivity|].
      destruct (writeContract h wallet tx) as [hash|e]; simpl.
      * split; [left; eauto|]. split; discriminate.
      * split; [right; eauto|]. split; [discriminate|]. eauto.
Qed.

(** C8.  In a deployment whose simulation fails, that is, with an
    account on the wallet, matching chain ids and a gas estimate, the
    simulation request being answered by a failure [e]: [deployToken]
    returns the classification of [e] as its [error], with no
    transaction hash; the only requests made are the gas estimate and
    the simulation, so nothing is submitted.  The same holds of
    [writeClankerContract] asked to simulate first. *)
Theorem failed_simulation_stops_before_submission
    (tx : Tx) (wallet : WalletClient) (client : PublicClient)
    (h : list (Call Args)) (caller : Account) (g : Z) (e : Thrown) :
  account wallet = Some caller ->
  differs (Tx.chainId tx) (chain_id (chain client)) = false ->
  differs (Tx.chainId tx) (chain_id (wallet_chain wallet)) = false ->
  estimateContractGas h client tx caller = Returned g ->
  let buffered := Tx.with_gas tx (Z.quot (g * 12) 10) in
  let h1 := h ++ [EstimateContractGas client tx caller] in
  simulateContract h1 client buffered (Some caller) = Threw e ->
  let made := [EstimateContractGas client tx caller;
               SimulateContract client buffered (Some caller)] in
  deploy tx wallet client h
  = (Returned {| deploy_txHash := None; waitForTransaction := None;
                 deploy_error := Some (understandError e) |},
     h ++ made)
  /\ write client wallet buffered (Some true) h1
     = (Returned {| txHash := None; write_error := Some (understandError e) |},
        h1 ++ [SimulateContract client buffered (Some caller)])
  /\ Forall (fun c => is_submission c = false) made.
Proof.
  intros Hacc Hclient Hwallet Hgas buffered h1 Hsim made.
  assert (Hwrite : write client wallet buffered (Some true) h1
                   = (Returned {| txHash := None;
                                  write_error := Some (understandError e) |},
                      h1 ++ [SimulateContract client buffered (Some caller)])).
  { rewrite write_run. simpl. rewrite Hacc, Hsim. reflexivity. }
  split; [|split].
  - unfold deployToken. rewrite Hacc, Hclient, Hwallet.
    unfold bind at 1. rewrite estimate_run, Hgas. simpl.
    unfold bind at 1. fold buffered. fold h1. rewrite Hwrite. simpl.
    unfold ret, h1, made. rewrite <- app_assoc. reflexivity.
  - exact Hwrite.
  - repeat constructor.
Qed.

(** The first entry [parseEventLogs] keeps is the first entry of the
    receipt that decodes to a token-created event. *)
Lemma parseEventLogs_first (entries : list Log) (args : TokenCreatedArgs)
    (rest : list TokenCreatedArgs) :
  parseEventLogs decodeEventLog entries = args :: rest ->
  exists before entry after,
    entries = before ++ entry :: after
    /\ decodeEventLog entry = Some (TokenCreated args)
    /\ Forall (fun x => forall a, decodeEventLog x <> Some (TokenCreated a)) before.
Proof.
  unfold parseEventLogs.
  induction entries as [|x entries IH]; simpl; [discriminate|].
  destruct (decodeEventLog x) as [[a|n]|] eqn:D; simpl.
  - intros [= -> _]. exists [], x, entries. auto.
  - intros H. destruct (IH H) as (before & entry & after & -> & He & Hb).
    exists (x :: before), entry, after. repeat split; auto.
    constructor; [congruence | exact Hb].
  - intros H. destruct (IH H) as (before & entry & after & -> & He & Hb).
    exists (x :: before), entry, after. repeat split; auto.
    constructor; [congruence | exact Hb].
Qed.

Lemma parseEventLogs_none (entries : list Log) :
  parseEventLogs decodeEventLog entries = [] <->
  Forall (fun x => forall a, decodeEventLog x <> Some (TokenCreated a)) entries.
Proof.
  unfold parseEventLogs.
  induction entries as [|x entries IH]; simpl.
  - split; [constructor | reflexivity].
  - destruct (decodeEventLog x) as [[a|n]|] eqn:D; simpl.
    + split; [discriminate|]. intros H. inversion H as [|? ? Hx _]; subst.
      exfalso. exact (Hx a D).
    + rewrite IH. split; intros H.
      * constructor; [congruence | exact H].
      * inversion H; assumption.
    + rewrite IH. split; intros H.
      * constructor; [congruence | exact H].
      * inversion H; assumption.
Qed.

(** C9.  Once the receipt of a deployment is there, the confirmation
    step keeps the log entries that decode to the token-created event
    and returns the token address of the first of them; when no entry
    matches it throws an error, it does not return an undefined
    address. *)
Theorem confirmation_reads_first_token_created
    (client : PublicClient) (hash : option string) (h : list (Call Args))
    (receipt : Receipt Log) :
  waitForTransactionReceipt h client hash = Returned receipt ->
  match parseEventLogs decodeEventLog (logs receipt) with
  | args :: _ =>
      fst (wait client hash h)
      = Returned {| address := Some (tokenAddress args); address_error := None |}
      /\ exists before entry after,
          logs receipt = before ++ entry :: after
          /\ decodeEventLog entry = Some (TokenCreated args)
          /\ Forall (fun x => forall a, decodeEventLog x <> Some (TokenCreated a))
                    before
  | [] =>
      Forall (fun x => forall a, decodeEventLog x <> Some (TokenCreated a))
             (logs receipt)
      /\ (exists error, fst (wait client hash h) = Threw error)
      /\ forall r, fst (wait client hash h) <> Returned r
  end.
Proof.
  intros Hreceipt.
  unfold waitForTransaction_of, bind, request. rewrite Hreceipt.
  destruct (parseEventLogs decodeEventLog (logs receipt)) as [|args rest] eqn:P.
  - split; [apply parseEventLogs_none, P|].
    split; [eexists; reflexivity | discriminate].
  - split; [reflexivity|]. apply (parseEventLogs_first _ _ _ P).
Qed.

(** The test of the [catch] clause, spelled out. *)
Lemma returned_no_data_spec (err : Thrown) :
  returned_no_data err = true <->
  is_object err = true
  /\ (exists n, property err "name" = Some (StringV n)
                /\ (n = "ContractFunctionExecutionError"
                    \/ n = "ContractFunctionZeroDataError"))
  /\ (exists m, property err "message" = Some (StringV m)
                /\ Js.includes "returned no data" m = true).
Proof.
  unfold returned_no_data. rewrite !andb_true_iff.
  split.
  - intros [[Ho Hn] Hm]. split; [exact Ho|]. split.
    + destruct (property err "name") as [[| | | | |n]|]; try discriminate.
      exists n. split; [reflexivity|].
      apply orb_true_iff in Hn as [Hn|Hn]; apply String.eqb_eq in Hn; auto.
    + destruct (property err "message") as [[| | | | |m]|]; try discriminate.
      exists m. auto.
  - intros (Ho & (n & -> & Hn) & (m & -> & Hm)).
    repeat split; auto.
    apply orb_true_iff. destruct Hn as [-> | ->]; [left|right]; reflexivity.
Qed.

(** C10.  With a client and a configured target, a read that fails
    with [err] makes [getVaultClaimableAmount] return [0n] exactly when
    [err] is an object named [ContractFunctionExecutionError] or
    [ContractFunctionZeroDataError] whose message is a string containing
    "returned no data"; any other failure is thrown again as it came. *)
Theorem vault_read_failure_handling
    (client : PublicClient) (token : Address) (h : list (Call Args))
    (config : Target.ClankerDeployment) (related : Target.RelatedV4)
    (err : Thrown) :
  clankerConfigFor (id (default base (chain client))) = Some config ->
  Target.related config = Some related ->
  readContract h client (Target.vault related) "amountAvailableToClaim" token
  = Threw err ->
  let outcome := fst (claimable (Some client) token h) in
  (outcome = Returned 0 <->
     is_object err = true
     /\ (exists n, property err "name" = Some (StringV n)
                   /\ (n = "ContractFunctionExecutionError"
                       \/ n = "ContractFunctionZeroDataError"))
     /\ (exists m, property err "message" = Some (StringV m)
                   /\ Js.includes "returned no data" m = true))
  /\ (outcome <> Returned 0 -> outcome = Threw err)
  /\ (outcome = Returned 0 \/ outcome = Threw err).
Proof.
  intros Hconfig Hrelated Hread outcome.
  assert (E : outcome = if returned_no_data err then Returned 0 else Threw err).
  { subst outcome. unfold getVaultClaimableAmount.
    rewrite Hconfig, Hrelated.
    unfold try_catch, request. rewrite Hread.
    destruct (returned_no_data err); reflexivity. }
  rewrite E, <- returned_no_data_spec.
  destruct (returned_no_data err).
  - split; [split; reflexivity|].
    split; [intros H; contradiction H; reflexivity | left; reflexivity].
  - split; [split; discriminate|].
    split; [reflexivity | right; reflexivity].
Qed.

End Facts.

End PipelineFacts.

(** ** The statements above at concrete inputs *)

Module Witnesses.
Import Errors Pipeline.

Lemma airdrop_share_witness :
  (0 < Allocator.SPEC_DEFAULT_SUPPLY
   /\ Config.airdrop Demo.cfg = Some Demo.airdrop_setting
   /\ 0 <= Config.amount Demo.airdrop_setting)
  /\ Converter.requested Demo.cfg = 333333334 * 10 ^ 18
  /\ Converter.share Allocator.SPEC_DEFAULT_SUPPLY Demo.cfg
     = Allocator.ceil_div (Converter.requested Demo.cfg * 10000)
                          Allocator.SPEC_DEFAULT_SUPPLY
  /\ Converter.requested Demo.cfg
     <= Converter.verified Allocator.SPEC_DEFAULT_SUPPLY Demo.cfg
  /\ forall any expected allocated difference,
       Demo.convert any
       <> inl (Converter.PrecisionTooLow expected allocated difference).
Proof.
  assert (H1 : 0 < Allocator.SPEC_DEFAULT_SUPPLY) by reflexivity.
  assert (H2 : 0 <= Config.amount Demo.airdrop_setting) by (simpl; lia).
  destruct (ConverterFacts.airdrop_share_is_ceiling_and_covers_request
              Z string string Demo.to_wei (fun m => m) (fun c => c)
              Allocator.SPEC_DEFAULT_SUPPLY Demo.WETH_ADDRESSES
              Demo.clankerConfigFor Demo.findVanityAddressV4
              Demo.cfg Demo.airdrop_setting H1 eq_refl H2)
    as (Ea & Eb & _ & _ & Hv & _ & Hnever).
  split; [split; [exact H1 | split; [reflexivity | exact H2]]|].
  split; [exact Ea|]. split; [exact Eb|]. split; [exact Hv | exact Hnever].
Defined.

Lemma reaches_rounding_demo :
  Converter.reaches_rounding (fun m : string => m) (fun c : string => c)
    Allocator.SPEC_DEFAULT_SUPPLY Demo.clankerConfigFor Demo.findVanityAddressV4
    Demo.cfg.
Proof.
  exists Demo.deployment, Demo.related.
  split; [reflexivity|]. split; [reflexivity|]. discriminate.
Defined.

Lemma over_allocation_test_witness :
  (0 < Allocator.SPEC_DEFAULT_SUPPLY
   /\ Converter.reaches_rounding (fun m : string => m) (fun c : string => c)
        Allocator.SPEC_DEFAULT_SUPPLY Demo.clankerConfigFor Demo.findVanityAddressV4
        Demo.cfg)
  /\ ((exists difference,
          Demo.convert Demo.cfg = inl (Converter.PrecisionTooHigh difference))
      <-> Z.quot ((Converter.verified Allocator.SPEC_DEFAULT_SUPPLY Demo.cfg
                   - Converter.requested Demo.cfg) * 10000)
                 Allocator.SPEC_DEFAULT_SUPPLY > 1)
  /\ Allocator.roundedAirdropTooHigh Allocator.SPEC_DEFAULT_SUPPLY
       0 (15 * 10 ^ 24) = false.
Proof.
  assert (H1 : 0 < Allocator.SPEC_DEFAULT_SUPPLY) by reflexivity.
  destruct (ConverterFacts.over_allocation_test_truncates
              Z string string Demo.to_wei (fun m => m) (fun c => c)
              Allocator.SPEC_DEFAULT_SUPPLY Demo.WETH_ADDRESSES
              Demo.clankerConfigFor Demo.findVanityAddressV4
              Demo.cfg H1 reaches_rounding_demo)
    as (Hiff & _ & Hbetween).
  split; [split; [exact H1 | exact reaches_rounding_demo]|].
  split; [exact Hiff|].
  apply Hbetween. split; reflexivity.
Defined.

Lemma extension_order_witness :
  exists tx,
    Demo.convert Demo.cfg = inr tx
    /\ exists devBuyEntry,
        Payload.extensionConfigs (Tx.args tx)
        = [Converter.vault_extension Demo.cfg Demo.related Demo.vault_setting;
           Converter.airdrop_extension Demo.cfg Demo.related 34 Demo.airdrop_setting;
           devBuyEntry]
        /\ Payload.extension devBuyEntry = Target.devbuy Demo.related
        /\ Payload.extensionBps devBuyEntry = 0
        /\ length (Payload.extensionConfigs (Tx.args tx)) = 3%nat.
Proof.
  assert (E : exists tx, Demo.convert Demo.cfg = inr tx)
    by (vm_compute; eexists; reflexivity).
  destruct E as [tx E].
  exists tx. split; [exact E|].
  destruct (ConverterFacts.extension_configs_in_fixed_order
              Z string string Demo.to_wei (fun m => m) (fun c => c)
              Allocator.SPEC_DEFAULT_SUPPLY Demo.WETH_ADDRESSES
              Demo.clankerConfigFor Demo.findVanityAddressV4
              Demo.cfg tx E)
    as (rel & dev & (cc & Hcc & Hrel) & Hlist & Hnone & Hdev & Hlen).
  vm_compute in Hcc. injection Hcc as <-. injection Hrel as <-.
  destruct dev as [entry|].
  - exists entry. destruct (Hdev entry eq_refl) as [Hbps [Haddr|Haddr]].
    + split; [exact Hlist|]. split; [exact Haddr|]. split; [exact Hbps | exact Hlen].
    + discriminate Haddr.
  - destruct Hnone as [Hnone _]. discriminate (Hnone eq_refl).
Defined.


Lemma failed_simulation_witness :
  let buffered := Tx.with_gas Demo.tx 120000 in
  (account Demo.wallet = Some Demo.caller
   /\ differs (Tx.chainId Demo.tx) (chain_id (chain Demo.client)) = false
   /\ differs (Tx.chainId Demo.tx) (chain_id (wallet_chain Demo.wallet)) = false
   /\ Demo.estimateContractGas [] Demo.client Demo.tx Demo.caller = Returned 100000
   /\ Demo.simulateContract [EstimateContractGas Demo.client Demo.tx Demo.caller]
        Demo.client buffered (Some Demo.caller) = Threw Demo.no_fees_failure)
  /\ deployToken Demo.estimateContractGas Demo.simulateContract Demo.writeContract
       Demo.waitForTransactionReceipt Demo.decodeEventLog
       Demo.tx Demo.wallet Demo.client []
     = (Returned {| deploy_txHash := None; waitForTransaction := None;
                    deploy_error := Some (understandError Demo.no_fees_failure) |},
        [EstimateContractGas Demo.client Demo.tx Demo.caller;
         SimulateContract Demo.client buffered (Some Demo.caller)]).
Proof.
  intros buffered.
  destruct (PipelineFacts.failed_simulation_stops_before_submission
              unit unit unit nat
              Demo.estimateContractGas Demo.simulateContract Demo.writeContract
              Demo.waitForTransactionReceipt Demo.decodeEventLog
              Demo.tx Demo.wallet Demo.client [] Demo.caller 100000
              Demo.no_fees_failure eq_refl eq_refl eq_refl eq_refl eq_refl)
    as (Hdeploy & _ & _).
  split; [repeat split|]. exact Hdeploy.
Defined.

Lemma confirmation_witness :
  Demo.waitForTransactionReceipt [] Demo.client (Some "0xabc") = Returned Demo.receipt
  /\ fst (waitForTransaction_of Demo.waitForTransactionReceipt Demo.decodeEventLog
            Demo.client (Some "0xabc") ([] : list (Call unit)))
     = Returned {| address := Some Demo.first_token; address_error := None |}.
Proof.
  split; [reflexivity|].
  exact (proj1 (PipelineFacts.confirmation_reads_first_token_created
                  unit nat Demo.waitForTransactionReceipt Demo.decodeEventLog
                  Demo.client (Some "0xabc") [] Demo.receipt eq_refl)).
Defined.

Lemma vault_read_witness :
  (Demo.clankerConfigFor (id (default base (chain Demo.client))) = Some Demo.deployment
   /\ Target.related Demo.deployment = Some Demo.related
   /\ Demo.readContract [] Demo.client (Target.vault Demo.related)
        "amountAvailableToClaim" Demo.first_token = Threw Demo.no_data_failure)
  /\ fst (getVaultClaimableAmount Demo.clankerConfigFor Demo.readContract
            (Some Demo.client) Demo.first_token ([] : list (Call unit)))
     = Returned 0.
Proof.
  destruct (PipelineFacts.vault_read_failure_handling
              unit Demo.clankerConfigFor Demo.readContract
              Demo.client Demo.first_token [] Demo.deployment Demo.related
              Demo.no_data_failure eq_refl eq_refl eq_refl)
    as ((_ & Hzero) & _ & _).
  split; [repeat split|].
  apply Hzero.
  split; [reflexivity|]. split.
  - exists "ContractFunctionExecutionError". split; [reflexivity | left; reflexivity].
  - eexists. split; [reflexivity | reflexivity].
Defined.

End Witnesses.

(** * Further properties *)

(** ** The remaining schema refinements *)

Module SchemaRestFacts.
Import Schema SchemaRest.



Example sniperFees_left_out : sniperFees_schema None = Some sniperFees_prefault.
Proof. reflexivity. Qed.

Example sniperFees_equal_rejected :
  sniperFees_schema
    (Some {| Config.startingFee := 50000; Config.endingFee := 50000;
             Config.secondsToDecay := 15 |}) = None.
Proof. reflexivity. Qed.

End SchemaRestFacts.

(** ** The converter, continued *)

Module ConverterRestFacts.
Import Abi Converter ConverterRest.

Lemma total_msgValue_app (l1 l2 : list Payload.ExtensionConfig) :
  total_msgValue (l1 ++ l2) = total_msgValue l1 + total_msgValue l2.
Proof. induction l1 as [|e l1 IH]; simpl; [reflexivity|]. rewrite IH. lia. Qed.

Lemma total_extensionBps_app (l1 l2 : list Payload.ExtensionConfig) :
  total_extensionBps (l1 ++ l2) = total_extensionBps l1 + total_extensionBps l2.
Proof. induction l1 as [|e l1 IH]; simpl; [reflexivity|]. rewrite IH. lia. Qed.

Section Facts.

Variables Number Metadata Context : Type.
Variable to_wei : Number -> option Z.
Variable stringify_metadata : Metadata -> string.
Variable stringify_context : Context -> string.
Variable DEFAULT_SUPPLY : Z.
Variable WETH_ADDRESSES : Z -> option Address.
Variable clankerConfigFor : Z -> option Target.ClankerDeployment.
Variable findVanityAddressV4 :
  string * string * Z * Address * string * string * string * Z ->
  Address -> string -> Target.ClankerDeployment -> option (Hex * Address).

Abbreviation Cfg := (Config.Cfg Number Metadata Context).
Abbreviation convert :=
  (clankerTokenV4Converter to_wei stringify_metadata stringify_context
     DEFAULT_SUPPLY WETH_ADDRESSES clankerConfigFor findVanityAddressV4).
Abbreviation share := (Converter.share DEFAULT_SUPPLY).
Abbreviation verified := (Converter.verified DEFAULT_SUPPLY).
Abbreviation reaches_rounding :=
  (Converter.reaches_rounding stringify_metadata stringify_context
     DEFAULT_SUPPLY clankerConfigFor findVanityAddressV4).

Abbreviation mining_request :=
  (ConverterRest.mining_request stringify_metadata stringify_context
     DEFAULT_SUPPLY findVanityAddressV4).

(** The fields of a returned transaction, by the steps that built it. *)
Lemma convert_inr_fields (cfg : Cfg) (tx : Tx.Config Payload.DeploymentConfig) :
  convert cfg = inr tx ->
  exists clankerConfig related mined devBuyExtension value,
    clankerConfigFor (Config.chainId cfg) = Some clankerConfig
    /\ Target.related clankerConfig = Some related
    /\ (if Config.vanity cfg
        then exists found, mining_request cfg clankerConfig = Some found
                           /\ mined = (fst found, Some (snd found))
        else mined = (zeroHash, None))
    /\ encodeDevBuyExtension to_wei cfg related = inr devBuyExtension
    /\ match Config.devBuy cfg with
       | Some d => to_wei (Config.ethAmount d) = Some value
       | None => value = 0
       end
    /\ Tx.value tx = Some value
    /\ Tx.expectedAddress tx = snd mined
    /\ Payload.salt (Payload.tokenConfig (Tx.args tx)) = fst mined
    /\ Tx.address tx = Target.address clankerConfig
    /\ Payload.extensionConfigs (Tx.args tx)
       = spread_if (Config.vault cfg) (vault_extension cfg related)
         ++ spread_if (Config.airdrop cfg) (airdrop_extension cfg related (share cfg))
         ++ devBuyExtension
    /\ Payload.lockerConfig (Tx.args tx)
       = let rewards := default (default_rewards Number Metadata Context cfg)
                                (Config.rewards cfg) in
         {| Payload.locker :=
              match Config.locker (Config.locker_cfg cfg) with
              | Config.Locker => Target.locker related
              | Config.LockerAddress a => a
              end;
            Payload.lockerData :=
              encodeAbiParameters ClankerLpLocker_Instantiation_v4_abi
                [Struct
                   [("feePreference",
                     Arr (map (fun r => Num (Schema.FeeInToInt (Schema.token r)))
                              (Config.recipients rewards)))]];
            Payload.rewardAdmins := map Schema.admin (Config.recipients rewards);
            Payload.rewardRecipients := map Schema.recipient (Config.recipients rewards);
            Payload.rewardBps := map Schema.bps (Config.recipients rewards);
            Payload.tickLower := map Schema.tickLower (Schema.positions (Config.pool cfg));
            Payload.tickUpper := map Schema.tickUpper (Schema.positions (Config.pool cfg));
            Payload.positionBps :=
              map Schema.positionBps (Schema.positions (Config.pool cfg)) |}.
Proof.
  unfold clankerTokenV4Converter, ConverterRest.mining_request.
  fold (requested cfg). fold (share cfg). fold (verified cfg).
  intros H.
  apply ConverterFacts.bind_inr in H as (cc & Hcc & H).
  apply ConverterFacts.or_throw_inr in Hcc.
  apply ConverterFacts.bind_inr in H as (rel & Hrel & H).
  apply ConverterFacts.or_throw_inr in Hrel.
  apply ConverterFacts.bind_inr in H as (mined & Hmined & H).
  apply ConverterFacts.bind_inr in H as ([] & _ & H).
  apply ConverterFacts.bind_inr in H as ([] & _ & H).
  apply ConverterFacts.bind_inr in H as (dev & Hdev & H).
  apply ConverterFacts.bind_inr in H as (value & Hvalue & H).
  injection H as <-. simpl.
  exists cc, rel, mined, dev, value.
  split; [exact Hcc|]. split; [exact Hrel|]. split.
  { destruct (Config.vanity cfg).
    - apply ConverterFacts.bind_inr in Hmined as (found & Hfound & Hmined).
      apply ConverterFacts.or_throw_inr in Hfound.
      exists found. split; [exact Hfound | congruence].
    - congruence. }
  split; [exact Hdev|]. split.
  { destruct (Config.devBuy cfg);
      [exact (ConverterFacts.or_throw_inr _ _ _ Hvalue) | congruence]. }
  repeat split.
Qed.

(** On an amount within the bounds of the schema the share is between 0
    and 9,000 bps. *)
Lemma airdrop_share_within_cap (amount : Z) :
  0 < DEFAULT_SUPPLY ->
  SchemaRest.airdrop_amount_min DEFAULT_SUPPLY <= amount
                                <= SchemaRest.airdrop_amount_max DEFAULT_SUPPLY ->
  0 <= amount
  /\ 0 <= Allocator.bpsAirdropped DEFAULT_SUPPLY (Allocator.airdropAmount amount) <= 9000.
Proof.
  intros Hs [Hmin Hmax].
  unfold SchemaRest.airdrop_amount_min, SchemaRest.airdrop_amount_max in *.
  assert (Hpow : 0 < 10 ^ 18) by reflexivity.
  set (p := 10 ^ 18) in *.
  assert (H0 : 0 <= amount).
  { etransitivity; [|exact Hmin].
    apply Z.quot_pos; [apply Z.quot_pos|]; lia. }
  split; [exact H0|].
  set (m := Z.quot (DEFAULT_SUPPLY * 9000) 10000) in *.
  assert (Hm0 : 0 <= m) by (apply Z.quot_pos; lia).
  pose proof (Z.quot_rem' (DEFAULT_SUPPLY * 9000) 10000) as E1.
  pose proof (Z.rem_bound_pos (DEFAULT_SUPPLY * 9000) 10000 ltac:(lia) ltac:(lia)) as B1.
  fold m in E1.
  pose proof (Z.quot_rem' m p) as E2.
  pose proof (Z.rem_bound_pos m p Hm0 Hpow) as B2.
  unfold Allocator.airdropAmount. fold p.
  set (a := amount * p).
  assert (Ha : 0 <= a) by (subst a; lia).
  assert (Hx : a * 10000 <= 9000 * DEFAULT_SUPPLY) by (subst a; nia).
  pose proof (AllocatorFacts.bps_covers DEFAULT_SUPPLY Hs a) as C.
  pose proof (AllocatorFacts.bps_tight DEFAULT_SUPPLY Hs a Ha) as T.
  split; nia.
Qed.

(** X3.  When the vault and airdrop settings of a configuration are what
    the schema returned, every entry of a returned [extensionConfigs]
    holds between 0 and 9,000 bps; and when 25 bps of the supply are a
    whole number of tokens, the airdrop entry holds at least 25 bps. *)
Theorem extension_shares_capped
    (addressSchema : Address -> bool) (hexSchema : Hex -> bool)
    (vault_input : option SchemaRest.VaultInput)
    (airdrop_input : option SchemaRest.AirdropInput)
    (cfg : Cfg) (tx : Tx.Config Payload.DeploymentConfig) :
  0 < DEFAULT_SUPPLY ->
  SchemaRest.vault_schema addressSchema vault_input = Some (Config.vault cfg) ->
  SchemaRest.airdrop_schema addressSchema hexSchema DEFAULT_SUPPLY airdrop_input
  = Some (Config.airdrop cfg) ->
  convert cfg = inr tx ->
  Forall (fun e => 0 <= Payload.extensionBps e <= 9000)
         (Payload.extensionConfigs (Tx.args tx))
  /\ (Z.rem (DEFAULT_SUPPLY * 25) (10000 * 10 ^ 18) = 0 ->
      is_Some (Config.airdrop cfg) -> 25 <= share cfg).
Proof.
  intros Hs Hvault Hairdrop H.
  apply ConverterFacts.convert_inr_inv in H
    as (cc & rel & dev & _ & _ & _ & _ & Hdev & Hext & _).
  apply ConverterFacts.encodeDevBuyExtension_inr in Hdev.
  assert (Hshare : forall a, Config.airdrop cfg = Some a ->
            SchemaRest.airdrop_amount_min DEFAULT_SUPPLY <= Config.amount a
                                          <= SchemaRest.airdrop_amount_max DEFAULT_SUPPLY).
  { intros a Ha. rewrite Ha in Hairdrop. unfold SchemaRest.airdrop_schema in Hairdrop.
    destruct airdrop_input as [i|]; [|discriminate].
    destruct (_ && _ && _ && _ && _) eqn:E; [|discriminate].
    injection Hairdrop as <-. simpl.
    rewrite !andb_true_iff, !Z.leb_le in E. lia. }
  split.
  - rewrite Hext. rewrite !Forall_app. split; [|split].
    + destruct (Config.vault cfg) as [v|] eqn:Ev; simpl; [|constructor].
      unfold SchemaRest.vault_schema in Hvault.
      destruct vault_input as [i|]; [|discriminate].
      destruct (_ && _ && _ && _) eqn:E; [|discriminate].
      injection Hvault as <-.
      rewrite !andb_true_iff, !Z.leb_le in E.
      repeat constructor; simpl; lia.
    + destruct (Config.airdrop cfg) as [a|] eqn:Ea; simpl; [|constructor].
      constructor; [|constructor]. simpl.
      unfold Converter.share, Converter.requested. rewrite Ea.
      apply (airdrop_share_within_cap (Config.amount a) Hs (Hshare a eq_refl)).
    + destruct (Config.devBuy cfg).
      * destruct Hdev as (entry & -> & Hbps & _). repeat constructor; lia.
      * subst dev. constructor.
  - intros Hdiv [a Ha]. specialize (Hshare a Ha) as [Hmin _].
    unfold Converter.share, Converter.requested. rewrite Ha.
    unfold SchemaRest.airdrop_amount_min in Hmin.
    assert (Hpow : 0 < 10 ^ 18) by reflexivity.
    unfold Allocator.airdropAmount.
    set (p := 10 ^ 18) in *.
    assert (E : DEFAULT_SUPPLY * 25
                = 10000 * p * Z.quot (Z.quot (DEFAULT_SUPPLY * 25) 10000) p).
    { pose proof (Z.quot_rem' (DEFAULT_SUPPLY * 25) (10000 * p)) as E.
      rewrite Hdiv, Z.add_0_r in E.
      rewrite Z.quot_quot by lia. exact E. }
    pose proof (AllocatorFacts.bps_covers DEFAULT_SUPPLY Hs (Config.amount a * p)) as C.
    nia.
Qed.

(** On a purchase that can be encoded, [encodeDevBuyExtension] and the
    conversion of the attached value both go through. *)
Lemma encodable_devbuy (cfg : Cfg) (related : Target.RelatedV4) :
  devbuy_encodable to_wei related cfg ->
  (exists entries, encodeDevBuyExtension to_wei cfg related = inr entries)
  /\ match Config.devBuy cfg with
     | Some d => is_Some (to_wei (Config.ethAmount d))
     | None => True
     end.
Proof.
  unfold devbuy_encodable, encodeDevBuyExtension.
  destruct (Config.devBuy cfg) as [[e k o|e f o]|]; simpl.
  - intros [[v Hv] [w Hw]]. rewrite Hv, Hw. simpl. eauto.
  - intros ([m Hm] & [v Hv] & [w Hw]). rewrite Hm, Hv, Hw. simpl. eauto.
  - eauto.
Qed.


(** X5.  The value attached to a returned transaction is the sum of the
    [msgValue] of its extensions, and the shares of its extensions add up
    to the vault percentage times 100 plus the airdrop share: the
    converter puts no cap on that total. *)
Theorem extension_totals (cfg : Cfg) (tx : Tx.Config Payload.DeploymentConfig) :
  convert cfg = inr tx ->
  Tx.value tx = Some (total_msgValue (Payload.extensionConfigs (Tx.args tx)))
  /\ total_extensionBps (Payload.extensionConfigs (Tx.args tx))
     = match Config.vault cfg with Some v => Config.percentage v * 100 | None => 0 end
       + match Config.airdrop cfg with Some _ => share cfg | None => 0 end.
Proof.
  intros H.
  apply convert_inr_fields in H
    as (cc & rel & mined & dev & value & _ & _ & _ & Hdev & Hvalue & Htx & _ & _ & _
        & Hext & _).
  apply ConverterFacts.encodeDevBuyExtension_inr in Hdev.
  rewrite Hext, Htx, !total_msgValue_app, !total_extensionBps_app.
  assert (Hd : total_msgValue dev = value /\ total_extensionBps dev = 0).
  { destruct (Config.devBuy cfg) as [d|].
    - destruct Hdev as (entry & -> & Hbps & Hmsg & _). simpl.
      rewrite Hbps. split; [|lia]. rewrite Hvalue in Hmsg. injection Hmsg as ->. lia.
    - subst dev value. split; reflexivity. }
  destruct Hd as [-> ->].
  destruct (Config.vault cfg), (Config.airdrop cfg); simpl; split; f_equal; lia.
Qed.


(** X7.  In a returned transaction the salt is the zero hash and no
    expected address is set when [vanity] is off; when it is on, both are
    what the address-mining service answered.  A request that is not
    answered makes the converter throw. *)
Theorem vanity_salt_and_address (cfg : Cfg) :
  (forall tx, convert cfg = inr tx ->
     if Config.vanity cfg
     then exists clankerConfig salt token,
         clankerConfigFor (Config.chainId cfg) = Some clankerConfig
         /\ mining_request cfg clankerConfig = Some (salt, token)
         /\ Payload.salt (Payload.tokenConfig (Tx.args tx)) = salt
         /\ Tx.expectedAddress tx = Some token
     else Payload.salt (Payload.tokenConfig (Tx.args tx)) = zeroHash
          /\ Tx.expectedAddress tx = None)
  /\ (forall clankerConfig related,
        clankerConfigFor (Config.chainId cfg) = Some clankerConfig ->
        Target.related clankerConfig = Some related ->
        Config.vanity cfg = true ->
        mining_request cfg clankerConfig = None ->
        convert cfg = inl VanityRejected).
Proof.
  split.
  - intros tx H.
    apply convert_inr_fields in H
      as (cc & rel & mined & dev & value & Hcc & _ & Hmined & _ & _ & _ & Hexp & Hsalt & _).
    rewrite Hexp, Hsalt.
    destruct (Config.vanity cfg).
    + destruct Hmined as ([salt token] & Hfound & ->). exists cc, salt, token. auto.
    + subst mined. auto.
  - intros cc rel Hcc Hrel Hv Hnone.
    unfold clankerTokenV4Converter.
    rewrite Hcc. cbn [bind or_throw]. rewrite Hrel. cbn [bind or_throw].
    rewrite Hv. unfold ConverterRest.mining_request in Hnone. rewrite Hnone.
    reflexivity.
Qed.

Lemma sum_list_bps (v : list Schema.Recipient) :
  sum_list (map Schema.bps v) = foldr (fun r acc => Schema.bps r + acc) 0 v.
Proof. induction v as [|r v IH]; simpl; [reflexivity|]. rewrite <- IH. reflexivity. Qed.


Lemma encodeFeeConfig_first_generation
    (cfg : Cfg) (related : Target.RelatedV4)
    (extension : Config.PoolExtension) (sniper : Config.SniperFees) :
  first_generation related ->
  encodeFeeConfig (with_v4_1_settings cfg extension sniper) related
  = encodeFeeConfig cfg related.
Proof.
  intros (_ & Hs & Hd). unfold encodeFeeConfig. cbn [with_v4_1_settings Config.fees].
  rewrite Hs, Hd. reflexivity.
Qed.

(** X9.  On a target without second-generation modules the pool extension
    and the sniper fees of a configuration change nothing in what the
    converter returns or throws. *)
Theorem v4_1_settings_unused_on_first_generation
    (cfg : Cfg) (extension : Config.PoolExtension) (sniper : Config.SniperFees) :
  (forall clankerConfig related,
      clankerConfigFor (Config.chainId cfg) = Some clankerConfig ->
      Target.related clankerConfig = Some related ->
      first_generation related) ->
  convert (with_v4_1_settings cfg extension sniper) = convert cfg.
Proof.
  intros Hfirst.
  unfold clankerTokenV4Converter.
  change (encodeDevBuyExtension to_wei (with_v4_1_settings cfg extension sniper))
    with (encodeDevBuyExtension to_wei cfg).
  cbn [with_v4_1_settings Config.name Config.symbol Config.image Config.chainId
       Config.tokenAdmin Config.metadata Config.context Config.pool
       Config.locker_cfg Config.vault Config.airdrop Config.devBuy Config.fees
       Config.rewards Config.vanity Config.sniperFees].
  destruct (clankerConfigFor (Config.chainId cfg)) as [cc|] eqn:Hcc; [|reflexivity].
  cbn [bind or_throw].
  destruct (Target.related cc) as [rel|] eqn:Hrel; [|reflexivity].
  cbn [bind or_throw].
  pose proof (Hfirst cc rel eq_refl Hrel) as Hgen.
  rewrite (encodeFeeConfig_first_generation cfg rel extension sniper Hgen).
  destruct Hgen as (Hm & _ & _). rewrite Hm.
  reflexivity.
Qed.


(** A returned transaction is for the chain of the configuration. *)
Lemma convert_inr_chainId (cfg : Cfg) (tx : Tx.Config Payload.DeploymentConfig) :
  convert cfg = inr tx -> Tx.chainId tx = Some (Config.chainId cfg).
Proof.
  unfold clankerTokenV4Converter.
  intros H.
  apply ConverterFacts.bind_inr in H as (cc & _ & H).
  apply ConverterFacts.bind_inr in H as (rel & _ & H).
  apply ConverterFacts.bind_inr in H as (mined & _ & H).
  apply ConverterFacts.bind_inr in H as ([] & _ & H).
  apply ConverterFacts.bind_inr in H as ([] & _ & H).
  apply ConverterFacts.bind_inr in H as (dev & _ & H).
  apply ConverterFacts.bind_inr in H as (value & _ & H).
  injection H as <-. reflexivity.
Qed.

End Facts.

End ConverterRestFacts.

(** ** The classifier, continued *)

Module ErrorsRestFacts.
Import Errors ErrorsRest.

(** [walk] returns the first error of the cause chain that passes the
    test. *)
Lemma walk_find (fn : Thrown -> bool) (e : Thrown) :
  walk fn e = List.find fn (causes e).
Proof.
  induction e as [p|props|cls n m|cls n m cause IH] using Thrown_cause_ind; simpl.
  - destruct (fn (Prim p)); reflexivity.
  - destruct (fn (Obj props)); reflexivity.
  - destruct (fn (Err cls n m None)); reflexivity.
  - destruct (fn (Err cls n m (Some cause))); [reflexivity | exact IH].
Qed.

Lemma find_none_existsb {A} (p : A -> bool) (l : list A) :
  List.find p l = None <-> existsb p l = false.
Proof.
  induction l as [|x l IH]; simpl; [tauto|].
  destruct (p x); simpl; [split; discriminate | exact IH].
Qed.

(** The entries of the two tables. *)
Lemma ErrorMapping_entries (k : string) (d : ClankerErrorData) :
  ErrorMapping !! k = Some d ->
  d = {| type := state; label := "No fees to claim"; rawName := "NoFeesToClaim" |}
  \/ d = {| type := caller; label := "Invalid vault configuration";
            rawName := "InvalidVault" |}
  \/ d = {| type := caller; label := "Base fee is set too low";
            rawName := "BaseFeeTooLow" |}.
Proof.
  unfold ErrorMapping.
  rewrite !lookup_insert_Some, lookup_empty.
  intros [ [_ <-] | [_ [ [_ <-] | [_ [ [_ <-] | [_ H] ] ] ] ] ]; auto. discriminate H.
Qed.

Lemma SignatureToError_entries (k : string) (d : ClankerErrorData) :
  SignatureToError !! k = Some d ->
  (k = "0x7e5ba1ad"
   /\ d = {| type := state; label := "Hook not enabled."; rawName := "HookNotEnabled" |})
  \/ (k = "0x8b063d73"
      /\ d = {| type := state; label := "Too little received (likely dev buy).";
                rawName := "V4TooLittleReceived" |}).
Proof.
  unfold SignatureToError.
  rewrite !lookup_insert_Some, lookup_empty.
  intros [ [<- <-] | [_ [ [<- <-] | [_ H] ] ] ]; auto. discriminate H.
Qed.

(** The classifier by cases: what it wraps and what it tells. *)
Lemma understandError_cases (e : Thrown) :
  (instanceof_BaseError e = false
   /\ understandError e
      = ClankerError_unknown (if instanceof_Error e then e else new_Error (template e)) None)
  \/ (instanceof_BaseError e = true
      /\ exists errorName signature,
          revert_of e = Some (errorName, signature)
          /\ existsb instanceof_ContractFunctionRevertedError (causes e) = true)
  \/ (instanceof_BaseError e = true
      /\ existsb instanceof_ContractFunctionRevertedError (causes e) = false
      /\ exists f,
          List.find instanceof_InsufficientFundsError (causes e) = Some f
          /\ understandError e = {| error := f; data := insufficient_funds |})
  \/ (instanceof_BaseError e = true
      /\ existsb instanceof_ContractFunctionRevertedError (causes e) = false
      /\ existsb instanceof_InsufficientFundsError (causes e) = false
      /\ understandError e = ClankerError_unknown e None).
Proof.
  unfold understandError, revert_of.
  destruct (instanceof_BaseError e) eqn:B.
  - right. rewrite (ErrorsFacts.BaseError_is_Error e B). cbn [negb].
    destruct (walk instanceof_ContractFunctionRevertedError e) as [r|] eqn:W.
    + pose proof (ErrorsFacts.walk_accepts _ _ _ W) as Hr.
      destruct r as [| |[| |d s|] n m c]; try discriminate Hr.
      left. split; [reflexivity|]. exists d, s. split; [reflexivity|].
      rewrite walk_find in W.
      destruct (existsb instanceof_ContractFunctionRevertedError (causes e)) eqn:X;
        [reflexivity|].
      apply find_none_existsb in X. congruence.
    + right. rewrite walk_find in W. apply find_none_existsb in W.
      destruct (walk instanceof_InsufficientFundsError e) as [f|] eqn:F.
      * pose proof (ErrorsFacts.walk_accepts _ _ _ F) as Hf.
        destruct f as [| |[| | |] n m c]; try discriminate Hf.
        left. split; [reflexivity|]. split; [exact W|].
        eexists. split; [rewrite <- walk_find; exact F | reflexivity].
      * right. split; [reflexivity|]. split; [exact W|].
        rewrite walk_find in F. apply find_none_existsb in F.
        split; [exact F | reflexivity].
  - left. split; [reflexivity|].
    destruct (instanceof_Error e) eqn:E; reflexivity.
Qed.

(** X11.  For a failure raised by the chain library: a revert anywhere in
    its cause chain decides the classification and the failure itself is
    what gets wrapped, even when a lack-of-funds error lies nearer the
    top; with no revert in the chain, the first lack-of-funds error of
    the chain is wrapped in place of the failure and blamed on the
    caller; with neither, the failure is wrapped as unknown. *)
Theorem revert_precedes_insufficient_funds (e : Thrown) :
  instanceof_BaseError e = true ->
  (existsb instanceof_ContractFunctionRevertedError (causes e) = true ->
   error (understandError e) = e
   /\ data (understandError e) <> insufficient_funds)
  /\ (existsb instanceof_ContractFunctionRevertedError (causes e) = false ->
      forall f, List.find instanceof_InsufficientFundsError (causes e) = Some f ->
                understandError e = {| error := f; data := insufficient_funds |})
  /\ (existsb instanceof_ContractFunctionRevertedError (causes e) = false ->
      existsb instanceof_InsufficientFundsError (causes e) = false ->
      understandError e = ClankerError_unknown e None).
Proof.
  intros B.
  destruct (understandError_cases e)
    as [[B' _]|[(_ & d & s & Hrev & X)|[(_ & X & f & F & H)|(_ & X & Y & H)]]].
  - congruence.
  - split; [|split]; [|congruence|congruence]. intros _.
    rewrite (ErrorsFacts.understandError_revert e d s Hrev).
    destruct (ErrorMapping !! default "" d) as [mapping|] eqn:M.
    + split; [reflexivity|]. cbn [data].
      apply ErrorMapping_entries in M as [ -> | [ -> | -> ] ]; discriminate.
    + destruct (SignatureToError !! or_string s "0x") as [sig|] eqn:S.
      * split; [reflexivity|]. cbn [data].
        apply SignatureToError_entries in S as [ [_ ->] | [_ ->] ]; discriminate.
      * split; [reflexivity | discriminate].
  - split; [congruence|]. split; [|intros _ Y; apply find_none_existsb in Y; congruence].
    intros _ f' F'. congruence.
  - split; [congruence|]. split; [|intros _ _; exact H].
    intros _ f F. apply find_none_existsb in Y. congruence.
Qed.


(** X13.  [understandErrorCode] wraps a new error made of the selector
    and never answers [unknown]: a selector outside the table is blamed
    on the caller as 'Contract error.'.  On a selector of the table it
    tells what [understandError] tells of a revert with that selector
    whose name is not in the name table; on any other selector the two
    differ, [understandError] answering [unknown]. *)
Theorem selector_lookup_agrees (s : string) :
  error (understandErrorCode s) = new_Error s
  /\ type (data (understandErrorCode s)) <> unknown
  /\ (SignatureToError !! s = None ->
      data (understandErrorCode s)
      = {| type := caller; label := "Contract error.";
           rawName := "Unknown hex: " +:+ s |})
  /\ (forall e errorName,
         revert_of e = Some (errorName, Some s) ->
         ErrorMapping !! default "" errorName = None ->
         (is_Some (SignatureToError !! s) ->
          data (understandError e) = data (understandErrorCode s))
         /\ (SignatureToError !! s = None ->
             type (data (understandError e)) = unknown)).
Proof.
  split; [reflexivity|]. split; [|split].
  - unfold understandErrorCode. cbn [data].
    destruct (SignatureToError !! s) as [d|] eqn:S; cbn [default from_option id].
    + apply SignatureToError_entries in S as [ [_ ->] | [_ ->] ]; discriminate.
    + discriminate.
  - intros S. unfold understandErrorCode. rewrite S. reflexivity.
  - intros e errorName Hrev M.
    rewrite (ErrorsFacts.understandError_revert e errorName (Some s) Hrev), M.
    assert (Hor : SignatureToError !! or_string (Some s) "0x" = SignatureToError !! s).
    { unfold or_string. destruct (String.eqb s "") eqn:E; [|reflexivity].
      apply String.eqb_eq in E. subst s. reflexivity. }
    rewrite Hor. unfold understandErrorCode. cbn [data].
    split.
    + intros [d S]. rewrite S. reflexivity.
    + intros S. rewrite S. reflexivity.
Qed.

End ErrorsRestFacts.

(** ** The deployment pipeline, continued *)

Module PipelineRestFacts.
Import Errors Pipeline PipelineRest.

Section Facts.

Variables Args SimulateResult SimulateRequest Log : Type.
Variable estimateContractGas :
  list (Call Args) -> PublicClient -> Tx.Config Args -> Account -> Outcome Z.
Variable simulateContract :
  list (Call Args) -> PublicClient -> Tx.Config Args -> option Account ->
  Outcome (SimulateContractReturn SimulateResult SimulateRequest).
Variable writeContract :
  list (Call Args) -> WalletClient -> Tx.Config Args -> Outcome string.
Variable waitForTransactionReceipt :
  list (Call Args) -> PublicClient -> option string -> Outcome (Receipt Log).
Variable decodeEventLog : Log -> option Event.

Abbreviation Tx := (Tx.Config Args).
Abbreviation deploy :=
  (deployToken estimateContractGas simulateContract writeContract
               waitForTransactionReceipt decodeEventLog).
Abbreviation wait := (waitForTransaction_of waitForTransactionReceipt decodeEventLog).
Abbreviation simulateDeploy := (simulateDeployToken simulateContract).

(** [deployToken] past its three checks, by the answers of the chain. *)
Lemma deploy_run (tx : Tx) (wallet : WalletClient) (client : PublicClient)
    (caller : Account) (h : list (Call Args)) :
  account wallet = Some caller ->
  differs (Tx.chainId tx) (chain_id (chain client)) = false ->
  differs (Tx.chainId tx) (chain_id (wallet_chain wallet)) = false ->
  deploy tx wallet client h
  = match estimateContractGas h client tx caller with
    | Threw e => (Returned (failed e), h ++ [EstimateContractGas client tx caller])
    | Returned g =>
        let buffered := Tx.with_gas tx (Z.quot (g * 12) 10) in
        let h1 := h ++ [EstimateContractGas client tx caller] in
        match simulateContract h1 client buffered (Some caller) with
        | Threw e =>
            (Returned (failed e), h1 ++ [SimulateContract client buffered (Some caller)])
        | Returned _ =>
            let h2 := h1 ++ [SimulateContract client buffered (Some caller)] in
            match writeContract h2 wallet buffered with
            | Threw e => (Returned (failed e), h2 ++ [WriteContract wallet buffered])
            | Returned hash =>
                (Returned {| deploy_txHash := Some hash;
                             waitForTransaction := Some (wait client (Some hash));
                             deploy_error := None |},
                 h2 ++ [WriteContract wallet buffered])
            end
        end
    end.
Proof.
  intros Hacc Hclient Hwallet.
  unfold deployToken. rewrite Hacc, Hclient, Hwallet.
  unfold bind at 1. rewrite PipelineFacts.estimate_run.
  destruct (estimateContractGas h client tx caller) as [g|e]; cbn [gas gas_error].
  - unfold bind at 1. rewrite PipelineFacts.write_run. cbn [default from_option id].
    rewrite Hacc.
    destruct (simulateContract _ client _ (Some caller)) as [r|e].
    + unfold Pipeline.submitted.
      destruct (writeContract _ wallet _) as [hash|e]; reflexivity.
    + reflexivity.
  - reflexivity.
Qed.
(** X14.  [deployToken] throws exactly when the wallet has no account or
    the chain id of the transaction differs from the public client's or
    from the wallet's; it has then asked nothing of the chain.  Every
    failure of the chain itself is returned, so the multiplication of an
    undefined gas estimate is never reached. *)
Theorem deployToken_throws_iff
    (tx : Tx) (wallet : WalletClient) (client : PublicClient) (h : list (Call Args)) :
  ((exists e, fst (deploy tx wallet client h) = Threw e) <->
   account wallet = None
   \/ differs (Tx.chainId tx) (chain_id (chain client)) = true
   \/ differs (Tx.chainId tx) (chain_id (wallet_chain wallet)) = true)
  /\ (forall e, fst (deploy tx wallet client h) = Threw e ->
                snd (deploy tx wallet client h) = h
                /\ instanceof_BaseError e = false).
Proof.
  destruct (account wallet) as [caller|] eqn:Hacc.
  - destruct (differs (Tx.chainId tx) (chain_id (chain client))) eqn:Hclient.
    + unfold deployToken. rewrite Hacc, Hclient. cbn [throw fst snd].
      split; [split; eauto|]. intros e [= <-]. split; reflexivity.
    + destruct (differs (Tx.chainId tx) (chain_id (wallet_chain wallet))) eqn:Hwallet.
      * unfold deployToken. rewrite Hacc, Hclient, Hwallet. cbn [throw fst snd].
        split; [split; eauto|]. intros e [= <-]. split; reflexivity.
      * rewrite (deploy_run tx wallet client caller h Hacc Hclient Hwallet).
        assert (Hret : exists r made,
                   match estimateContractGas h client tx caller with
                   | Threw e => (Returned (failed e),
                                 h ++ [EstimateContractGas client tx caller])
                   | Returned g =>
                       let buffered := Tx.with_gas tx (Z.quot (g * 12) 10) in
                       let h1 := h ++ [EstimateContractGas client tx caller] in
                       match simulateContract h1 client buffered (Some caller) with
                       | Threw e =>
                           (Returned (failed e),
                            h1 ++ [SimulateContract client buffered (Some caller)])
                       | Returned _ =>
                           let h2 := h1 ++ [SimulateContract client buffered (Some caller)] in
                           match writeContract h2 wallet buffered with
                           | Threw e => (Returned (failed e),
                                         h2 ++ [WriteContract wallet buffered])
                           | Returned hash =>
                               (Returned {| deploy_txHash := Some hash;
                                            waitForTransaction :=
                                              Some (wait client (Some hash));
                                            deploy_error := None |},
                                h2 ++ [WriteContract wallet buffered])
                           end
                       end
                   end = (Returned r, made)).
        { destruct (estimateContractGas h client tx caller) as [g|e]; [|eauto].
          cbv zeta.
          destruct (simulateContract _ client _ (Some caller)) as [r|e]; [|eauto].
          destruct (writeContract _ wallet _) as [hash|e]; eauto. }
        destruct Hret as (r & made & ->). cbn [fst snd].
        split.
        -- split.
           ++ intros [e He]. discriminate He.
           ++ intros [H|[H|H]]; discriminate H.
        -- intros e He. discriminate He.
  - unfold deployToken. rewrite Hacc. cbn [throw fst snd].
    split; [split; eauto|]. intros e [= <-]. split; reflexivity.
Qed.

(** X15.  When the wallet has an account, the chain ids agree and the
    chain answers the estimate with [g], the simulation with a result and
    the submission with a hash: [deployToken] returns that hash with a
    closure that waits on it, having asked for the estimate of the
    transaction as given, then for the simulation and the submission of
    the transaction with its gas set to [g * 12 / 10] rounded down; for a
    non-negative estimate that is at least [g] and at most a fifth more. *)
Theorem deployToken_success
    (tx : Tx) (wallet : WalletClient) (client : PublicClient)
    (h : list (Call Args)) (caller : Account) (g : Z)
    (r : SimulateContractReturn SimulateResult SimulateRequest) (hash : string) :
  account wallet = Some caller ->
  differs (Tx.chainId tx) (chain_id (chain client)) = false ->
  differs (Tx.chainId tx) (chain_id (wallet_chain wallet)) = false ->
  estimateContractGas h client tx caller = Returned g ->
  let buffered := Tx.with_gas tx (Z.quot (g * 12) 10) in
  let h1 := h ++ [EstimateContractGas client tx caller] in
  simulateContract h1 client buffered (Some caller) = Returned r ->
  let h2 := h1 ++ [SimulateContract client buffered (Some caller)] in
  writeContract h2 wallet buffered = Returned hash ->
  deploy tx wallet client h
  = (Returned {| deploy_txHash := Some hash;
                 waitForTransaction := Some (wait client (Some hash));
                 deploy_error := None |},
     h ++ [EstimateContractGas client tx caller;
           SimulateContract client buffered (Some caller);
           WriteContract wallet buffered])
  /\ (0 <= g ->
      exists gas, Tx.gas buffered = Some gas /\ g <= gas /\ 5 * gas <= 6 * g
                  /\ 6 * g < 5 * gas + 5).
Proof.
  intros Hacc Hclient Hwallet Hgas buffered h1 Hsim h2 Hwrite.
  split.
  - rewrite (deploy_run tx wallet client caller h Hacc Hclient Hwallet), Hgas.
    cbv zeta. fold buffered. fold h1. rewrite Hsim. fold h2. rewrite Hwrite.
    unfold h2, h1. rewrite <- !app_assoc. reflexivity.
  - intros Hg. exists (Z.quot (g * 12) 10). split; [reflexivity|].
    rewrite Z.quot_div_nonneg by lia.
    pose proof (Z.div_mod (g * 12) 10 ltac:(lia)) as Hdm.
    pose proof (Z.mod_pos_bound (g * 12) 10 ltac:(lia)) as Hm.
    lia.
Qed.

(** X16.  On every run [deployToken] asks the chain for nothing, or for
    the estimate alone, or for the estimate and the simulation, or for
    these two and the submission, in that order; the simulation and the
    submission bear the buffered gas, the submission is only made after a
    simulation that returned, and the result holds either a hash with its
    closure or an error, the hash only after a submission. *)
Theorem deployToken_request_discipline
    (tx : Tx) (wallet : WalletClient) (client : PublicClient) (h : list (Call Args)) :
  exists made,
    snd (deploy tx wallet client h) = h ++ made
    /\ (made = []
        \/ exists caller,
            account wallet = Some caller
            /\ let E := EstimateContractGas client tx caller in
               (made = [E] /\ exists e, estimateContractGas h client tx caller = Threw e
                                        /\ fst (deploy tx wallet client h)
                                           = Returned (failed e))
               \/ exists g,
                   estimateContractGas h client tx caller = Returned g
                   /\ let buffered := Tx.with_gas tx (Z.quot (g * 12) 10) in
                      let S := SimulateContract client buffered (Some caller) in
                      let W := WriteContract wallet buffered in
                      (made = [E; S]
                       /\ exists e, simulateContract (h ++ [E]) client buffered (Some caller)
                                    = Threw e
                                    /\ fst (deploy tx wallet client h) = Returned (failed e))
                      \/ (made = [E; S; W]
                          /\ (exists r, simulateContract (h ++ [E]) client buffered
                                                         (Some caller) = Returned r)
                          /\ match writeContract (h ++ [E; S]) wallet buffered with
                             | Returned hash =>
                                 fst (deploy tx wallet client h)
                                 = Returned {| deploy_txHash := Some hash;
                                               waitForTransaction :=
                                                 Some (wait client (Some hash));
                                               deploy_error := None |}
                             | Threw e =>
                                 fst (deploy tx wallet client h) = Returned (failed e)
                             end)).
Proof.
  destruct (account wallet) as [caller|] eqn:Hacc;
    [|exists []; unfold deployToken; rewrite Hacc, app_nil_r; auto].
  destruct (differs (Tx.chainId tx) (chain_id (chain client))) eqn:Hclient;
    [exists []; unfold deployToken; rewrite Hacc, Hclient, app_nil_r; auto|].
  destruct (differs (Tx.chainId tx) (chain_id (wallet_chain wallet))) eqn:Hwallet;
    [exists []; unfold deployToken; rewrite Hacc, Hclient, Hwallet, app_nil_r; auto|].
  rewrite (deploy_run tx wallet client caller h Hacc Hclient Hwallet).
  destruct (estimateContractGas h client tx caller) as [g|e] eqn:Hgas.
  - cbv zeta.
    destruct (simulateContract _ client _ (Some caller)) as [r|e] eqn:Hsim.
    + exists [EstimateContractGas client tx caller;
              SimulateContract client (Tx.with_gas tx (Z.quot (g * 12) 10)) (Some caller);
              WriteContract wallet (Tx.with_gas tx (Z.quot (g * 12) 10))].
      split.
      { destruct (writeContract _ wallet _) as [hash|e]; cbn [snd];
          rewrite <- !app_assoc; reflexivity. }
      right. exists caller. split; [reflexivity|]. right. exists g.
      split; [exact Hgas|]. right. split; [reflexivity|]. split; [eauto|].
      replace (h ++ [EstimateContractGas client tx caller;
                     SimulateContract client (Tx.with_gas tx (Z.quot (g * 12) 10))
                                      (Some caller)])
        with ((h ++ [EstimateContractGas client tx caller])
              ++ [SimulateContract client (Tx.with_gas tx (Z.quot (g * 12) 10))
                                   (Some caller)])
        by (rewrite <- app_assoc; reflexivity).
      destruct (writeContract _ wallet _) as [hash|e]; reflexivity.
    + eexists. split; [cbn [snd]; rewrite <- !app_assoc; reflexivity|].
      right. exists caller. split; [reflexivity|]. right. exists g.
      split; [exact Hgas|]. left. split; [reflexivity|]. exists e.
      split; [exact Hsim | reflexivity].
  - eexists. split; [reflexivity|].
    right. exists caller. split; [reflexivity|]. left. split; [reflexivity|].
    exists e. split; [exact Hgas | reflexivity].
Qed.

(** X17.  [simulateDeployToken] throws, asking nothing, exactly when the
    chain id of the transaction differs from the public client's; it
    otherwise asks for one simulation of the transaction as given, with
    no gas estimate before it, and returns.  It never submits. *)
Theorem simulateDeployToken_never_submits
    (tx : Tx) (caller : Account) (client : PublicClient) (h : list (Call Args)) :
  (differs (Tx.chainId tx) (chain_id (chain client)) = true ->
   (exists e, fst (simulateDeploy tx caller client h) = Threw e)
   /\ snd (simulateDeploy tx caller client h) = h)
  /\ (differs (Tx.chainId tx) (chain_id (chain client)) = false ->
      (exists r, fst (simulateDeploy tx caller client h) = Returned r
                 /\ exactly_one (result r) (simulate_error r))
      /\ snd (simulateDeploy tx caller client h)
         = h ++ [SimulateContract client tx (Some caller)])
  /\ exists made,
      snd (simulateDeploy tx caller client h) = h ++ made
      /\ Forall (fun c => is_submission c = false) made.
Proof.
  unfold simulateDeployToken.
  destruct (differs (Tx.chainId tx) (chain_id (chain client))).
  - split; [|split].
    + intros _. cbn [throw fst snd]. eauto.
    + discriminate.
    + exists []. rewrite app_nil_r. split; [reflexivity | constructor].
  - rewrite PipelineFacts.simulate_run. cbn [fst snd].
    split; [discriminate|]. split.
    + intros _. split; [|reflexivity].
      eexists. split; [reflexivity|].
      destruct (simulateContract h client tx (Some caller)); cbn.
      * left. eauto.
      * right. eauto.
    + eexists. split; [reflexivity|]. repeat constructor.
Qed.

End Facts.

End PipelineRestFacts.

(** ** The v4 client class *)

Module ClankerV4Facts.
Import Abi Errors Pipeline ClankerV4.

Section Facts.

Variables SimulateResult SimulateRequest : Type.
Variable simulateContract :
  list (Call CallArgs) -> PublicClient -> Tx.Config CallArgs -> option Account ->
  Outcome (SimulateContractReturn SimulateResult SimulateRequest).
Variable writeContract :
  list (Call CallArgs) -> WalletClient -> Tx.Config CallArgs -> Outcome string.
Variable clankerConfigFor : Z -> option Target.ClankerDeployment.

Abbreviation write := (writeClankerContract simulateContract writeContract).
Abbreviation claimVaultedTokens :=
  (ClankerV4.claimVaultedTokens simulateContract writeContract clankerConfigFor).
Abbreviation update := (ClankerV4.update simulateContract writeContract clankerConfigFor).
Abbreviation updateRewardRecipient :=
  (ClankerV4.updateRewardRecipient simulateContract writeContract clankerConfigFor).
Abbreviation updateRewardAdmin :=
  (ClankerV4.updateRewardAdmin simulateContract writeContract clankerConfigFor).
Abbreviation updateSimulate := (ClankerV4.updateSimulate simulateContract clankerConfigFor).
Abbreviation claimAirdrop :=
  (ClankerV4.claimAirdrop simulateContract writeContract clankerConfigFor).
Abbreviation getVaultClaimTransaction :=
  (ClankerV4.getVaultClaimTransaction clankerConfigFor).
Abbreviation related_of := (ClankerV4.related_of clankerConfigFor).

(** Without the [simulate] option the submission is all there is. *)
Lemma write_unchecked (client : PublicClient) (w : WalletClient)
    (tx : Tx.Config CallArgs) (h : list (Call CallArgs)) :
  submits_unchecked writeContract w tx h (write client w tx None h).
Proof.
  unfold submits_unchecked. rewrite PipelineFacts.write_run. reflexivity.
Qed.

(** [related_of]: it throws, or goes on with the modules of the chain. *)
Lemma related_of_cases {A} (chainId : Z) (field : string)
    (k : Target.RelatedV4 -> Pipeline.M CallArgs A) (h : list (Call CallArgs)) :
  (exists e, related_of chainId field k h = (Threw e, h)
             /\ forall config related,
                 clankerConfigFor chainId = Some config ->
                 Target.related config <> Some related)
  \/ (exists config related,
         clankerConfigFor chainId = Some config
         /\ Target.related config = Some related
         /\ related_of chainId field k h = k related h).
Proof.
  unfold ClankerV4.related_of.
  destruct (clankerConfigFor chainId) as [config|]; [|left; eexists; split; [reflexivity|]].
  - destruct (Target.related config) as [related|] eqn:R.
    + right. exists config, related. auto.
    + left. eexists. split; [reflexivity|]. intros c r [= <-]. congruence.
  - intros c r H. discriminate H.
Qed.

(** X18.  Claiming vaulted tokens, updating a reward recipient or admin
    and claiming an airdrop each either throw before asking anything of
    the chain, or ask for exactly one submission, by the wallet of the
    class, of a call without a gas limit, and hand back its hash or its
    classified failure: none of them estimates gas or simulates first. *)
Theorem class_writes_skip_simulation
    (this : Clanker) (h : list (Call CallArgs))
    (run : Outcome WriteResult * list (Call CallArgs)) :
  (exists token, run = claimVaultedTokens this token h)
  \/ (exists token rewardIndex newRecipient,
         run = updateRewardRecipient this token rewardIndex newRecipient h)
  \/ (exists token rewardIndex newAdmin,
         run = updateRewardAdmin this token rewardIndex newAdmin h)
  \/ (exists token recipient amount proof,
         run = claimAirdrop this token recipient amount proof h) ->
  (exists e, run = (Threw e, h))
  \/ (exists w tx,
         wallet this = Some w
         /\ Tx.gas tx = None
         /\ submits_unchecked writeContract w tx h run).
Proof.
  assert (Hupdate : forall functionName args,
             (exists e, update this functionName args h = (Threw e, h))
             \/ (exists w tx,
                    wallet this = Some w /\ Tx.gas tx = None
                    /\ submits_unchecked writeContract w tx h
                         (update this functionName args h))).
  { intros functionName args. unfold ClankerV4.update.
    destruct (wallet this) as [w|]; [|left; eexists; reflexivity].
    destruct (publicClient this) as [client|]; [|left; eexists; reflexivity].
    cbv zeta.
    match goal with
    | |- context [ClankerV4.related_of _ ?c ?f ?k h] =>
        destruct (related_of_cases c f k h) as [(e & -> & _)|(config & related & _ & _ & ->)]
    end.
    - left. eauto.
    - right. eexists w, _. split; [reflexivity|]. split; [|apply write_unchecked].
      reflexivity. }
  intros [(token & ->)|[(token & i & r & ->)|[(token & i & a & ->)|(token & r & a & p & ->)]]].
  - unfold ClankerV4.claimVaultedTokens.
    destruct (wallet this) as [w|]; [|left; eexists; reflexivity].
    destruct (publicClient this) as [client|] eqn:Hc; [|left; eexists; reflexivity].
    unfold bind, ClankerV4.getVaultClaimTransaction. cbv zeta.
    match goal with
    | |- context [ClankerV4.related_of _ ?c ?f ?k h] =>
        destruct (related_of_cases c f k h) as [(e & -> & _)|(config & related & _ & _ & ->)]
    end.
    + left. eauto.
    + right. unfold ret. eexists w, _. split; [reflexivity|].
      split; [|apply write_unchecked]. reflexivity.
  - apply Hupdate.
  - apply Hupdate.
  - unfold ClankerV4.claimAirdrop.
    destruct (publicClient this) as [client|]; [|left; eexists; reflexivity].
    destruct (wallet this) as [w|]; [|left; eexists; reflexivity].
    destruct (wallet_chain w) as [chain|]; [|left; eexists; reflexivity].
    unfold bind, ClankerV4.getClaimAirdropTransaction.
    match goal with
    | |- context [ClankerV4.related_of _ ?c ?f ?k h] =>
        destruct (related_of_cases c f k h) as [(e & -> & _)|(config & related & _ & _ & ->)]
    end.
    + left. eauto.
    + right. unfold ret. eexists w, _. split; [reflexivity|].
      split; [|apply write_unchecked]. reflexivity.
Qed.

(** X19.  When the simulation of a reward update asks the chain for
    anything, it asks for one simulation, run as the account passed in
    or else as the account of the wallet; and the update itself, on a
    class with a wallet, then submits exactly the call that was
    simulated. *)
Theorem update_submits_what_was_simulated
    (this : Clanker) (functionName : string) (args : CallArgs)
    (account : option Account) (h h' : list (Call CallArgs)) :
  snd (updateSimulate this functionName args account h) <> h ->
  exists client tx acc,
    publicClient this = Some client
    /\ or_else account (wallet this ≫= Pipeline.account) = Some acc
    /\ snd (updateSimulate this functionName args account h)
       = h ++ [SimulateContract client tx (Some acc)]
    /\ Tx.functionName tx = functionName
    /\ Tx.args tx = args
    /\ forall w, wallet this = Some w ->
                 submits_unchecked writeContract w tx h' (update this functionName args h').
Proof.
  unfold ClankerV4.updateSimulate, ClankerV4.update.
  destruct (or_else account (wallet this ≫= Pipeline.account)) as [acc|];
    [|intros H; exfalso; apply H; reflexivity].
  destruct (publicClient this) as [client|]; [|intros H; exfalso; apply H; reflexivity].
  cbv zeta.
  match goal with
  | |- context [ClankerV4.related_of _ ?c ?f ?k h] =>
      destruct (related_of_cases c f k h) as [(e & -> & _)|(config & related & Hc & Hr & ->)]
  end; [intros H; exfalso; apply H; reflexivity|].
  intros _. rewrite PipelineFacts.simulate_run. cbn [snd].
  eexists client, _, acc. split; [reflexivity|]. split; [reflexivity|].
  split; [reflexivity|]. split; [reflexivity|]. split; [reflexivity|].
  intros w ->. unfold ClankerV4.related_of. rewrite Hc, Hr. apply write_unchecked.
Qed.

(** X20.  The airdrop claim is addressed by the chain of the wallet and
    the vault claim by the chain of the public client (Base when it has
    none): with modules configured for both chains, each is submitted to
    the module of its own chain, whether or not the two chains are the
    same, and only the airdrop claim carries a chain id. *)
Theorem claims_pick_their_chain
    (this : Clanker) (w : WalletClient) (client : PublicClient) (walletChain : Chain)
    (walletConfig clientConfig : Target.ClankerDeployment)
    (walletRelated clientRelated : Target.RelatedV4)
    (token recipient : Address) (amount : Z) (proof : list Hex)
    (h : list (Call CallArgs)) :
  wallet this = Some w ->
  publicClient this = Some client ->
  wallet_chain w = Some walletChain ->
  clankerConfigFor (id walletChain) = Some walletConfig ->
  Target.related walletConfig = Some walletRelated ->
  clankerConfigFor (id (default base (chain client))) = Some clientConfig ->
  Target.related clientConfig = Some clientRelated ->
  (exists tx,
      snd (claimAirdrop this token recipient amount proof h) = h ++ [WriteContract w tx]
      /\ Tx.address tx = Target.airdrop walletRelated
      /\ Tx.chainId tx = Some (id walletChain)
      /\ Tx.args tx = AirdropClaim token recipient amount proof)
  /\ (exists tx,
         snd (claimVaultedTokens this token h) = h ++ [WriteContract w tx]
         /\ Tx.address tx = Target.vault clientRelated
         /\ Tx.chainId tx = None
         /\ Tx.args tx = VaultClaim token).
Proof.
  intros Hw Hc Hwc Hcfgw Hrelw Hcfgc Hrelc. split.
  - unfold ClankerV4.claimAirdrop. rewrite Hc, Hw, Hwc.
    unfold bind, ClankerV4.getClaimAirdropTransaction, ClankerV4.related_of.
    rewrite Hcfgw, Hrelw. unfold ret.
    rewrite PipelineFacts.write_run. cbn [default from_option id].
    eexists. split; [reflexivity|]. repeat split.
  - unfold ClankerV4.claimVaultedTokens. rewrite Hw, Hc.
    unfold bind, ClankerV4.getVaultClaimTransaction, ClankerV4.related_of.
    rewrite Hc.
    assert (Hchain : or_else (Some client ≫= chain) None = chain client)
      by (cbn; destruct (chain client); reflexivity).
    rewrite Hchain, Hcfgc, Hrelc. unfold ret.
    rewrite PipelineFacts.write_run. cbn [default from_option id].
    eexists. split; [reflexivity|]. repeat split.
Qed.

(** X28.  The static builder of the vault claim throws exactly when the
    vault address is left out or empty, and looks up no configuration;
    given the address that the instance method found for the chain, it
    builds the same call, with the chain id it was passed in addition. *)
Theorem static_vault_claim_matches
    (this : Clanker) (token : Address) (options : option Chain) (chainId : option Z)
    (h : list (Call CallArgs)) (tx : Tx.Config CallArgs) :
  fst (getVaultClaimTransaction this token options h) = Returned tx ->
  Tx.address tx <> "" ->
  getVaultClaimTransactionObject token chainId (Some (Tx.address tx))
  = Returned (with_chainId tx chainId)
  /\ snd (getVaultClaimTransaction this token options h) = h
  /\ forall vaultAddress,
      (exists e, getVaultClaimTransactionObject token chainId vaultAddress = Threw e)
      <-> missing vaultAddress = true.
Proof.
  intros Hrun Haddr.
  assert (Hstatic : forall vaultAddress,
             (exists e, getVaultClaimTransactionObject token chainId vaultAddress = Threw e)
             <-> missing vaultAddress = true).
  { intros vaultAddress. unfold getVaultClaimTransactionObject.
    destruct (missing vaultAddress); split; eauto; try discriminate.
    intros [e He]. discriminate He. }
  unfold ClankerV4.getVaultClaimTransaction in *. cbv zeta in *.
  match goal with
  | H : context [ClankerV4.related_of _ ?c ?f ?k h] |- _ =>
      destruct (related_of_cases c f k h) as [(e & He & _)|(config & related & _ & _ & He)]
  end; rewrite He in *; [discriminate Hrun|].
  unfold ret in *. cbn [fst snd] in *. injection Hrun as <-.
  split; [|split; [reflexivity | exact Hstatic]].
  unfold getVaultClaimTransactionObject, missing. cbn [call Tx.address] in *.
  destruct (String.eqb_spec (Target.vault related) "") as [E|_]; [contradiction|].
  reflexivity.
Qed.

End Facts.

End ClankerV4Facts.

(** ** Deploying through the v4 client class *)

Module ClankerV4DeployFacts.
Import Abi Errors Pipeline ClankerV4 ClankerV4Deploy.

Lemma differs_false (a b : option Z) : differs a b = false <-> a = b.
Proof.
  destruct a as [x|], b as [y|]; simpl; split; try congruence.
  - intros H. apply negb_false_iff, Z.eqb_eq in H. congruence.
  - intros [= ->]. rewrite Z.eqb_refl. reflexivity.
Qed.

Section Facts.

Variables Token Number Metadata Context : Type.
Variable to_wei : Number -> option Z.
Variable stringify_metadata : Metadata -> string.
Variable stringify_context : Context -> string.
Variable DEFAULT_SUPPLY : Z.
Variable WETH_ADDRESSES : Z -> option Address.
Variable clankerConfigFor : Z -> option Target.ClankerDeployment.
Variable findVanityAddressV4 :
  string * string * Z * Address * string * string * string * Z ->
  Address -> string -> Target.ClankerDeployment -> option (Hex * Address).
Variable parse : Token -> option (Config.Cfg Number Metadata Context).
Variable zodError : Token -> Thrown.
Variable thrown : Converter.Error -> Thrown.
Variables SimulateResult SimulateRequest Log : Type.
Variable estimateContractGas :
  list (Call Payload.DeploymentConfig) -> PublicClient ->
  Tx.Config Payload.DeploymentConfig -> Account -> Outcome Z.
Variable simulateContract :
  list (Call Payload.DeploymentConfig) -> PublicClient ->
  Tx.Config Payload.DeploymentConfig -> option Account ->
  Outcome (SimulateContractReturn SimulateResult SimulateRequest).
Variable writeContract :
  list (Call Payload.DeploymentConfig) -> WalletClient ->
  Tx.Config Payload.DeploymentConfig -> Outcome string.
Variable waitForTransactionReceipt :
  list (Call Payload.DeploymentConfig) -> PublicClient -> option string ->
  Outcome (Receipt Log).
Variable decodeEventLog : Log -> option Event.

Abbreviation convert :=
  (Converter.clankerTokenV4Converter to_wei stringify_metadata stringify_context
     DEFAULT_SUPPLY WETH_ADDRESSES clankerConfigFor findVanityAddressV4).
Abbreviation deploy :=
  (ClankerV4Deploy.deploy to_wei stringify_metadata stringify_context
     DEFAULT_SUPPLY WETH_ADDRESSES clankerConfigFor findVanityAddressV4
     parse zodError thrown
     estimateContractGas simulateContract writeContract
     waitForTransactionReceipt decodeEventLog).

(** X21.  Whenever [deploy] asks anything of the chain, the token passed
    the schema, the converter returned a transaction, the wallet has an
    account, and the chain ids of the public client and of the wallet
    both equal the [chainId] of the token; the first thing asked is the
    gas estimate of that transaction.  A token for another chain than
    the clients' is therefore refused before any request. *)
Theorem class_deploy_needs_matching_chains
    (this : Clanker) (token : Token) (h : list (Call Payload.DeploymentConfig)) :
  snd (deploy this token h) <> h ->
  exists cfg tx w client caller rest,
    parse token = Some cfg
    /\ convert cfg = inr tx
    /\ wallet this = Some w
    /\ publicClient this = Some client
    /\ account w = Some caller
    /\ chain_id (chain client) = Some (Config.chainId cfg)
    /\ chain_id (wallet_chain w) = Some (Config.chainId cfg)
    /\ snd (deploy this token h) = h ++ EstimateContractGas client tx caller :: rest.
Proof.
  unfold ClankerV4Deploy.deploy.
  destruct (wallet this) as [w|]; [|intros H; exfalso; apply H; reflexivity].
  destruct (publicClient this) as [client|]; [|intros H; exfalso; apply H; reflexivity].
  unfold bind, getDeployTransaction.
  destruct (parse token) as [cfg|]; [|intros H; exfalso; apply H; reflexivity].
  destruct (convert cfg) as [e|tx] eqn:Hconv; [intros H; exfalso; apply H; reflexivity|].
  unfold ret.
  pose proof (ConverterRestFacts.convert_inr_chainId _ _ _ _ _ _ _ _ _ _ _ _ Hconv) as Hid.
  destruct (account w) as [caller|] eqn:Hacc;
    [|unfold deployToken; rewrite Hacc; intros H; exfalso; apply H; reflexivity].
  destruct (differs (Tx.chainId tx) (chain_id (chain client))) eqn:Hclient;
    [unfold deployToken; rewrite Hacc, Hclient; intros H; exfalso; apply H; reflexivity|].
  destruct (differs (Tx.chainId tx) (chain_id (wallet_chain w))) eqn:Hwallet;
    [unfold deployToken; rewrite Hacc, Hclient, Hwallet;
     intros H; exfalso; apply H; reflexivity|].
  intros _.
  rewrite (PipelineRestFacts.deploy_run _ _ _ _ _ _ _ _ _
             tx w client caller h Hacc Hclient Hwallet).
  apply differs_false in Hclient, Hwallet. rewrite Hid in Hclient, Hwallet.
  exists cfg, tx, w, client, caller.
  destruct (estimateContractGas h client tx caller) as [g|e].
  - cbv zeta.
    destruct (simulateContract _ client _ (Some caller)) as [r|e].
    + destruct (writeContract _ w _) as [hash|e]; cbn [snd]; rewrite <- !app_assoc;
        eexists; repeat split; eauto.
    + cbn [snd]. rewrite <- !app_assoc. eexists; repeat split; eauto.
  - eexists. repeat split; eauto.
Qed.

End Facts.

End ClankerV4DeployFacts.

(** ** The airdrop utilities *)

Module AirdropUtilsFacts.
Import Abi AirdropUtils.

Lemma reduce_amounts (recipients : list AirdropRecipient) (init scale : Z) :
  Js.reduce (fun agg r => amount r + agg) init recipients * scale
  = init * scale
    + ConverterRest.sum_list (map (fun r => amount r * scale) recipients).
Proof.
  unfold Js.reduce. revert init.
  induction recipients as [|r rs IH]; intros init; simpl; [lia|].
  rewrite IH. lia.
Qed.

Lemma mapM_map_Some {A B C} (g : B -> option C) (f : A -> B) (k : A -> C) (l : list A) :
  (forall x, g (f x) = Some (k x)) -> mapM g (map f l) = Some (map k l).
Proof.
  intros H. induction l as [|x l IH]; [reflexivity|].
  cbn. rewrite H. cbn. rewrite IH. reflexivity.
Qed.

Section Facts.

Variable addressSchema : Address -> bool.
Variable toString : Z -> string.
Variable BigInt : string -> option Z.
Variable isAddressEqual : Address -> Address -> option bool.
Variable MerkleTree : Type.
Variable StandardMerkleTree_of : list MerkleEntry -> option MerkleTree.
Variable validate : MerkleTree -> bool.
Variable root : MerkleTree -> Hex.
Variable entries : MerkleTree -> list MerkleEntry.
Variable getProof : MerkleTree -> nat -> list Hex.

(** [BigInt] reads back what [toString] printed, and a tree lists the
    values it was made of. *)
Hypothesis BigInt_toString : forall z, BigInt (toString z) = Some z.
Hypothesis entries_of :
  forall values tree, StandardMerkleTree_of values = Some tree -> entries tree = values.

Abbreviation createAirdrop :=
  (AirdropUtils.createAirdrop addressSchema toString StandardMerkleTree_of validate root).
Abbreviation getAirdropProofs :=
  (AirdropUtils.getAirdropProofs BigInt isAddressEqual entries getProof).
Abbreviation registered := (AirdropUtils.registered BigInt entries).

(** What a tree made by [createAirdrop] holds. *)
Lemma createAirdrop_inv (recipients : list AirdropRecipient) (tokenDecimals : Z)
    (tree : MerkleTree) (airdrop : Hex * Z) :
  createAirdrop recipients tokenDecimals = Some (tree, airdrop) ->
  entries tree
  = map (fun r => (account r, toString (amount r * 10 ^ tokenDecimals))) recipients
  /\ airdrop = (root tree, Js.reduce (fun agg r => amount r + agg) 0 recipients)
  /\ Forall (fun r => addressSchema (account r) = true) recipients.
Proof.
  unfold AirdropUtils.createAirdrop.
  destruct (Js.every _ recipients) eqn:Hall; [|discriminate].
  destruct ((tokenDecimals <? 0) && _) eqn:Hneg; [discriminate|].
  cbn [negb].
  destruct (StandardMerkleTree_of _) as [t|] eqn:Hof; [|discriminate].
  destruct (validate t); [|discriminate].
  intros [= <- <-].
  split; [exact (entries_of _ _ Hof)|]. split; [reflexivity|].
  apply Forall_forall. intros r Hr. unfold Js.every in Hall.
  rewrite forallb_forall in Hall. apply Hall, list_elem_of_In, Hr.
Qed.

(** The loop keeps the entries of the account, each with its index. *)
Lemma indices_from_map (f : AirdropRecipient -> string)
    (recipients : list AirdropRecipient) (a : Address) (i : nat) :
  Forall (fun r => is_Some (isAddressEqual (account r) a)) recipients ->
  indices_from isAddressEqual i (map (fun r => (account r, f r)) recipients) a
  = Some (map (fun ir : nat * AirdropRecipient =>
                 (fst ir, (account (snd ir), f (snd ir))))
              (List.filter (fun ir : nat * AirdropRecipient =>
                              default false (isAddressEqual (account (snd ir)) a))
                           (indexed_from i recipients))).
Proof.
  intros Hall. revert i.
  induction Hall as [|r rs [same Hsame] _ IH]; intros i; [reflexivity|].
  cbn [map indices_from indexed_from List.filter fst snd].
  rewrite Hsame, IH. cbn [default from_option id].
  destruct same; reflexivity.
Qed.

(** X22.  On a tree made by [createAirdrop], and for an account that
    [isAddressEqual] can compare with every recipient, [getAirdropProofs]
    returns one claim for each recipient entry of that account, in the
    order of the recipients list and with the proof of its index there;
    the amount of a claim is the amount of the entry times ten to the
    number of decimals. *)
Theorem airdrop_proofs_round_trip
    (recipients : list AirdropRecipient) (tokenDecimals : Z)
    (tree : MerkleTree) (airdrop : Hex * Z) (a : Address) :
  createAirdrop recipients tokenDecimals = Some (tree, airdrop) ->
  Forall (fun r => is_Some (isAddressEqual (account r) a)) recipients ->
  getAirdropProofs tree a
  = Some (map (fun ir : nat * AirdropRecipient =>
                 {| proof := getProof tree (fst ir);
                    entry_account := account (snd ir);
                    entry_amount := amount (snd ir) * 10 ^ tokenDecimals |})
              (List.filter (fun ir : nat * AirdropRecipient =>
                              default false (isAddressEqual (account (snd ir)) a))
                           (indexed_from 0 recipients))).
Proof.
  intros Hcreate Hall.
  apply createAirdrop_inv in Hcreate as (Hentries & _ & _).
  unfold AirdropUtils.getAirdropProofs.
  rewrite Hentries, (indices_from_map _ recipients a 0 Hall).
  apply mapM_map_Some. intros [i r]. cbn [fst snd].
  rewrite BigInt_toString. reflexivity.
Qed.


End Facts.

End AirdropUtilsFacts.

(** ** Helpers of the v3.1 converter *)

Module V3Facts.
Import V3.


Section Facts.

Variable WETH_ADDRESSES : Z -> option Address.
Variables DEGEN_ADDRESS NATIVE_ADDRESS CLANKER_ADDRESS ANON_ADDRESS : Address.
Variables HIGHER_ADDRESS CB_BTC_ADDRESS A0X_ADDRESS : Address.

Abbreviation getTokenPairByAddress :=
  (V3.getTokenPairByAddress WETH_ADDRESSES DEGEN_ADDRESS NATIVE_ADDRESS CLANKER_ADDRESS
     ANON_ADDRESS HIGHER_ADDRESS CB_BTC_ADDRESS A0X_ADDRESS).
Abbreviation pairAddress :=
  (V3.pairAddress WETH_ADDRESSES DEGEN_ADDRESS NATIVE_ADDRESS CLANKER_ADDRESS
     ANON_ADDRESS HIGHER_ADDRESS CB_BTC_ADDRESS A0X_ADDRESS).
Abbreviation known_quote_tokens :=
  (V3.known_quote_tokens WETH_ADDRESSES DEGEN_ADDRESS NATIVE_ADDRESS CLANKER_ADDRESS
     ANON_ADDRESS HIGHER_ADDRESS CB_BTC_ADDRESS A0X_ADDRESS).

(** X25.  The pool of a v3.1 token is paired with the quote token asked
    for when that is, character for character, one of the nine addresses
    the converter tells apart, and with WETH on Base for every other
    address; the pairs [WMON] and [null] are never chosen. *)
Theorem quote_token_falls_back_to_weth (quoteToken : Address) :
  (In quoteToken known_quote_tokens ->
   pairAddress (getTokenPairByAddress quoteToken) = Some quoteToken)
  /\ (~ In quoteToken known_quote_tokens ->
      getTokenPairByAddress quoteToken = Some WETH
      /\ pairAddress (getTokenPairByAddress quoteToken) = WETH_ADDRESSES 8453)
  /\ getTokenPairByAddress quoteToken <> Some WMON
  /\ getTokenPairByAddress quoteToken <> None.
Proof.
  unfold V3.getTokenPairByAddress, V3.known_quote_tokens, V3.is_base_weth.
  destruct (WETH_ADDRESSES 8453) as [weth|] eqn:W.
  - destruct (String.eqb_spec quoteToken weth) as [->|N0];
      [cbn; rewrite W; split; [reflexivity|];
       split; [intros H; exfalso; apply H; left; reflexivity|];
       split; discriminate|].
    repeat match goal with
           | |- context [String.eqb quoteToken ?c] =>
               destruct (String.eqb_spec quoteToken c) as [->|?];
               [cbn; split; [reflexivity|];
                split; [intros H; exfalso; apply H; cbn; tauto|];
                split; discriminate|]
           end.
    cbn. rewrite W. split; [|split; [split; reflexivity|split; discriminate]].
    intros [H|[H|[H|[H|[H|[H|[H|[H|[H|[]]]]]]]]]]; congruence.
  - repeat match goal with
           | |- context [String.eqb quoteToken ?c] =>
               destruct (String.eqb_spec quoteToken c) as [->|?];
               [cbn; split; [reflexivity|];
                split; [intros H; exfalso; apply H; cbn; tauto|];
                split; discriminate|]
           end.
    cbn. rewrite W. split; [|split; [split; reflexivity|split; discriminate]].
    intros [H|[H|[H|[H|[H|[H|[H|[H|[]]]]]]]]]; congruence.
Qed.

End Facts.

End V3Facts.

(** ** The extension classes *)

Module ExtensionsFacts.
Import Abi Errors Extensions.



End ExtensionsFacts.

(** ** The further properties on concrete inputs *)

Module WitnessesRest.
Import Abi Errors Pipeline.


Lemma demo_converts : exists tx, Demo.convert Demo.cfg = inr tx.
Proof. vm_compute. eexists. reflexivity. Defined.

Lemma extension_shares_witness :
  exists tx,
    Demo.convert Demo.cfg = inr tx
    /\ Forall (fun e => 0 <= Payload.extensionBps e <= 9000)
              (Payload.extensionConfigs (Tx.args tx))
    /\ 25 <= Converter.share Allocator.SPEC_DEFAULT_SUPPLY Demo.cfg.
Proof.
  destruct demo_converts as [tx E]. exists tx. split; [exact E|].
  assert (Hs : 0 < Allocator.SPEC_DEFAULT_SUPPLY) by reflexivity.
  assert (Hv : SchemaRest.vault_schema DemoRest.addressSchema (Some DemoRest.vault_input)
               = Some (Config.vault Demo.cfg)) by (vm_compute; reflexivity).
  assert (Ha : SchemaRest.airdrop_schema DemoRest.addressSchema DemoRest.hexSchema
                 Allocator.SPEC_DEFAULT_SUPPLY (Some DemoRest.airdrop_input)
               = Some (Config.airdrop Demo.cfg)) by (vm_compute; reflexivity).
  destruct (ConverterRestFacts.extension_shares_capped
              Z string string Demo.to_wei (fun m => m) (fun c => c)
              Allocator.SPEC_DEFAULT_SUPPLY Demo.WETH_ADDRESSES
              Demo.clankerConfigFor Demo.findVanityAddressV4
              DemoRest.addressSchema DemoRest.hexSchema
              (Some DemoRest.vault_input) (Some DemoRest.airdrop_input)
              Demo.cfg tx Hs Hv Ha E) as [Hall Hmin].
  split; [exact Hall|]. apply Hmin; [vm_compute; reflexivity | eexists; reflexivity].
Defined.


Lemma extension_totals_witness :
  exists tx,
    Demo.convert Demo.cfg = inr tx
    /\ Tx.value tx
       = Some (ConverterRest.total_msgValue (Payload.extensionConfigs (Tx.args tx)))
    /\ ConverterRest.total_extensionBps (Payload.extensionConfigs (Tx.args tx)) = 1034.
Proof.
  destruct demo_converts as [tx E]. exists tx. split; [exact E|].
  destruct (ConverterRestFacts.extension_totals
              Z string string Demo.to_wei (fun m => m) (fun c => c)
              Allocator.SPEC_DEFAULT_SUPPLY Demo.WETH_ADDRESSES
              Demo.clankerConfigFor Demo.findVanityAddressV4 Demo.cfg tx E)
    as [Hvalue Hbps].
  split; [exact Hvalue|]. rewrite Hbps. vm_compute. reflexivity.
Defined.



Lemma v4_1_settings_witness :
  ConverterRest.first_generation Demo.related
  /\ Demo.convert (ConverterRest.with_v4_1_settings Demo.cfg DemoRest.other_extension
                     DemoRest.sniper_setting)
     = Demo.convert Demo.cfg.
Proof.
  assert (Hfirst : ConverterRest.first_generation Demo.related)
    by (split; [|split]; reflexivity).
  split; [exact Hfirst|].
  apply (ConverterRestFacts.v4_1_settings_unused_on_first_generation
           Z string string Demo.to_wei (fun m => m) (fun c => c)
           Allocator.SPEC_DEFAULT_SUPPLY Demo.WETH_ADDRESSES
           Demo.clankerConfigFor Demo.findVanityAddressV4).
  intros clankerConfig related Hc Hr.
  vm_compute in Hc. injection Hc as <-.
  vm_compute in Hr. injection Hr as <-.
  exact Hfirst.
Defined.


Lemma insufficient_funds_witness :
  instanceof_BaseError DemoRest.funds_failure = true
  /\ understandError DemoRest.funds_failure
     = {| error := DemoRest.funds_error; data := ErrorsRest.insufficient_funds |}.
Proof.
  split; [reflexivity|].
  destruct (ErrorsRestFacts.revert_precedes_insufficient_funds
              DemoRest.funds_failure eq_refl) as (_ & Hfunds & _).
  apply Hfunds; reflexivity.
Defined.

Lemma deployToken_success_witness :
  let buffered := Tx.with_gas Demo.tx 120000 in
  deployToken Demo.estimateContractGas DemoRest.simulateContract_ok Demo.writeContract
    Demo.waitForTransactionReceipt Demo.decodeEventLog Demo.tx Demo.wallet Demo.client []
  = (Returned {| deploy_txHash := Some "0xabc";
                 waitForTransaction :=
                   Some (waitForTransaction_of Demo.waitForTransactionReceipt
                           Demo.decodeEventLog Demo.client (Some "0xabc"));
                 deploy_error := None |},
     [EstimateContractGas Demo.client Demo.tx Demo.caller;
      SimulateContract Demo.client buffered (Some Demo.caller);
      WriteContract Demo.wallet buffered]).
Proof.
  exact (proj1 (PipelineRestFacts.deployToken_success
                  unit unit unit nat
                  Demo.estimateContractGas DemoRest.simulateContract_ok Demo.writeContract
                  Demo.waitForTransactionReceipt Demo.decodeEventLog
                  Demo.tx Demo.wallet Demo.client [] Demo.caller 100000
                  DemoRest.simulated "0xabc"
                  eq_refl eq_refl eq_refl eq_refl eq_refl eq_refl)).
Defined.

Lemma class_writes_witness :
  exists w tx,
    ClankerV4.wallet DemoRest.clanker = Some w
    /\ Tx.gas tx = None
    /\ ClankerV4.submits_unchecked DemoRest.class_writeContract w tx []
         (ClankerV4.claimVaultedTokens DemoRest.class_simulateContract
            DemoRest.class_writeContract DemoRest.clankerConfigFor
            DemoRest.clanker Demo.first_token []).
Proof.
  destruct (ClankerV4Facts.class_writes_skip_simulation
              unit unit DemoRest.class_simulateContract DemoRest.class_writeContract
              DemoRest.clankerConfigFor DemoRest.clanker []
              (ClankerV4.claimVaultedTokens DemoRest.class_simulateContract
                 DemoRest.class_writeContract DemoRest.clankerConfigFor
                 DemoRest.clanker Demo.first_token [])
              (or_introl (ex_intro _ Demo.first_token eq_refl)))
    as [[e He]|H].
  - exfalso. vm_compute in He. discriminate He.
  - exact H.
Defined.

Lemma update_simulation_witness :
  exists tx,
    snd (ClankerV4.updateSimulate DemoRest.class_simulateContract
           DemoRest.clankerConfigFor DemoRest.clanker "updateRewardRecipient"
           DemoRest.recipient_update None [])
    = [SimulateContract Demo.client tx (Some Demo.caller)]
    /\ Tx.address tx = Target.locker Demo.related
    /\ ClankerV4.submits_unchecked DemoRest.class_writeContract
         DemoRest.wallet_unichain tx []
         (ClankerV4.update DemoRest.class_simulateContract DemoRest.class_writeContract
            DemoRest.clankerConfigFor DemoRest.clanker "updateRewardRecipient"
            DemoRest.recipient_update []).
Proof.
  assert (Hasked : snd (ClankerV4.updateSimulate DemoRest.class_simulateContract
                          DemoRest.clankerConfigFor DemoRest.clanker
                          "updateRewardRecipient" DemoRest.recipient_update None [])
                   <> []).
  { vm_compute. intros H. discriminate H. }
  destruct (ClankerV4Facts.update_submits_what_was_simulated
              unit unit DemoRest.class_simulateContract DemoRest.class_writeContract
              DemoRest.clankerConfigFor DemoRest.clanker "updateRewardRecipient"
              DemoRest.recipient_update None [] [] Hasked)
    as (client & tx & acc & Hclient & Hacc & Hrun & _ & _ & Hsame).
  injection Hclient as <-. injection Hacc as <-.
  exists tx. split; [exact Hrun|]. split; [|exact (Hsame _ eq_refl)].
  vm_compute in Hrun. injection Hrun as <-. reflexivity.
Defined.

Lemma claims_chain_witness :
  id DemoRest.unichain <> id base
  /\ (exists tx,
         snd (ClankerV4.claimAirdrop DemoRest.class_simulateContract
                DemoRest.class_writeContract DemoRest.clankerConfigFor DemoRest.clanker
                Demo.first_token Demo.admin_address 34 [] [])
         = [WriteContract DemoRest.wallet_unichain tx]
         /\ Tx.address tx = Target.airdrop DemoRest.related_unichain)
  /\ (exists tx,
         snd (ClankerV4.claimVaultedTokens DemoRest.class_simulateContract
                DemoRest.class_writeContract DemoRest.clankerConfigFor DemoRest.clanker
                Demo.first_token [])
         = [WriteContract DemoRest.wallet_unichain tx]
         /\ Tx.address tx = Target.vault Demo.related).
Proof.
  split; [discriminate|].
  destruct (ClankerV4Facts.claims_pick_their_chain
              unit unit DemoRest.class_simulateContract DemoRest.class_writeContract
              DemoRest.clankerConfigFor DemoRest.clanker DemoRest.wallet_unichain
              Demo.client DemoRest.unichain DemoRest.deployment_unichain Demo.deployment
              DemoRest.related_unichain Demo.related
              Demo.first_token Demo.admin_address 34 [] []
              eq_refl eq_refl eq_refl eq_refl eq_refl eq_refl eq_refl)
    as [(tx & Hrun & Haddr & _) (tx' & Hrun' & Haddr' & _)].
  split; [exists tx | exists tx']; auto.
Defined.

Lemma class_deploy_witness :
  exists tx rest,
    Demo.convert Demo.cfg = inr tx
    /\ chain_id (chain Demo.client) = Some (Config.chainId Demo.cfg)
    /\ chain_id (wallet_chain Demo.wallet) = Some (Config.chainId Demo.cfg)
    /\ snd (DemoRest.class_deploy DemoRest.clanker_base Demo.cfg [])
       = EstimateContractGas Demo.client tx Demo.caller :: rest.
Proof.
  assert (Hasked : snd (DemoRest.class_deploy DemoRest.clanker_base Demo.cfg []) <> []).
  { assert (E : exists c rest,
               snd (DemoRest.class_deploy DemoRest.clanker_base Demo.cfg []) = c :: rest)
      by (vm_compute; do 2 eexists; reflexivity).
    destruct E as (c & rest & ->). discriminate. }
  destruct (ClankerV4DeployFacts.class_deploy_needs_matching_chains
              _ _ _ _ _ _ _ _ _ _ _ _ _ _ _ _ _ _ _ _ _ _
              DemoRest.clanker_base Demo.cfg [] Hasked)
    as (cfg & tx & w & client & caller & rest
        & Hparse & Hconv & Hw & Hclient & Hacc & Hc1 & Hc2 & Hrun).
  injection Hparse as <-. injection Hw as <-. injection Hclient as <-.
  injection Hacc as <-.
  exists tx, rest. split; [exact Hconv|]. split; [exact Hc1|]. split; [exact Hc2 | exact Hrun].
Defined.

(** Numbers printed in decimal are read back. *)
Lemma decimal_round_trip (z : Z) : DemoRest.BigInt (DemoRest.toString z) = Some z.
Proof.
  unfold DemoRest.BigInt, DemoRest.toString.
  rewrite DecimalString.NilZero.isi.
  - simpl. rewrite DecimalZ.of_to. reflexivity.
  - destruct z; simpl; try discriminate.
    intros [= H]. revert H. apply DecimalPos.Unsigned.to_uint_nonnil.
  - destruct z; simpl; try discriminate.
    intros [= H]. revert H. apply DecimalPos.Unsigned.to_uint_nonnil.
Defined.

Lemma demo_tree_entries (values tree : list AirdropUtils.MerkleEntry) :
  DemoRest.StandardMerkleTree_of values = Some tree -> tree = values.
Proof. destruct values; simpl; congruence. Defined.

Lemma demo_airdrop_created :
  exists tree airdrop, DemoRest.createAirdrop DemoRest.recipients 18 = Some (tree, airdrop)
                       /\ snd airdrop = 333333334.
Proof. vm_compute. do 2 eexists. split; reflexivity. Defined.

Lemma airdrop_proofs_witness :
  exists tree airdrop claims,
    DemoRest.createAirdrop DemoRest.recipients 18 = Some (tree, airdrop)
    /\ DemoRest.getAirdropProofs tree Demo.admin_address = Some claims
    /\ map AirdropUtils.entry_amount claims = [333333000 * 10 ^ 18; 34 * 10 ^ 18]
    /\ map AirdropUtils.proof claims = [DemoRest.getProof tree 0; DemoRest.getProof tree 2].
Proof.
  destruct demo_airdrop_created as (tree & airdrop & Hcreated & _).
  exists tree, airdrop. eexists. split; [exact Hcreated|].
  split.
  - apply (AirdropUtilsFacts.airdrop_proofs_round_trip
             DemoRest.addressSchema DemoRest.toString DemoRest.BigInt
             DemoRest.isAddressEqual (list AirdropUtils.MerkleEntry)
             DemoRest.StandardMerkleTree_of (fun _ => true) DemoRest.root
             (fun tree => tree) DemoRest.getProof
             decimal_round_trip demo_tree_entries
             DemoRest.recipients 18 tree airdrop Demo.admin_address Hcreated).
    repeat constructor; eexists; reflexivity.
  - split; reflexivity.
Defined.




Lemma static_vault_claim_witness :
  let tx := ClankerV4.call Tx.ClankerVault_v4_abi (Target.vault Demo.related) "claim"
                           (ClankerV4.VaultClaim Demo.first_token) in
  fst (ClankerV4.getVaultClaimTransaction DemoRest.clankerConfigFor DemoRest.clanker
         Demo.first_token None []) = Returned tx
  /\ ClankerV4.getVaultClaimTransactionObject Demo.first_token (Some 8453)
       (Some (Target.vault Demo.related))
     = Returned (ClankerV4.with_chainId tx (Some 8453)).
Proof.
  intros tx.
  assert (Hrun : fst (ClankerV4.getVaultClaimTransaction DemoRest.clankerConfigFor
                        DemoRest.clanker Demo.first_token None []) = Returned tx)
    by reflexivity.
  split; [exact Hrun|].
  assert (Haddr : Tx.address tx <> "") by discriminate.
  exact (proj1 (ClankerV4Facts.static_vault_claim_matches
                  DemoRest.clankerConfigFor DemoRest.clanker Demo.first_token None
                  (Some 8453) [] tx Hrun Haddr)).
Defined.

End WitnessesRest.
